(** * EdgeNeuro: the synthetic training-data generator

    A shallow embedding of [scripts/generate_synthetic_training.py] and the
    properties of its generated dataset.

    Modelling conventions.
    - A Python [str] is a [string]: a sequence of code points, restricted to
      U+0000..U+00FF.  Every string the script lowercases, formats or
      serialises is in that range, and [str.lower] and the JSON string
      encoder are modelled exactly on it.
    - Standard output is a [console]: the lines printed, given by their
      UTF-8 encoding, and what makes [print] fail: a closed stream, an
      encoding without the symbols of the messages, a write the operating
      system refuses.
    - The file system grants a number of operations ([st_io_budget]) and
      refuses the next one with [OSError].
    - The module [random] is an abstract random source ([RandomSource]):
      a state with the two primitives the script reaches, [_randbelow] and
      [random].
    - Exceptions are values of [exn]; statements run in a state and error
      monad [M] over the interpreter state [state]. *)

From Stdlib Require Import Ascii List Arith NArith ZArith Lia Permutation.
From Stdlib Require String.
From stdpp Require Import base list strings pretty gmap.

(** * Part I: the script and its libraries *)

(** ** Python strings *)

Module PyStr.

(** The double quote, which a string literal of this file cannot hold. *)
Definition dquote : ascii := "034"%char.

Definition in_range (lo hi : nat) (c : ascii) : bool :=
  (lo <=? nat_of_ascii c) && (nat_of_ascii c <=? hi).

(** [str.lower] on one code point below U+0100: the letters A-Z and the
    Latin-1 capitals U+00C0..U+00DE, the multiplication sign U+00D7
    excepted, move up by 32. *)
Definition lower_char (c : ascii) : ascii :=
  if in_range 65 90 c then ascii_of_nat (nat_of_ascii c + 32)
  else if in_range 192 222 c && negb (Ascii.eqb c "215"%char)
       then ascii_of_nat (nat_of_ascii c + 32)
  else c.

(** [s.lower()] *)
Fixpoint lower (s : string) : string :=
  match s with
  | EmptyString => EmptyString
  | String c s' => String (lower_char c) (lower s')
  end.

Fixpoint all_chars (p : ascii -> bool) (s : string) : bool :=
  match s with
  | EmptyString => true
  | String c s' => p c && all_chars p s'
  end.

Definition is_lower_char (c : ascii) : bool := Ascii.eqb (lower_char c) c.

(** [s] is left alone by [lower]. *)
Definition is_lowercase (s : string) : bool := all_chars is_lower_char s.

(** [sub in s]: [sub] occurs in [s] as a contiguous substring. *)
Definition occurs_in (sub s : string) : Prop :=
  exists pre post, s = pre +:+ sub +:+ post.

End PyStr.

(** ** Exceptions and results *)

Inductive exn : Type :=
| IndexError
| KeyError
| ValueError
| OSError
| UnicodeEncodeError
| NotImplementedError.

Inductive result (A : Type) : Type :=
| Ok (a : A)
| Raise (e : exn).
Arguments Ok {A} a.
Arguments Raise {A} e.

(** Both return, or both raise the same exception. *)
Definition same_outcome {A B : Type} (r : result A) (r' : result B) : Prop :=
  match r, r' with
  | Ok _, Ok _ => True
  | Raise e, Raise e' => e = e'
  | _, _ => False
  end.

(** ** [str.format] with the single keyword argument [intent]

    The replacement-field grammar is modelled for plain fields [{name}] and
    the escapes [{{] and [}}].  A field with a conversion, a format
    specification, an attribute or an index is outside the modelled
    fragment: the model marks it with [NotImplementedError], which says
    nothing of what Python does there, and [supported] is the test that
    no such field is met.  No template of the script has one. *)

Module PyFormat.

Definition is_digit (c : ascii) : bool := PyStr.in_range 48 57 c.

Definition is_field_operator (c : ascii) : bool :=
  Ascii.eqb c "!" || Ascii.eqb c ":" || Ascii.eqb c "." || Ascii.eqb c "[".

(** The largest index [get_integer] accepts, on a 64-bit build. *)
Definition PY_SSIZE_T_MAX : N := (2 ^ 63 - 1)%N.

Inductive integer : Type :=
| NotInteger
| TooManyDigits
| Integer (n : N).

(** [get_integer]: the characters are read from the left; one that is no
    decimal digit ends the reading with "not an integer", and a digit
    that takes the number above [PY_SSIZE_T_MAX] with "too many decimal
    digits". *)
Fixpoint get_integer (acc : N) (s : string) : integer :=
  match s with
  | EmptyString => Integer acc
  | String c s' =>
      if negb (is_digit c) then NotInteger
      else
        let acc' := (10 * acc + N.of_nat (nat_of_ascii c - 48))%N in
        if (PY_SSIZE_T_MAX <? acc')%N then TooManyDigits
        else get_integer acc' s'
  end.

(** Looking up a replacement field among [args = ()] and
    [kwargs = {"intent": intent}]: a name of digits (or the empty name,
    which is numbered 0) is an index into the empty [args], unless it
    overflows; any other name is a key. *)
Definition get_field (name intent : string) : result string :=
  if String.eqb name "intent" then Ok intent
  else if negb (PyStr.all_chars (fun c => negb (is_field_operator c)) name)
       then Raise NotImplementedError
  else
    match get_integer 0 name with
    | TooManyDigits => Raise ValueError
    | Integer _ => Raise IndexError
    | NotInteger => Raise KeyError
    end.

(** The scanner: [field = None] while reading literal text,
    [field = Some name] inside a replacement field whose first characters
    are [name].  An opening brace inside a field name, a closing brace on
    its own and a field left open are [ValueError]s. *)
Fixpoint format_go (intent : string) (field : option string) (s : string)
  : result string :=
  match field with
  | Some name =>
      match s with
      | EmptyString => Raise ValueError
      | String c s' =>
          if Ascii.eqb c "}" then
            match get_field name intent with
            | Raise e => Raise e
            | Ok v =>
                match format_go intent None s' with
                | Raise e => Raise e
                | Ok r => Ok (v +:+ r)
                end
            end
          else if Ascii.eqb c "{" then Raise ValueError
          else format_go intent (Some (name +:+ String c EmptyString)) s'
      end
  | None =>
      match s with
      | EmptyString => Ok EmptyString
      | String c s' =>
          if Ascii.eqb c "{" then
            match s' with
            | String "{"%char s'' =>
                match format_go intent None s'' with
                | Raise e => Raise e
                | Ok r => Ok (String "{"%char r)
                end
            | _ => format_go intent (Some EmptyString) s'
            end
          else if Ascii.eqb c "}" then
            match s' with
            | String "}"%char s'' =>
                match format_go intent None s'' with
                | Raise e => Raise e
                | Ok r => Ok (String "}"%char r)
                end
            | _ => Raise ValueError
            end
          else
            match format_go intent None s' with
            | Raise e => Raise e
            | Ok r => Ok (String c r)
            end
      end
  end.

(** [template.format(intent=intent)] *)
Definition format (template intent : string) : result string :=
  format_go intent None template.

Definition not_brace (c : ascii) : bool :=
  negb (Ascii.eqb c "{") && negb (Ascii.eqb c "}").

(** No brace occurs in [s]. *)
Definition brace_free (s : string) : bool := PyStr.all_chars not_brace s.

(** The scanner meets no conversion, format specification, attribute or
    index in [s]: every replacement field it reads is a plain name.
    [in_field] tells whether it is inside a field. *)
Fixpoint supported_go (in_field : bool) (s : string) : bool :=
  match s with
  | EmptyString => true
  | String c s' =>
      if in_field then
        if Ascii.eqb c "}" then supported_go false s'
        else if Ascii.eqb c "{" then true
        else negb (is_field_operator c) && supported_go true s'
      else if Ascii.eqb c "{" then
        match s' with
        | String "{"%char s'' => supported_go false s''
        | _ => supported_go true s'
        end
      else if Ascii.eqb c "}" then
        match s' with
        | String "}"%char s'' => supported_go false s''
        | _ => true
        end
      else supported_go false s'
  end.

(** [template] is within the modelled fragment of [str.format]. *)
Definition supported (template : string) : bool := supported_go false template.

End PyFormat.

(** ** [json.dumps] on flat dictionaries

    The two dictionaries the script serialises have string keys and values
    that are strings or the float [1.0].  A float is modelled when its
    value is an integer [z] of magnitude below 10^16, where [repr] prints
    the digits of [z] followed by [.0]. *)

Module Json.

Inductive value : Type :=
| JString (s : string)
| JFloat (z : Z).

Definition hexdigits : list ascii :=
  ["0"; "1"; "2"; "3"; "4"; "5"; "6"; "7";
   "8"; "9"; "a"; "b"; "c"; "d"; "e"; "f"]%char.

Definition hex_digit (n : nat) : ascii := nth n hexdigits "0"%char.

(** One code point under [ensure_ascii=True]: the table [ESCAPE_DCT], the
    printable ASCII range left as it is, everything else as a four-digit
    lower-case escape. *)
Definition escape_char (c : ascii) : string :=
  if Ascii.eqb c "\" then "\\"
  else if Ascii.eqb c PyStr.dquote then String "\" (String PyStr.dquote "")
  else if Ascii.eqb c "008" then "\b"
  else if Ascii.eqb c "012" then "\f"
  else if Ascii.eqb c "010" then "\n"
  else if Ascii.eqb c "013" then "\r"
  else if Ascii.eqb c "009" then "\t"
  else if PyStr.in_range 32 126 c then String c ""
  else "\u00" +:+ String (hex_digit (nat_of_ascii c / 16))
                   (String (hex_digit (nat_of_ascii c mod 16)) "").

Fixpoint escape (s : string) : string :=
  match s with
  | EmptyString => EmptyString
  | String c s' => escape_char c +:+ escape s'
  end.

(** [py_encode_basestring_ascii] *)
Definition encode_string (s : string) : string :=
  String PyStr.dquote (escape s +:+ String PyStr.dquote "").

Definition encode_value (v : value) : string :=
  match v with
  | JString s => encode_string s
  | JFloat z => pretty z +:+ ".0"
  end.

Definition encode_item (kv : string * value) : string :=
  encode_string (fst kv) +:+ ": " +:+ encode_value (snd kv).

Fixpoint join (sep : string) (l : list string) : string :=
  match l with
  | [] => ""
  | [x] => x
  | x :: l' => x +:+ sep +:+ join sep l'
  end.

(** [json.dumps(d)] with the default separators [", "] and [": "]. *)
Definition dumps (d : list (string * value)) : string :=
  "{" +:+ join ", " (map encode_item d) +:+ "}".

Definition unhex (c : ascii) : option nat :=
  if PyStr.in_range 48 57 c then Some (nat_of_ascii c - 48)
  else if PyStr.in_range 97 102 c then Some (nat_of_ascii c - 87)
  else None.

(** Reading back one escaped code point from the front of a string
    literal's body; a bare double quote ends the body. *)
Definition unescape_char (s : string) : option (ascii * string) :=
  match s with
  | EmptyString => None
  | String c r =>
      if Ascii.eqb c PyStr.dquote then None
      else if negb (Ascii.eqb c "\") then Some (c, r)
      else
        match r with
        | EmptyString => None
        | String d r' =>
            if Ascii.eqb d "\" then Some ("\"%char, r')
            else if Ascii.eqb d PyStr.dquote then Some (PyStr.dquote, r')
            else if Ascii.eqb d "b" then Some ("008"%char, r')
            else if Ascii.eqb d "f" then Some ("012"%char, r')
            else if Ascii.eqb d "n" then Some ("010"%char, r')
            else if Ascii.eqb d "r" then Some ("013"%char, r')
            else if Ascii.eqb d "t" then Some ("009"%char, r')
            else
              match r' with
              | String "0" (String "0" (String h (String l r''))) =>
                  match unhex h, unhex l with
                  | Some a, Some b => Some (ascii_of_nat (16 * a + b), r'')
                  | _, _ => None
                  end
              | _ => None
              end
        end
  end.

(** Every character of an encoded string is printable ASCII. *)
Definition printable (s : string) : bool := PyStr.all_chars (PyStr.in_range 32 126) s.

(** *** Reading a JSON string

    The reader is written from the JSON grammar, not from the encoder: a
    string runs to the first double quote that no backslash precedes; a
    backslash introduces one of eight single-character escapes or [u] and
    four hexadecimal digits; a control character may not appear bare.
    Code points above U+00FF are not strings of the model and are
    refused. *)

Inductive scan : Type :=
| Plain
| Escaped
| Hex (digits : list nat).

Definition hex_value (c : ascii) : option nat :=
  if PyStr.in_range 48 57 c then Some (nat_of_ascii c - 48)
  else if PyStr.in_range 97 102 c then Some (nat_of_ascii c - 87)
  else if PyStr.in_range 65 70 c then Some (nat_of_ascii c - 55)
  else None.

Definition simple_escape (c : ascii) : option ascii :=
  if Ascii.eqb c PyStr.dquote then Some PyStr.dquote
  else if Ascii.eqb c "\" then Some "\"%char
  else if Ascii.eqb c "/" then Some "/"%char
  else if Ascii.eqb c "b" then Some "008"%char
  else if Ascii.eqb c "f" then Some "012"%char
  else if Ascii.eqb c "n" then Some "010"%char
  else if Ascii.eqb c "r" then Some "013"%char
  else if Ascii.eqb c "t" then Some "009"%char
  else None.

Definition code_point (digits : list nat) : nat :=
  fold_left (fun acc d => 16 * acc + d) digits 0.

Definition cons_char (c : ascii) (r : option (string * string))
  : option (string * string) :=
  match r with
  | Some (s, rest) => Some (String c s, rest)
  | None => None
  end.

(** The body of a string, after its opening quote: the string read and
    the text after the closing quote. *)
Fixpoint read_body (m : scan) (s : string) : option (string * string) :=
  match s with
  | EmptyString => None
  | String c r =>
      match m with
      | Plain =>
          if Ascii.eqb c PyStr.dquote then Some (EmptyString, r)
          else if Ascii.eqb c "\" then read_body Escaped r
          else if nat_of_ascii c <? 32 then None
          else cons_char c (read_body Plain r)
      | Escaped =>
          if Ascii.eqb c "u" then read_body (Hex []) r
          else
            match simple_escape c with
            | Some d => cons_char d (read_body Plain r)
            | None => None
            end
      | Hex digits =>
          match hex_value c with
          | None => None
          | Some d =>
              if length digits <? 3 then read_body (Hex (digits ++ [d])) r
              else if code_point (digits ++ [d]) <? 256
                   then cons_char (ascii_of_nat (code_point (digits ++ [d])))
                                  (read_body Plain r)
              else None
          end
      end
  end.

Definition read_string (s : string) : option (string * string) :=
  match s with
  | String c r => if Ascii.eqb c PyStr.dquote then read_body Plain r else None
  | EmptyString => None
  end.

(** [s] without the text [lit] it must begin with. *)
Fixpoint expect (lit s : string) : option string :=
  match lit with
  | EmptyString => Some s
  | String c lit' =>
      match s with
      | String d s' => if Ascii.eqb c d then expect lit' s' else None
      | EmptyString => None
      end
  end.

(** A member [key: value] whose value is a string. *)
Definition read_member (s : string) : option (string * string * string) :=
  match read_string s with
  | None => None
  | Some (k, r) =>
      match expect ": " r with
      | None => None
      | Some r' =>
          match read_string r' with
          | None => None
          | Some (v, rest) => Some (k, v, rest)
          end
      end
  end.

End Json.

(** ** The random source

    [randbelow n g] is [Random._randbelow(n)], an integer below [n];
    [random g] is [Random.random()], the float [k / 2^53] given by its
    numerator [k].  Both return the next state of the generator. *)

Class RandomSource : Type := {
  rng : Type;
  randbelow : nat -> rng -> nat * rng;
  random : rng -> N * rng;
  randbelow_lt : forall n g, 0 < n -> fst (randbelow n g) < n;
  random_lt : forall g, (fst (random g) < 2 ^ 53)%N
}.

(** [x < 0.1] for [x = k / 2^53].  The literal [0.1] is the double
    3602879701896397 / 2^55, so the comparison of the two dyadic rationals
    is [4 * k < 3602879701896397]. *)
Definition lt_0_1 (k : N) : bool := (4 * k <? 3602879701896397)%N.

(** ** Module-level constants *)

Definition AGENTS : list (string * list string) :=
  [ ("agent_hr", ["payroll issue"; "holiday request"; "benefits question"; "onboarding"]);
    ("agent_it", ["vpn access"; "password reset"; "laptop repair"; "software license"]);
    ("agent_sales", ["customer lead"; "sales report"; "crm update"; "contract renewal"]);
    ("agent_data", ["sql query"; "dashboard access"; "data warehouse"; "snowflake"]) ].

Definition TEMPLATES : list string :=
  [ "I need help with {intent}";
    "Can you check my {intent}?";
    "Who handles {intent}?";
    "It seems my {intent} is broken";
    "Quick question about {intent}" ].

(** The dictionary returned by [generate_sample]. *)
Record entry : Type := mkEntry {
  instruction : string;
  input : string;
  output : string
}.

Definition entry_dict (e : entry) : list (string * Json.value) :=
  [ ("instruction", Json.JString (instruction e));
    ("input", Json.JString (input e));
    ("output", Json.JString (output e)) ].

(** The inner dictionary serialised into the field [output]. *)
Definition route_dict (agent intent : string) : list (string * Json.value) :=
  [ ("target", Json.JString agent);
    ("confidence", Json.JFloat 1);
    ("reason", Json.JString ("Matched intent: " +:+ intent)) ].

(** ** Standard output

    [con_lines] are the lines printed so far.  [con_closed] tells whether
    the stream has been closed.  [con_unicode] tells whether the encoding
    of the stream has the characters outside ASCII (UTF-8 has, ASCII and
    the legacy code pages have not those of the script's messages).
    [con_budget] is the number of writes the stream takes before the
    operating system refuses one, [None] when it refuses none. *)
Record console : Type := mkConsole {
  con_lines : list string;
  con_closed : bool;
  con_unicode : bool;
  con_budget : option nat
}.

(** Some byte of [line], a text in UTF-8, is outside ASCII. *)
Definition has_non_ascii (line : string) : bool :=
  negb (PyStr.all_chars (PyStr.in_range 0 127) line).

Section Program.

Context {RS : RandomSource}.

(** ** Interpreter state

    The two module globals are part of the state, as Python keeps them in
    a mutable dictionary and a mutable list.  [st_io_budget] is the
    operating system's side of file output: the number of file operations
    that succeed before one fails, [None] when none fails. *)
Record state : Type := mkState {
  st_rng : rng;
  st_AGENTS : list (string * list string);
  st_TEMPLATES : list string;
  st_files : gmap string string;
  st_console : console;
  st_io_budget : option nat
}.

(** The lines printed so far. *)
Definition st_stdout (st : state) : list string := con_lines (st_console st).

(** The state after the module body has run, in the environment made of
    the files, the file system's budget and the console. *)
Definition init_state (g : rng) (files : gmap string string)
           (budget : option nat) (con : console) : state :=
  mkState g AGENTS TEMPLATES files con budget.

(** ** The state and error monad *)

Definition M (A : Type) : Type := state -> result A * state.

#[export] Instance M_ret : MRet M := fun A a st => (Ok a, st).

#[export] Instance M_bind : MBind M := fun A B f c st =>
  match c st with
  | (Ok a, st') => f a st'
  | (Raise e, st') => (Raise e, st')
  end.

Definition raise {A : Type} (e : exn) : M A := fun st => (Raise e, st).

Definition lift {A : Type} (r : result A) : M A := fun st => (r, st).

(** [try: c finally: cleanup] *)
Definition finally {A : Type} (c : M A) (cleanup : M unit) : M A := fun st =>
  match c st with
  | (r, st') =>
      match cleanup st' with
      | (Ok _, st'') => (r, st'')
      | (Raise e, st'') => (Raise e, st'')
      end
  end.

(** [for x in xs: body], the variables the body assigns threaded as
    [acc]. *)
Fixpoint for_in {A B : Type} (xs : list A) (body : A -> B -> M B) (acc : B)
  : M B :=
  match xs with
  | [] => mret acc
  | x :: xs' => acc' ← body x acc; for_in xs' body acc'
  end.

(** ** Primitives *)

Definition read_AGENTS : M (list (string * list string)) :=
  fun st => (Ok (st_AGENTS st), st).

Definition read_TEMPLATES : M (list string) :=
  fun st => (Ok (st_TEMPLATES st), st).

Definition call_randbelow (n : nat) : M nat := fun st =>
  let (j, g) := randbelow n (st_rng st) in
  (Ok j, mkState g (st_AGENTS st) (st_TEMPLATES st) (st_files st)
            (st_console st) (st_io_budget st)).

(** [random.random()] *)
Definition random_random : M N := fun st =>
  let (k, g) := random (st_rng st) in
  (Ok k, mkState g (st_AGENTS st) (st_TEMPLATES st) (st_files st)
            (st_console st) (st_io_budget st)).

(** [random.choice(seq)] *)
Definition random_choice {A : Type} (seq : list A) : M A :=
  if Nat.eqb (length seq) 0 then raise IndexError
  else
    j ← call_randbelow (length seq);
    match seq !! j with
    | Some x => mret x
    | None => raise IndexError
    end.

(** [x[i], x[j] = x[j], x[i]] *)
Definition swap {A : Type} (i j : nat) (x : list A) : M (list A) :=
  match x !! j, x !! i with
  | Some xj, Some xi => mret (<[j := xi]> (<[i := xj]> x))
  | _, _ => raise IndexError
  end.

(** The loop of [random.shuffle], for [i] from [i] down to 1. *)
Fixpoint shuffle_from {A : Type} (i : nat) (x : list A) : M (list A) :=
  match i with
  | 0 => mret x
  | S i' =>
      j ← call_randbelow (i + 1);
      x' ← swap i j x;
      shuffle_from i' x'
  end.

(** [random.shuffle(x)]: [for i in reversed(range(1, len(x)))]. *)
Definition random_shuffle {A : Type} (x : list A) : M (list A) :=
  shuffle_from (length x - 1) x.

(** [print(line)], which is [sys.stdout.write]: a closed stream raises
    [ValueError]; then the line is encoded, which raises
    [UnicodeEncodeError] when the stream's encoding lacks one of its
    characters; then it is written, which raises [OSError] when the
    operating system refuses the write. *)
Definition print (line : string) : M unit := fun st =>
  if con_closed (st_console st) then (Raise ValueError, st)
  else if negb (con_unicode (st_console st)) && has_non_ascii line
  then (Raise UnicodeEncodeError, st)
  else
    match con_budget (st_console st) with
    | Some 0 => (Raise OSError, st)
    | Some (S k) =>
        (Ok tt, mkState (st_rng st) (st_AGENTS st) (st_TEMPLATES st)
                   (st_files st)
                   (mkConsole (con_lines (st_console st) ++ [line]) false
                              (con_unicode (st_console st)) (Some k))
                   (st_io_budget st))
    | None =>
        (Ok tt, mkState (st_rng st) (st_AGENTS st) (st_TEMPLATES st)
                   (st_files st)
                   (mkConsole (con_lines (st_console st) ++ [line]) false
                              (con_unicode (st_console st)) None)
                   (st_io_budget st))
    end.

(** One operation on the file system, which the system may refuse. *)
Definition io_call : M unit := fun st =>
  match st_io_budget st with
  | Some 0 => (Raise OSError, st)
  | Some (S k) =>
      (Ok tt, mkState (st_rng st) (st_AGENTS st) (st_TEMPLATES st)
                 (st_files st) (st_console st) (Some k))
  | None => (Ok tt, st)
  end.

Definition set_file (path content : string) : M unit := fun st =>
  (Ok tt, mkState (st_rng st) (st_AGENTS st) (st_TEMPLATES st)
             (<[path := content]> (st_files st)) (st_console st)
             (st_io_budget st)).

Definition get_file (path : string) : M string := fun st =>
  (Ok (default "" (st_files st !! path)), st).

(** [open(path, "w")]: the file is created or truncated; the file object
    is identified with its path. *)
Definition open_w (path : string) : M string :=
  io_call;; set_file path "";; mret path.

(** [f.write(data)] *)
Definition file_write (f data : string) : M unit :=
  io_call;; old ← get_file f; set_file f (old +:+ data).

(** [f.close()] *)
Definition file_close (f : string) : M unit := io_call.

(** [with open(path, "w") as f: body] *)
Definition with_open_w {A : Type} (path : string) (body : string -> M A)
  : M A :=
  f ← open_w path; finally (body f) (file_close f).

(** ** The script *)

(** [generate_sample(agent, intent)], lines 21 to 41. *)
Definition generate_sample (agent intent : string) : M entry :=
  templates ← read_TEMPLATES;
  template ← random_choice templates;
  utterance ← lift (PyFormat.format template intent);
  x ← random_random;
  let utterance := if lt_0_1 x then PyStr.lower utterance else utterance in
  mret {| instruction :=
            "Route the user query to the correct internal agent. Output JSON.";
          input := utterance;
          output := Json.dumps (route_dict agent intent) |}.

(** The body of [for _ in range(SAMPLES_PER_INTENT)]:
    [dataset.append(generate_sample(agent, intent))]. *)
Definition sample_body (agent intent : string) (_ : nat)
           (dataset : list entry) : M (list entry) :=
  sample ← generate_sample agent intent; mret (dataset ++ [sample]).

(** The body of [for intent in intents]. *)
Definition intent_body (n : nat) (agent intent : string)
           (dataset : list entry) : M (list entry) :=
  for_in (seq 0 n) (sample_body agent intent) dataset.

(** The body of [for agent, intents in AGENTS.items()]. *)
Definition agent_body (n : nat) (item : string * list string)
           (dataset : list entry) : M (list entry) :=
  for_in (snd item) (intent_body n (fst item)) dataset.

(** Lines 45 to 53 of [main]: the three nested loops, from the empty
    [dataset].  The result is the value of the local variable [dataset]. *)
Definition main_accumulate (SAMPLES_PER_INTENT : nat) : M (list entry) :=
  items ← read_AGENTS;
  for_in items (agent_body SAMPLES_PER_INTENT) [].

(** Lines 45 to 56 of [main]: the loops and the shuffle. *)
Definition main_build (SAMPLES_PER_INTENT : nat) : M (list entry) :=
  dataset ← main_accumulate SAMPLES_PER_INTENT;
  random_shuffle dataset.

Definition filename : string := "edgeneuro_training_data.jsonl".

Definition summary (n : nat) : string :=
  "✅ Generated " +:+ pretty n +:+ " examples in " +:+ filename.

(** The body of [for entry in dataset]:
    [f.write(json.dumps(entry) + "\n")]. *)
Definition write_body (f : string) (e : entry) (_ : unit) : M unit :=
  file_write f (Json.dumps (entry_dict e) +:+ String "010"%char "").

(** Lines 58 to 64 of [main]: the file and the two closing messages. *)
Definition main_persist (dataset : list entry) : M unit :=
  with_open_w filename (fun f => for_in dataset (write_body f) tt);;
  print (summary (length dataset));;
  print "👉 Next step: Use this file to fine-tune Llama-3-8B".

Definition SAMPLES_PER_INTENT : nat := 50.

(** [main()], lines 43 to 64. *)
Definition main : M unit :=
  print "🧠 Generating Synthetic Training Data for EdgeNeuro...";;
  dataset ← main_build SAMPLES_PER_INTENT;
  main_persist dataset.

End Program.

(** ** A linear congruential generator, to run the script on *)

Module Lcg.

Definition next (g : N) : N := ((6364136223846793005 * g + 1442695040888963407) mod 2 ^ 64)%N.

Definition lcg_randbelow (n : nat) (g : N) : nat * N :=
  (N.to_nat ((next g / 2 ^ 33) mod N.of_nat n)%N, next g).

Definition lcg_random (g : N) : N * N :=
  ((next g / 2 ^ 11)%N, next g).

(** The same generator with a count of the draws made so far. *)
Definition counted_randbelow (n : nat) (g : N * nat) : nat * (N * nat) :=
  (fst (lcg_randbelow n (fst g)), (next (fst g), S (snd g))).

Definition counted_random (g : N * nat) : N * (N * nat) :=
  (fst (lcg_random (fst g)), (next (fst g), S (snd g))).

End Lcg.

(** * Vocabulary of the properties *)

Definition INSTRUCTION : string :=
  "Route the user query to the correct internal agent. Output JSON.".

Definition BANNER : string :=
  "🧠 Generating Synthetic Training Data for EdgeNeuro...".

Definition NEXT_STEP : string :=
  "👉 Next step: Use this file to fine-tune Llama-3-8B".

(** The text before and after the placeholder of each template. *)
Definition TEMPLATE_PARTS : list (string * string) :=
  [ ("I need help with ", "");
    ("Can you check my ", "?");
    ("Who handles ", "?");
    ("It seems my ", " is broken");
    ("Quick question about ", "") ].

(** The same texts as [str.lower] leaves them, written out. *)
Definition TEMPLATE_PARTS_LOWER : list (string * string) :=
  [ ("i need help with ", "");
    ("can you check my ", "?");
    ("who handles ", "?");
    ("it seems my ", " is broken");
    ("quick question about ", "") ].

(** The template text around [s]. *)
Definition fill (parts : string * string) (s : string) : string :=
  fst parts +:+ s +:+ snd parts.

(** The (agent, intent) pairs of a catalog, in the order of the loops. *)
Definition catalog_pairs (items : list (string * list string))
  : list (string * string) :=
  flat_map (fun item => map (pair (fst item)) (snd item)) items.

(** The text of the file: each record on a line of its own. *)
Fixpoint jsonl (ds : list entry) : string :=
  match ds with
  | [] => ""
  | e :: ds' =>
      (Json.dumps (entry_dict e) +:+ String "010"%char "") +:+ jsonl ds'
  end.

(** The file system grants [k] further operations. *)
Definition budget_allows (budget : option nat) (k : nat) : bool :=
  match budget with
  | None => true
  | Some m => k <=? m
  end.

Definition spend (budget : option nat) (k : nat) : option nat :=
  match budget with
  | None => None
  | Some m => Some (m - k)
  end.

(** The console takes [k] more of the script's messages, which all hold
    characters outside ASCII: it is open, its encoding has them and the
    stream grants [k] writes. *)
Definition console_accepts (con : console) (k : nat) : bool :=
  negb (con_closed con) && con_unicode con
  && budget_allows (con_budget con) k.

(** The console after it has taken [lines]. *)
Definition console_after (con : console) (lines : list string) : console :=
  mkConsole (con_lines con ++ lines) (con_closed con) (con_unicode con)
            (spend (con_budget con) (length lines)).

(** An open console with nothing printed, an encoding that has every
    character and a stream that is never refused. *)
Definition utf8_console : console := mkConsole [] false true None.

(** An open console whose encoding is ASCII. *)
Definition ascii_console : console := mkConsole [] false false None.

(** A closed console. *)
Definition closed_console : console := mkConsole [] true true None.

Definition LF : ascii := "010"%char.

(** The lines of [s], each ended by a line feed; [cur] is the line being
    read. *)
Fixpoint split_lines_go (cur s : string) : list string :=
  match s with
  | EmptyString => if String.eqb cur "" then [] else [cur]
  | String c s' =>
      if Ascii.eqb c LF then cur :: split_lines_go "" s'
      else split_lines_go (cur +:+ String c "") s'
  end.

Definition split_lines (s : string) : list string := split_lines_go "" s.

(** Reading a line of the file as a JSON object: an opening brace, the
    members [instruction], [input] and [output] with string values,
    separated by a comma and a space, and a closing brace. *)
Definition read_entry (line : string) : option entry :=
  match Json.expect "{" line with
  | None => None
  | Some r0 =>
      match Json.read_member r0 with
      | None => None
      | Some (k1, v1, r1) =>
          match Json.expect ", " r1 with
          | None => None
          | Some r1' =>
              match Json.read_member r1' with
              | None => None
              | Some (k2, v2, r2) =>
                  match Json.expect ", " r2 with
                  | None => None
                  | Some r2' =>
                      match Json.read_member r2' with
                      | None => None
                      | Some (k3, v3, r3) =>
                          if String.eqb k1 "instruction"
                             && String.eqb k2 "input"
                             && String.eqb k3 "output"
                             && String.eqb r3 "}"
                          then Some (mkEntry v1 v2 v3)
                          else None
                      end
                  end
              end
          end
      end
  end.

(** The record's [output] is the routing decision for [agent] and
    [intent]. *)
Definition routes_to (agent intent : string) (r : entry) : bool :=
  String.eqb (output r) (Json.dumps (route_dict agent intent)).

Definition count_routed (agent intent : string) (ds : list entry) : nat :=
  length (List.filter (routes_to agent intent) ds).

Definition occurrences (p : string * string) (ps : list (string * string))
  : nat :=
  length (List.filter (fun q => bool_decide (q = p)) ps).

(** [s] between double quotes, as it is printed in a JSON text when nothing
    in it needs an escape. *)
Definition quoted (s : string) : string :=
  String PyStr.dquote (s +:+ String PyStr.dquote "").

(** [R] relates states of two random sources from which every draw is the
    same and leads to related states again. *)
Definition same_draws (RS1 RS2 : RandomSource)
           (R : @rng RS1 -> @rng RS2 -> Prop) : Prop :=
  forall g1 g2, R g1 g2 ->
    (forall n, fst (randbelow n g1) = fst (randbelow n g2)
               /\ R (snd (randbelow n g1)) (snd (randbelow n g2)))
    /\ fst (random g1) = fst (random g2)
    /\ R (snd (random g1)) (snd (random g2)).

(** Two interpreter states with related random sources, the same catalog
    and the same templates.  The files, the console and the budgets of
    the two are free. *)
Definition build_rel (RS1 RS2 : RandomSource)
           (R : @rng RS1 -> @rng RS2 -> Prop)
           (s1 : @state RS1) (s2 : @state RS2) : Prop :=
  R (st_rng s1) (st_rng s2)
  /\ st_AGENTS s1 = st_AGENTS s2
  /\ st_TEMPLATES s1 = st_TEMPLATES s2.

(** ** Vocabulary of the further properties *)

(** The random source [RS] with a count of the draws made so far. *)
Definition Counted (RS : RandomSource) : RandomSource := {|
  rng := (@rng RS * nat)%type;
  randbelow := fun n g =>
    (fst (randbelow n (fst g)), (snd (randbelow n (fst g)), S (snd g)));
  random := fun g =>
    (fst (random (fst g)), (snd (random (fst g)), S (snd g)));
  randbelow_lt := fun n g H => randbelow_lt n (fst g) H;
  random_lt := fun g => random_lt (fst g)
|}.

(** A character of a text of printable ASCII lines. *)
Definition ascii_line_char (c : ascii) : bool :=
  PyStr.in_range 32 126 c || Ascii.eqb c LF.

(** A printable ASCII character that the JSON encoder leaves as it is and
    that is no brace. *)
Definition plain_char (c : ascii) : bool :=
  PyStr.in_range 32 126 c
  && negb (Ascii.eqb c PyStr.dquote)
  && negb (Ascii.eqb c "\")
  && PyFormat.not_brace c.

Definition plain (s : string) : bool := PyStr.all_chars plain_char s.

(** The records [generate_sample agent intent] can return with the
    templates of the script: each template as it is and in lower case. *)
Definition variants (agent intent : string) : list entry :=
  flat_map (fun parts =>
              [ mkEntry INSTRUCTION (fill parts intent)
                        (Json.dumps (route_dict agent intent));
                mkEntry INSTRUCTION (PyStr.lower (fill parts intent))
                        (Json.dumps (route_dict agent intent)) ])
           TEMPLATE_PARTS.

Definition possible_records (items : list (string * list string))
  : list entry :=
  flat_map (fun p => variants (fst p) (snd p)) (catalog_pairs items).

(** A scripted random source: the state is the list of the answers still to
    be given to [_randbelow], each reduced below the bound asked for. *)
Definition tape_randbelow (n : nat) (t : list nat) : nat * list nat :=
  match t with
  | [] => (0, [])
  | d :: t' => (d mod n, t')
  end.

Definition tape_random (t : list nat) : N * list nat := (0%N, t).

Section Vocabulary.
Context {RS : RandomSource}.

(** [triple P c Q E]: from a state satisfying [P], the statement [c] either
    returns a value and a state satisfying [Q], or raises an exception and
    leaves a state satisfying [E]. *)
Definition triple {A : Type} (P : state -> Prop) (c : M A)
           (Q : A -> state -> Prop) (E : exn -> state -> Prop) : Prop :=
  forall st, P st ->
    match c st with
    | (Ok a, st') => Q a st'
    | (Raise e, st') => E e st'
    end.

Definition globals_are (agents : list (string * list string))
           (templates : list string) (st : state) : Prop :=
  st_AGENTS st = agents /\ st_TEMPLATES st = templates.

(** The module globals hold the values of the script's two literals. *)
Definition loaded (st : state) : Prop := globals_are AGENTS TEMPLATES st.

(** [c] never assigns to the module globals, whether it returns or
    raises. *)
Definition preserves_globals {A : Type} (c : M A) : Prop :=
  forall agents templates,
    triple (globals_are agents templates) c
           (fun _ => globals_are agents templates)
           (fun _ => globals_are agents templates).

Definition with_rng (g : rng) (st : state) : state :=
  mkState g (st_AGENTS st) (st_TEMPLATES st) (st_files st) (st_console st)
          (st_io_budget st).

(** [st] differs from [s0] in the state of the random source at most. *)
Definition same_but_rng (s0 st : state) : Prop :=
  st_AGENTS st = st_AGENTS s0
  /\ st_TEMPLATES st = st_TEMPLATES s0
  /\ st_files st = st_files s0
  /\ st_console st = st_console s0
  /\ st_io_budget st = st_io_budget s0.

(** [r] is a record that [generate_sample agent intent] returns from some
    state in which the templates are the script's. *)
Definition sample_of (agent intent : string) (r : entry) : Prop :=
  exists st st', st_TEMPLATES st = TEMPLATES
                 /\ generate_sample agent intent st = (Ok r, st').

(** [b] is the run of [n] consecutive samples of one pair. *)
Definition block_of (n : nat) (p : string * string) (b : list entry) : Prop :=
  length b = n /\ Forall (sample_of (fst p) (snd p)) b.

(** [ds] is made of one block of [n] samples per pair of [ps], in order. *)
Definition blocks_for (n : nat) (ps : list (string * string))
           (ds : list entry) : Prop :=
  exists blocks, ds = concat blocks /\ Forall2 (block_of n) ps blocks.

(** [c] keeps the invariant [I], whether it returns or raises. *)
Definition keeps {A : Type} (I : state -> Prop) (c : M A) : Prop :=
  triple I c (fun _ => I) (fun _ => I).

(** [c] changes nothing but the state of the random source, whether it
    returns or raises. *)
Definition only_rng {A : Type} (c : M A) : Prop :=
  forall s0, keeps (same_but_rng s0) c.

(** [st] has the random source, the globals and the files of [s0], the
    file at [path] excepted. *)
Definition same_but_file (path : string) (s0 st : state) : Prop :=
  st_rng st = st_rng s0
  /\ st_AGENTS st = st_AGENTS s0
  /\ st_TEMPLATES st = st_TEMPLATES s0
  /\ forall p, p <> path -> st_files st !! p = st_files s0 !! p.

End Vocabulary.

(** The number of draws made so far from a counting random source. *)
Definition draws {RS : RandomSource} (st : @state (Counted RS)) : nat :=
  snd (st_rng st).

(** [st] is [s0] after [c] draws in all. *)
Definition drawn {RS : RandomSource} (s0 : @state (Counted RS)) (c : nat)
           (st : @state (Counted RS)) : Prop :=
  @same_but_rng (Counted RS) s0 st /\ draws st = c.

Section Agreement.
Context (RS1 RS2 : RandomSource).
Variable R : @rng RS1 -> @rng RS2 -> Prop.

(** The two statements return the same result from related states and
    leave related states. *)
Definition agree_on {A : Type} (c1 : @M RS1 A) (c2 : @M RS2 A) : Prop :=
  forall s1 s2, build_rel RS1 RS2 R s1 s2 ->
    fst (c1 s1) = fst (c2 s2)
    /\ build_rel RS1 RS2 R (snd (c1 s1)) (snd (c2 s2)).

End Agreement.

(** * Part II: proofs *)

(** * The comparison with [0.1] *)

(** 3602879701896397 / 2^55 is the double nearest to one tenth: written
    with a 53-bit significand it is 7205759403792794 / 2^56, within half a
    unit of 2^56 / 10. *)
Lemma double_0_1_nearest :
  (7205759403792794 = 2 * 3602879701896397)%Z
  /\ (2 ^ 52 <= 7205759403792794 < 2 ^ 53)%Z
  /\ (Z.abs (10 * 7205759403792794 - 2 ^ 56) <= 5)%Z.
Proof.
  split; [reflexivity|].
  split; [split|]; [apply Z.leb_le | apply Z.ltb_lt | apply Z.leb_le];
    vm_compute; reflexivity.
Qed.

(** [lt_0_1 k] compares [k / 2^53] with [3602879701896397 / 2^55]. *)
Lemma lt_0_1_spec k :
  lt_0_1 k = true <-> (k * 2 ^ 55 < 3602879701896397 * 2 ^ 53)%N.
Proof.
  unfold lt_0_1. rewrite N.ltb_lt.
  change (2 ^ 55)%N with (4 * 2 ^ 53)%N. lia.
Qed.

(** * Properties of the string functions *)

Module StrFacts.
Import PyStr.

Lemma app_cons c s r : String c s +:+ r = String c (s +:+ r).
Proof. reflexivity. Qed.

Lemma app_nil_l s : "" +:+ s = s.
Proof. reflexivity. Qed.

Lemma app_nil_r s : s +:+ "" = s.
Proof. induction s as [|c s IH]; [reflexivity|]. rewrite app_cons, IH. reflexivity. Qed.

Lemma app_assoc a b c : (a +:+ b) +:+ c = a +:+ (b +:+ c).
Proof.
  induction a as [|x a IH]; [reflexivity|].
  rewrite !app_cons, IH. reflexivity.
Qed.

Lemma all_chars_app p a b : all_chars p (a +:+ b) = all_chars p a && all_chars p b.
Proof.
  induction a as [|x a IH]; [reflexivity|].
  rewrite app_cons. cbn [all_chars]. rewrite IH, andb_assoc. reflexivity.
Qed.

Lemma lower_app a b : lower (a +:+ b) = lower a +:+ lower b.
Proof.
  induction a as [|x a IH]; [reflexivity|].
  rewrite app_cons. cbn [lower]. rewrite IH. reflexivity.
Qed.

Lemma lower_id s : is_lowercase s = true -> lower s = s.
Proof.
  unfold is_lowercase. induction s as [|x s IH]; [reflexivity|].
  cbn [all_chars lower]. intros [Hx Hs]%andb_prop.
  apply Ascii.eqb_eq in Hx. rewrite Hx, (IH Hs). reflexivity.
Qed.

Lemma occurs_in_lower sub pre post :
  is_lowercase sub = true -> occurs_in sub (lower (pre +:+ sub +:+ post)).
Proof.
  intros H. exists (lower pre), (lower post).
  rewrite !lower_app, (lower_id _ H). reflexivity.
Qed.

End StrFacts.

(** * Properties of [str.format] *)

Module FormatFacts.
Import PyStr PyFormat StrFacts.

Lemma format_go_literal intent pre rest :
  brace_free pre = true ->
  format_go intent None (pre +:+ rest)
  = match format_go intent None rest with
    | Raise e => Raise e
    | Ok r => Ok (pre +:+ r)
    end.
Proof.
  unfold brace_free. induction pre as [|c pre IH]; intros H.
  - rewrite app_nil_l. destruct (format_go intent None rest); reflexivity.
  - cbn [all_chars] in H. apply andb_prop in H as [Hc Hpre].
    unfold not_brace in Hc. apply andb_prop in Hc as [Hc1 Hc2].
    apply negb_true_iff in Hc1, Hc2.
    rewrite app_cons. cbn [format_go]. rewrite Hc1, Hc2, (IH Hpre).
    destruct (format_go intent None rest); reflexivity.
Qed.

Lemma format_literal intent s :
  brace_free s = true -> format s intent = Ok s.
Proof.
  intros H. unfold format. rewrite <- (app_nil_r s) at 1.
  rewrite (format_go_literal _ _ _ H). cbn [format_go]. rewrite app_nil_r.
  reflexivity.
Qed.

(** A template with the one placeholder [{intent}] between two brace-free
    texts formats to the texts around the intent. *)
Lemma format_placeholder intent pre post :
  brace_free pre = true -> brace_free post = true ->
  format (pre +:+ "{intent}" +:+ post) intent = Ok (pre +:+ intent +:+ post).
Proof.
  intros Hpre Hpost. unfold format. rewrite (format_go_literal _ _ _ Hpre).
  assert (Hfield : format_go intent None ("{intent}" +:+ post)
                   = Ok (intent +:+ post)).
  { pose proof (format_literal intent post Hpost) as Hp. unfold format in Hp.
    change ("{intent}" +:+ post)
      with (String "{" (String "i" (String "n" (String "t" (String "e"
           (String "n" (String "t" (String "}" post)))))))).
    cbn [format_go Ascii.eqb Bool.eqb String.append].
    change (get_field "intent" intent) with (Ok (A := string) intent).
    rewrite Hp. reflexivity. }
  rewrite Hfield. reflexivity.
Qed.

End FormatFacts.

(** * Properties of the JSON encoder *)

Module JsonFacts.
Import PyStr Json StrFacts.

Lemma unescape_escape_char c r :
  unescape_char (escape_char c +:+ r) = Some (c, r).
Proof.
  destruct c as [[|] [|] [|] [|] [|] [|] [|] [|]]; reflexivity.
Qed.

Lemma unescape_quote r : unescape_char (String dquote r) = None.
Proof. reflexivity. Qed.

(** The body of an encoded string determines the string: the encoding
    holds no bare double quote, so the first one closes it. *)
Lemma escape_inj a a' r r' :
  escape a +:+ String dquote r = escape a' +:+ String dquote r' ->
  a = a' /\ r = r'.
Proof.
  revert a'. induction a as [|c a IH]; intros [|c' a']; cbn [escape]; intros H.
  - rewrite !app_nil_l in H. injection H as ->. split; reflexivity.
  - rewrite app_nil_l, app_assoc in H.
    apply (f_equal unescape_char) in H.
    rewrite unescape_quote, unescape_escape_char in H. discriminate.
  - rewrite app_nil_l, app_assoc in H.
    apply (f_equal unescape_char) in H.
    rewrite unescape_quote, unescape_escape_char in H. discriminate.
  - rewrite !app_assoc in H.
    pose proof (f_equal unescape_char H) as Hu.
    rewrite !unescape_escape_char in Hu. injection Hu as -> Hrest.
    destruct (IH _ Hrest) as [-> ->]. split; reflexivity.
Qed.

Lemma encode_string_inj a a' r r' :
  encode_string a +:+ r = encode_string a' +:+ r' -> a = a' /\ r = r'.
Proof.
  unfold encode_string. rewrite !app_cons, !app_assoc, !app_cons, !app_nil_l.
  intros H. injection H as H. exact (escape_inj _ _ _ _ H).
Qed.

Lemma printable_escape_char c : printable (escape_char c) = true.
Proof.
  destruct c as [[|] [|] [|] [|] [|] [|] [|] [|]]; reflexivity.
Qed.

Lemma printable_app a b : printable (a +:+ b) = printable a && printable b.
Proof. apply all_chars_app. Qed.

Lemma printable_escape s : printable (escape s) = true.
Proof.
  induction s as [|c s IH]; [reflexivity|].
  cbn [escape]. rewrite printable_app, printable_escape_char, IH. reflexivity.
Qed.

Lemma printable_encode_string s : printable (encode_string s) = true.
Proof.
  unfold encode_string, printable. cbn [all_chars].
  rewrite all_chars_app. fold (printable (escape s)).
  rewrite printable_escape. reflexivity.
Qed.

(** The line written for a record is printable ASCII. *)
Lemma printable_dumps_entry e : printable (dumps (entry_dict e)) = true.
Proof.
  unfold dumps, entry_dict.
  cbn [map join]. unfold encode_item, encode_value. cbn [fst snd].
  repeat rewrite printable_app. repeat rewrite printable_encode_string.
  reflexivity.
Qed.

(** The serialised routing decision determines the agent and the intent. *)
Lemma route_json_inj agent intent agent' intent' :
  dumps (route_dict agent intent) = dumps (route_dict agent' intent') ->
  agent = agent' /\ intent = intent'.
Proof.
  unfold dumps, route_dict.
  cbn [map join]. unfold encode_item, encode_value. cbn [fst snd].
  rewrite !app_assoc. intros H.
  repeat (apply (inj (String.app _)) in H).
  apply encode_string_inj in H as [-> H].
  repeat (apply (inj (String.app _)) in H).
  apply encode_string_inj in H as [H _].
  apply (inj (String.app _)) in H. split; [reflexivity | exact H].
Qed.






End JsonFacts.

(** * A program logic for [M] *)

Section Logic.
Context {RS : RandomSource}.

Lemma triple_weaken {A : Type} (P P' : state -> Prop) (c : M A)
      (Q Q' : A -> state -> Prop) (E E' : exn -> state -> Prop) :
  triple P c Q E ->
  (forall st, P' st -> P st) ->
  (forall a st, Q a st -> Q' a st) ->
  (forall e st, E e st -> E' e st) ->
  triple P' c Q' E'.
Proof.
  intros H HP HQ HE st Hst. specialize (H st (HP st Hst)).
  destruct (c st) as [[a|e] st']; auto.
Qed.

Lemma triple_ret {A : Type} (a : A) (Q : A -> state -> Prop) E :
  triple (Q a) (mret a) Q E.
Proof. intros st Hst. exact Hst. Qed.

Lemma triple_raise {A : Type} (e : exn) (Q : A -> state -> Prop) E :
  triple (E e) (raise e) Q E.
Proof. intros st Hst. exact Hst. Qed.

Lemma triple_bind {A B : Type} (P : state -> Prop) (R : A -> state -> Prop)
      (c : M A) (f : A -> M B) (Q : B -> state -> Prop) E :
  triple P c R E ->
  (forall a, triple (R a) (f a) Q E) ->
  triple P (c ≫= f) Q E.
Proof.
  intros Hc Hf st Hst. specialize (Hc st Hst).
  unfold mbind, M_bind. destruct (c st) as [[a|e] st'].
  - exact (Hf a st' Hc).
  - exact Hc.
Qed.

Lemma triple_finally {A : Type} (P : state -> Prop) (c : M A)
      (cleanup : M unit) (Q R : A -> state -> Prop)
      (E F : exn -> state -> Prop) :
  triple P c R F ->
  (forall a, triple (R a) cleanup (fun _ => Q a) E) ->
  (forall e, triple (F e) cleanup (fun _ => E e) E) ->
  triple P (finally c cleanup) Q E.
Proof.
  intros Hc Hok Herr st Hst. specialize (Hc st Hst). unfold finally.
  destruct (c st) as [[a|e] st'].
  - specialize (Hok a st' Hc). destruct (cleanup st') as [[[]|e'] st'']; exact Hok.
  - specialize (Herr e st' Hc). destruct (cleanup st') as [[[]|e'] st'']; exact Herr.
Qed.

(** The loop rule, with an invariant over the elements already visited. *)
Lemma triple_for_in_from {A B : Type} (full : list A) (body : A -> B -> M B)
      (I : list A -> B -> state -> Prop) E :
  (forall pre x post acc, full = pre ++ x :: post ->
     triple (I pre acc) (body x acc) (I (pre ++ [x])) E) ->
  forall xs visited acc, full = visited ++ xs ->
    triple (I visited acc) (for_in xs body acc) (I full) E.
Proof.
  intros Hbody xs. induction xs as [|x xs IH]; intros visited acc Hfull.
  - rewrite app_nil_r in Hfull. subst full. apply triple_ret.
  - cbn [for_in]. eapply triple_bind.
    + exact (Hbody visited x xs acc Hfull).
    + intros acc'. apply IH. rewrite <- app_assoc. exact Hfull.
Qed.

Lemma triple_for_in {A B : Type} (xs : list A) (body : A -> B -> M B)
      (I : list A -> B -> state -> Prop) E (acc : B) :
  (forall pre x post acc, xs = pre ++ x :: post ->
     triple (I pre acc) (body x acc) (I (pre ++ [x])) E) ->
  triple (I [] acc) (for_in xs body acc) (I xs) E.
Proof.
  intros Hbody. apply (triple_for_in_from xs body I E Hbody xs [] acc).
  reflexivity.
Qed.

(** ** The module globals *)

Lemma preserves_ret {A : Type} (a : A) : preserves_globals (mret a : M A).
Proof. intros ? ? st Hst. exact Hst. Qed.

Lemma preserves_raise {A : Type} (e : exn) : preserves_globals (raise e : M A).
Proof. intros ? ? st Hst. exact Hst. Qed.

Lemma preserves_lift {A : Type} (r : result A) : preserves_globals (lift r).
Proof. intros ? ? st Hst. unfold lift. destruct r; exact Hst. Qed.

Lemma preserves_bind {A B : Type} (c : M A) (f : A -> M B) :
  preserves_globals c -> (forall a, preserves_globals (f a)) ->
  preserves_globals (c ≫= f).
Proof.
  intros Hc Hf agents templates. eapply triple_bind.
  - apply Hc.
  - intros a. apply Hf.
Qed.

Lemma preserves_finally {A : Type} (c : M A) (cleanup : M unit) :
  preserves_globals c -> preserves_globals cleanup ->
  preserves_globals (finally c cleanup).
Proof.
  intros Hc Hcl agents templates.
  eapply triple_finally with (R := fun _ => globals_are agents templates)
                             (F := fun _ => globals_are agents templates).
  - apply Hc.
  - intros _. apply Hcl.
  - intros _. apply Hcl.
Qed.

Lemma preserves_for_in {A B : Type} (xs : list A) (body : A -> B -> M B)
      (acc : B) :
  (forall x acc, preserves_globals (body x acc)) ->
  preserves_globals (for_in xs body acc).
Proof.
  intros Hbody agents templates.
  apply (triple_for_in xs body (fun _ _ => globals_are agents templates)).
  intros pre x post acc' _. apply Hbody.
Qed.

Lemma preserves_step {A : Type} (c : M A) :
  (forall st, st_AGENTS (snd (c st)) = st_AGENTS st
              /\ st_TEMPLATES (snd (c st)) = st_TEMPLATES st) ->
  preserves_globals c.
Proof.
  intros H agents templates st [HA HT]. destruct (H st) as [H1 H2].
  destruct (c st) as [[a|e] st']; cbn [snd] in H1, H2;
    split; congruence.
Qed.

End Logic.

(** * The templates *)

Lemma TEMPLATES_parts :
  TEMPLATES = map (fun parts => fill parts "{intent}") TEMPLATE_PARTS.
Proof. reflexivity. Qed.

Lemma TEMPLATE_PARTS_brace_free :
  Forall (fun parts => PyFormat.brace_free (fst parts) = true
                       /\ PyFormat.brace_free (snd parts) = true)
         TEMPLATE_PARTS.
Proof. repeat constructor. Qed.

Lemma TEMPLATES_lookup j :
  TEMPLATES !! j = (fun parts => fill parts "{intent}") <$> TEMPLATE_PARTS !! j.
Proof. rewrite TEMPLATES_parts. apply list_lookup_fmap. Qed.

Lemma format_fill parts intent :
  In parts TEMPLATE_PARTS ->
  PyFormat.format (fill parts "{intent}") intent = Ok (fill parts intent).
Proof.
  intros Hin. pose proof TEMPLATE_PARTS_brace_free as Hbf.
  rewrite Forall_forall in Hbf.
  destruct (Hbf parts (proj2 (list_elem_of_In _ _) Hin)) as [Hpre Hpost].
  unfold fill. apply FormatFacts.format_placeholder; assumption.
Qed.

Lemma fill_nonempty parts s : In parts TEMPLATE_PARTS -> fill parts s <> "".
Proof.
  intros Hin. cbn [In TEMPLATE_PARTS] in Hin.
  destruct Hin as [<-|[<-|[<-|[<-|[<-|[]]]]]]; discriminate.
Qed.

Lemma lower_nonempty s : s <> "" -> PyStr.lower s <> "".
Proof. destruct s; [congruence | discriminate]. Qed.

(** * The script's statements *)

Arguments lt_0_1 : simpl never.
Arguments Json.dumps : simpl never.
Arguments PyFormat.format : simpl never.
Arguments PyStr.lower : simpl never.

Section ScriptFacts.
Context {RS : RandomSource}.

(** ** No statement assigns to the module globals *)

Ltac step_frame :=
  apply preserves_step; intros st;
  repeat match goal with
         | |- context [randbelow ?n ?g] => destruct (randbelow n g)
         | |- context [random ?g] => destruct (random g)
         | |- context [st_io_budget ?s] => destruct (st_io_budget s) as [[|?]|]
         | |- context [con_budget ?c] => destruct (con_budget c) as [[|?]|]
         | |- context [negb ?b && ?l] => destruct (negb b && l)
         | |- context [con_closed ?c] => destruct (con_closed c)
         end;
  split; reflexivity.

Lemma preserves_read_AGENTS : preserves_globals read_AGENTS.
Proof. step_frame. Qed.

Lemma preserves_read_TEMPLATES : preserves_globals read_TEMPLATES.
Proof. step_frame. Qed.

Lemma preserves_call_randbelow n : preserves_globals (call_randbelow n).
Proof. unfold call_randbelow. step_frame. Qed.

Lemma preserves_random_random : preserves_globals random_random.
Proof. unfold random_random. step_frame. Qed.

Lemma preserves_print line : preserves_globals (print line).
Proof. unfold print. step_frame. Qed.

Lemma preserves_io_call : preserves_globals io_call.
Proof. unfold io_call. step_frame. Qed.

Lemma preserves_set_file path content : preserves_globals (set_file path content).
Proof. step_frame. Qed.

Lemma preserves_get_file path : preserves_globals (get_file path).
Proof. step_frame. Qed.

Lemma preserves_random_choice {A : Type} (seq : list A) :
  preserves_globals (random_choice seq).
Proof.
  unfold random_choice. destruct (Nat.eqb (length seq) 0).
  - apply preserves_raise.
  - apply preserves_bind; [apply preserves_call_randbelow|].
    intros j. destruct (seq !! j); [apply preserves_ret | apply preserves_raise].
Qed.

Lemma preserves_swap {A : Type} i j (x : list A) : preserves_globals (swap i j x).
Proof.
  unfold swap. destruct (x !! j), (x !! i);
    first [apply preserves_ret | apply preserves_raise].
Qed.

Lemma preserves_shuffle_from {A : Type} i (x : list A) :
  preserves_globals (shuffle_from i x).
Proof.
  revert x. induction i as [|i IH]; intros x; cbn [shuffle_from].
  - apply preserves_ret.
  - apply preserves_bind; [apply preserves_call_randbelow|]. intros j.
    apply preserves_bind; [apply preserves_swap|]. intros x'. apply IH.
Qed.

Lemma preserves_random_shuffle {A : Type} (x : list A) :
  preserves_globals (random_shuffle x).
Proof. apply preserves_shuffle_from. Qed.

Lemma preserves_open_w path : preserves_globals (open_w path).
Proof.
  unfold open_w.
  apply preserves_bind; [apply preserves_io_call|]. intros _.
  apply preserves_bind; [apply preserves_set_file|]. intros _.
  apply preserves_ret.
Qed.

Lemma preserves_file_write f data : preserves_globals (file_write f data).
Proof.
  unfold file_write.
  apply preserves_bind; [apply preserves_io_call|]. intros _.
  apply preserves_bind; [apply preserves_get_file|]. intros old.
  apply preserves_set_file.
Qed.

Lemma preserves_with_open_w {A : Type} path (body : string -> M A) :
  (forall f, preserves_globals (body f)) ->
  preserves_globals (with_open_w path body).
Proof.
  intros Hbody. unfold with_open_w.
  apply preserves_bind; [apply preserves_open_w|]. intros f.
  apply preserves_finally; [apply Hbody | apply preserves_io_call].
Qed.

Lemma preserves_generate_sample agent intent :
  preserves_globals (generate_sample agent intent).
Proof.
  unfold generate_sample.
  apply preserves_bind; [apply preserves_read_TEMPLATES|]. intros templates.
  apply preserves_bind; [apply preserves_random_choice|]. intros template.
  apply preserves_bind; [apply preserves_lift|]. intros utterance.
  apply preserves_bind; [apply preserves_random_random|]. intros x.
  apply preserves_ret.
Qed.

Lemma preserves_main_accumulate n : preserves_globals (main_accumulate n).
Proof.
  unfold main_accumulate.
  apply preserves_bind; [apply preserves_read_AGENTS|]. intros items.
  apply preserves_for_in. intros item dataset. unfold agent_body.
  apply preserves_for_in. intros intent dataset'. unfold intent_body.
  apply preserves_for_in. intros i dataset''. unfold sample_body.
  apply preserves_bind; [apply preserves_generate_sample|]. intros sample.
  apply preserves_ret.
Qed.

Lemma preserves_main_build n : preserves_globals (main_build n).
Proof.
  unfold main_build.
  apply preserves_bind; [apply preserves_main_accumulate|]. intros dataset.
  apply preserves_random_shuffle.
Qed.

Lemma preserves_main_persist dataset : preserves_globals (main_persist dataset).
Proof.
  unfold main_persist.
  apply preserves_bind.
  { apply preserves_with_open_w. intros f.
    apply preserves_for_in. intros e []. apply preserves_file_write. }
  intros _. apply preserves_bind; [apply preserves_print|]. intros _.
  apply preserves_print.
Qed.

Lemma preserves_main : preserves_globals main.
Proof.
  unfold main.
  apply preserves_bind; [apply preserves_print|]. intros _.
  apply preserves_bind; [apply preserves_main_build|]. intros dataset.
  apply preserves_main_persist.
Qed.

(** ** One sample *)

Lemma same_but_rng_refl st : same_but_rng st st.
Proof. repeat split. Qed.

Lemma same_but_rng_with_rng s0 st g :
  same_but_rng s0 st -> same_but_rng s0 (with_rng g st).
Proof. intros H. exact H. Qed.

Lemma same_but_rng_templates s0 st :
  st_TEMPLATES s0 = TEMPLATES -> same_but_rng s0 st ->
  st_TEMPLATES st = TEMPLATES.
Proof. intros H0 (_ & H & _). congruence. Qed.

(** What [generate_sample] computes from the two draws it makes. *)
Lemma generate_sample_run agent intent st :
  st_TEMPLATES st = TEMPLATES ->
  let j := fst (randbelow 5 (st_rng st)) in
  let g1 := snd (randbelow 5 (st_rng st)) in
  let k := fst (random g1) in
  let g2 := snd (random g1) in
  exists parts,
    TEMPLATE_PARTS !! j = Some parts
    /\ generate_sample agent intent st
       = (Ok {| instruction := INSTRUCTION;
                input := if lt_0_1 k then PyStr.lower (fill parts intent)
                         else fill parts intent;
                output := Json.dumps (route_dict agent intent) |},
          with_rng g2 st).
Proof.
  intros HT j g1 k g2.
  assert (Hj : j < 5) by (apply randbelow_lt; lia).
  destruct (TEMPLATE_PARTS !! j) as [parts|] eqn:Hparts.
  2: { apply lookup_ge_None in Hparts. cbn [length TEMPLATE_PARTS] in Hparts. lia. }
  exists parts. split; [reflexivity|].
  assert (Hin : In parts TEMPLATE_PARTS).
  { apply list_elem_of_In. eapply list_elem_of_lookup_2. exact Hparts. }
  unfold generate_sample, read_TEMPLATES, random_choice, call_randbelow,
    random_random, lift, mbind, M_bind, mret, M_ret.
  rewrite HT. change (length TEMPLATES) with 5. cbn [Nat.eqb].
  subst j g1 k g2.
  destruct (randbelow 5 (st_rng st)) as [j g1]. cbn [fst snd] in *.
  rewrite TEMPLATES_lookup, Hparts. cbn [fmap option_fmap option_map].
  rewrite (format_fill _ _ Hin). cbn [st_rng].
  destruct (random g1) as [k g2]. cbn [fst snd].
  unfold with_rng. cbn [st_AGENTS st_TEMPLATES st_files st_console st_io_budget].
  rewrite HT. reflexivity.
Qed.

End ScriptFacts.

(** * The accumulated dataset *)

Section Accumulate.
Context {RS : RandomSource}.

Lemma sample_of_inv agent intent r :
  sample_of agent intent r ->
  instruction r = INSTRUCTION
  /\ output r = Json.dumps (route_dict agent intent)
  /\ exists parts, In parts TEMPLATE_PARTS
                   /\ (input r = fill parts intent
                       \/ input r = PyStr.lower (fill parts intent)).
Proof.
  intros (st & st' & HT & Hrun).
  destruct (generate_sample_run agent intent st HT) as (parts & Hparts & Heq).
  rewrite Heq in Hrun. injection Hrun as <- _. cbn [instruction output input].
  split; [reflexivity|]. split; [reflexivity|].
  exists parts. split.
  - apply list_elem_of_In. eapply list_elem_of_lookup_2. exact Hparts.
  - destruct (lt_0_1 _); [right | left]; reflexivity.
Qed.

Lemma triple_generate_sample s0 agent intent :
  st_TEMPLATES s0 = TEMPLATES ->
  triple (same_but_rng s0) (generate_sample agent intent)
         (fun r st => same_but_rng s0 st /\ sample_of agent intent r)
         (fun _ _ => False).
Proof.
  intros HT0 st Hst.
  pose proof (same_but_rng_templates s0 st HT0 Hst) as HT.
  destruct (generate_sample_run agent intent st HT) as (parts & _ & Heq).
  rewrite Heq. split.
  - apply same_but_rng_with_rng. exact Hst.
  - exists st, (with_rng (snd (random (snd (randbelow 5 (st_rng st))))) st).
    split; [exact HT | exact Heq].
Qed.

Lemma blocks_for_nil n : blocks_for n [] [].
Proof. exists []. split; [reflexivity | constructor]. Qed.

Lemma blocks_for_app n ps ps' ds ds' :
  blocks_for n ps ds -> blocks_for n ps' ds' ->
  blocks_for n (ps ++ ps') (ds ++ ds').
Proof.
  intros (bs & -> & H) (bs' & -> & H'). exists (bs ++ bs'). split.
  - rewrite concat_app. reflexivity.
  - apply Forall2_app; assumption.
Qed.

Lemma blocks_for_one n p b : block_of n p b -> blocks_for n [p] b.
Proof.
  intros H. exists [b]. split.
  - cbn [concat]. rewrite app_nil_r. reflexivity.
  - constructor; [exact H | constructor].
Qed.

Lemma blocks_for_length n ps ds :
  blocks_for n ps ds -> length ds = length ps * n.
Proof.
  intros (bs & -> & H). induction H as [|p b ps bs [Hlen _] _ IH].
  - reflexivity.
  - cbn [concat length]. rewrite length_app, IH, Hlen. lia.
Qed.

Lemma blocks_for_In n ps ds r :
  blocks_for n ps ds -> In r ds ->
  exists p, In p ps /\ sample_of (fst p) (snd p) r.
Proof.
  intros (bs & -> & H). induction H as [|p b ps bs [_ Hall] _ IH]; intros Hin.
  - destruct Hin.
  - cbn [concat] in Hin. apply in_app_or in Hin as [Hin|Hin].
    + exists p. split; [left; reflexivity|].
      rewrite Forall_forall in Hall. apply Hall, list_elem_of_In, Hin.
    + destruct (IH Hin) as (q & Hq & Hs). exists q. split; [right|]; assumption.
Qed.

(** ** The three loops *)

Lemma triple_for_range s0 n agent intent d0 :
  st_TEMPLATES s0 = TEMPLATES ->
  triple (same_but_rng s0)
         (for_in (seq 0 n) (sample_body agent intent) d0)
         (fun d st => same_but_rng s0 st
                      /\ exists b, d = d0 ++ b /\ block_of n (agent, intent) b)
         (fun _ _ => False).
Proof.
  intros HT0. eapply triple_weaken.
  - apply (triple_for_in (seq 0 n) (sample_body agent intent)
             (fun visited d st =>
                same_but_rng s0 st
                /\ exists b, d = d0 ++ b /\ length b = length visited
                             /\ Forall (sample_of agent intent) b)
             (fun _ _ => False) d0).
    intros visited x post acc _ st [HG (b & -> & Hlen & Hall)].
    unfold sample_body, mbind, M_bind.
    pose proof (triple_generate_sample s0 agent intent HT0 st HG) as Hgen.
    destruct (generate_sample agent intent st) as [[r|e] st']; [|exact Hgen].
    destruct Hgen as [HG' Hr]. split; [exact HG'|].
    exists (b ++ [r]). split; [symmetry; apply app_assoc|]. split.
    + rewrite !length_app, Hlen. reflexivity.
    + apply Forall_app. split; [exact Hall | repeat constructor; exact Hr].
  - intros st HG. split; [exact HG|]. exists []. split.
    + symmetry. apply app_nil_r.
    + split; [reflexivity | constructor].
  - intros d st [HG (b & -> & Hlen & Hall)]. split; [exact HG|].
    exists b. split; [reflexivity|]. split; [|exact Hall].
    rewrite Hlen. apply length_seq.
  - intros e st [].
Qed.

Lemma triple_for_intents s0 n agent intents d0 :
  st_TEMPLATES s0 = TEMPLATES ->
  triple (same_but_rng s0)
         (for_in intents (intent_body n agent) d0)
         (fun d st => same_but_rng s0 st
                      /\ exists ds, d = d0 ++ ds
                                    /\ blocks_for n (map (pair agent) intents) ds)
         (fun _ _ => False).
Proof.
  intros HT0. eapply triple_weaken.
  - apply (triple_for_in intents (intent_body n agent)
             (fun visited d st =>
                same_but_rng s0 st
                /\ exists ds, d = d0 ++ ds
                              /\ blocks_for n (map (pair agent) visited) ds)
             (fun _ _ => False) d0).
    intros visited intent post acc _ st [HG (ds & -> & Hds)].
    pose proof (triple_for_range s0 n agent intent (d0 ++ ds) HT0 st HG) as Hrun.
    unfold intent_body.
    destruct (for_in (seq 0 n) (sample_body agent intent) (d0 ++ ds) st)
      as [[d|e] st']; [|exact Hrun].
    destruct Hrun as [HG' (b & -> & Hb)]. split; [exact HG'|].
    exists (ds ++ b). split; [symmetry; apply app_assoc|].
    rewrite map_app. apply blocks_for_app; [exact Hds|].
    apply blocks_for_one. exact Hb.
  - intros st HG. split; [exact HG|]. exists []. split.
    + symmetry. apply app_nil_r.
    + apply blocks_for_nil.
  - intros d st H. exact H.
  - intros e st [].
Qed.

Lemma triple_for_agents s0 n items :
  st_TEMPLATES s0 = TEMPLATES ->
  triple (same_but_rng s0)
         (for_in items (agent_body n) [])
         (fun d st => same_but_rng s0 st
                      /\ blocks_for n (catalog_pairs items) d)
         (fun _ _ => False).
Proof.
  intros HT0. eapply triple_weaken.
  - apply (triple_for_in items (agent_body n)
             (fun visited d st =>
                same_but_rng s0 st
                /\ blocks_for n (catalog_pairs visited) d)
             (fun _ _ => False) []).
    intros visited item post acc _ st [HG Hacc].
    pose proof (triple_for_intents s0 n (fst item) (snd item) acc HT0 st HG)
      as Hrun.
    unfold agent_body.
    destruct (for_in (snd item) (intent_body n (fst item)) acc st)
      as [[d|e] st']; [|exact Hrun].
    destruct Hrun as [HG' (ds & -> & Hds)]. split; [exact HG'|].
    unfold catalog_pairs. rewrite flat_map_app. cbn [flat_map].
    rewrite app_nil_r. apply blocks_for_app; assumption.
  - intros st HG. split; [exact HG | apply blocks_for_nil].
  - intros d st H. exact H.
  - intros e st [].
Qed.

Lemma main_accumulate_unfold n st :
  main_accumulate n st = for_in (st_AGENTS st) (agent_body n) [] st.
Proof. reflexivity. Qed.

Lemma triple_main_accumulate s0 n :
  st_TEMPLATES s0 = TEMPLATES ->
  triple (same_but_rng s0) (main_accumulate n)
         (fun d st => same_but_rng s0 st
                      /\ blocks_for n (catalog_pairs (st_AGENTS s0)) d)
         (fun _ _ => False).
Proof.
  intros HT0 st HG. rewrite main_accumulate_unfold.
  destruct HG as [HA HG]. rewrite HA.
  apply (triple_for_agents s0 n (st_AGENTS s0) HT0 st). split; assumption.
Qed.

End Accumulate.

(** * The shuffle *)

Section Shuffle.
Context {RS : RandomSource}.

Lemma triple_shuffle_from {A : Type} s0 i (x : list A) :
  i < length x \/ i = 0 ->
  triple (same_but_rng s0) (shuffle_from i x)
         (fun x' st => same_but_rng s0 st /\ x' ≡ₚ x)
         (fun _ _ => False).
Proof.
  revert x. induction i as [|i IH]; intros x Hi st HG.
  - cbn [shuffle_from]. split; [exact HG | reflexivity].
  - destruct Hi as [Hi|Hi]; [|discriminate].
    cbn [shuffle_from]. unfold mbind, M_bind, call_randbelow.
    pose proof (randbelow_lt (S i + 1) (st_rng st) ltac:(lia)) as Hj.
    destruct (randbelow (S i + 1) (st_rng st)) as [j g]. cbn [fst] in Hj.
    destruct (lookup_lt_is_Some_2 x j ltac:(lia)) as [xj Hxj].
    destruct (lookup_lt_is_Some_2 x (S i) Hi) as [xi Hxi].
    unfold swap. rewrite Hxj, Hxi. unfold mret, M_ret.
    set (x' := <[j:=xi]> (<[S i:=xj]> x)).
    assert (Hperm : x' ≡ₚ x) by (apply Permutation_insert_swap; assumption).
    assert (Hlen : i < length x' \/ i = 0).
    { left. unfold x'. rewrite !length_insert. lia. }
    set (st1 := mkState g _ _ _ _ _).
    assert (HG1 : same_but_rng s0 st1) by exact HG.
    pose proof (IH x' Hlen st1 HG1) as Hrun.
    destruct (shuffle_from i x' st1) as [[y|e] st2]; [|exact Hrun].
    destruct Hrun as [HG2 Hy]. split; [exact HG2|].
    rewrite Hy. exact Hperm.
Qed.

(** [random.shuffle] returns a permutation and raises nothing. *)
Lemma triple_random_shuffle {A : Type} s0 (x : list A) :
  triple (same_but_rng s0) (random_shuffle x)
         (fun x' st => same_but_rng s0 st /\ x' ≡ₚ x)
         (fun _ _ => False).
Proof.
  apply triple_shuffle_from. destruct x; cbn [length]; lia.
Qed.

End Shuffle.

Section Persist.
Context {RS : RandomSource}.

Ltac fields :=
  cbn [st_io_budget st_files st_rng st_AGENTS st_TEMPLATES st_console] in *.

Lemma write_loop_ok f ds g agents templates files out budget old :
  files !! f = Some old ->
  budget_allows budget (length ds) = true ->
  for_in ds (write_body f) tt (mkState g agents templates files out budget)
  = (Ok tt, mkState g agents templates (<[f := old +:+ jsonl ds]> files) out
                    (spend budget (length ds))).
Proof.
  revert files budget old.
  induction ds as [|e ds IH]; intros files budget old Hold Hb.
  - cbn [for_in jsonl length]. unfold mret, M_ret.
    rewrite StrFacts.app_nil_r, (insert_id _ _ _ Hold).
    destruct budget as [m|]; cbn [spend]; [rewrite Nat.sub_0_r|]; reflexivity.
  - cbn [for_in jsonl length]. unfold mbind, M_bind.
    unfold write_body at 1.
    unfold file_write, io_call, get_file, set_file, mbind, M_bind.
    cbn [st_io_budget st_files st_rng st_AGENTS st_TEMPLATES st_console].
    destruct budget as [[|m]|]; cbn [budget_allows] in Hb.
    + discriminate.
    + fields. rewrite Hold. cbn [default from_option].
      rewrite (IH _ (Some m) (old +:+ (Json.dumps (entry_dict e) +:+ String "010"%char ""))).
      * rewrite insert_insert_eq, StrFacts.app_assoc. reflexivity.
      * apply lookup_insert_eq.
      * cbn [budget_allows length] in *. apply Nat.leb_le in Hb.
        apply Nat.leb_le. lia.
    + fields. rewrite Hold. cbn [default from_option].
      rewrite (IH _ None (old +:+ (Json.dumps (entry_dict e) +:+ String "010"%char ""))).
      * rewrite insert_insert_eq, StrFacts.app_assoc. reflexivity.
      * apply lookup_insert_eq.
      * reflexivity.
Qed.

Lemma write_loop_fail f ds st :
  budget_allows (st_io_budget st) (length ds) = false ->
  exists st', for_in ds (write_body f) tt st = (Raise OSError, st')
              /\ st_console st' = st_console st
              /\ st_io_budget st' = Some 0.
Proof.
  revert st. induction ds as [|e ds IH]; intros st Hb.
  - destruct (st_io_budget st); discriminate.
  - cbn [for_in length] in *. unfold mbind, M_bind.
    unfold write_body at 1.
    unfold file_write, io_call, get_file, set_file, mbind, M_bind.
    destruct st as [g agents templates files out budget].
    cbn [st_io_budget st_files st_rng st_AGENTS st_TEMPLATES st_console] in *.
    destruct budget as [[|m]|]; cbn [budget_allows] in Hb.
    + eexists. split; [reflexivity|]. split; reflexivity.
    + fields.
      match goal with
      | |- context [for_in ds (write_body f) tt ?s] =>
          destruct (IH s) as (st' & Hrun & Hout & Hbud)
      end.
      { cbn [st_io_budget budget_allows length] in *. apply Nat.leb_gt in Hb.
        apply Nat.leb_gt. lia. }
      rewrite Hrun. exists st'. split; [reflexivity|].
      split; [exact Hout | exact Hbud].
    + discriminate.
Qed.

(** A line the console accepts is appended to its lines. *)
Lemma print_accepted line g agents templates files out budget :
  console_accepts out 1 = true ->
  print line (mkState g agents templates files out budget)
  = (Ok tt, mkState g agents templates files (console_after out [line]) budget).
Proof.
  unfold console_accepts, print, console_after. intros H.
  apply andb_prop in H as [H Hb]. apply andb_prop in H as [Hcl Hu].
  apply negb_true_iff in Hcl. fields. rewrite Hcl, Hu. cbn [negb andb length].
  destruct (con_budget out) as [[|k]|]; cbn [budget_allows spend] in *.
  - discriminate.
  - replace (S k - 1) with k by lia. reflexivity.
  - reflexivity.
Qed.

Lemma console_after_app out l1 l2 :
  console_after (console_after out l1) l2 = console_after out (l1 ++ l2).
Proof.
  unfold console_after. cbn [con_lines con_closed con_unicode con_budget].
  rewrite <- app_assoc, length_app. f_equal.
  destruct (con_budget out) as [m|]; cbn [spend]; [f_equal; lia | reflexivity].
Qed.

Lemma console_accepts_after out line k :
  console_accepts out (S k) = true ->
  console_accepts out 1 = true
  /\ console_accepts (console_after out [line]) k = true.
Proof.
  unfold console_accepts, console_after.
  cbn [con_lines con_closed con_unicode con_budget].
  intros H. apply andb_prop in H as [-> Hb]. cbn [andb length].
  destruct (con_budget out) as [m|]; cbn [budget_allows spend] in *.
  - apply Nat.leb_le in Hb. split; apply Nat.leb_le; lia.
  - split; reflexivity.
Qed.

(** A line is either taken, or refused with the state left as it is; the
    exception is then that of the closed stream, of the encoder or of the
    operating system. *)
Lemma print_cases line st :
  (exists st', print line st = (Ok tt, st')
               /\ st_rng st' = st_rng st
               /\ st_AGENTS st' = st_AGENTS st
               /\ st_TEMPLATES st' = st_TEMPLATES st
               /\ st_files st' = st_files st
               /\ st_io_budget st' = st_io_budget st
               /\ st_stdout st' = st_stdout st ++ [line])
  \/ (exists e, print line st = (Raise e, st)
                /\ (e = OSError \/ e = UnicodeEncodeError \/ e = ValueError)).
Proof.
  unfold print. destruct (con_closed (st_console st)).
  { right. exists ValueError. split; [reflexivity | auto]. }
  destruct (negb (con_unicode (st_console st)) && has_non_ascii line).
  { right. exists UnicodeEncodeError. split; [reflexivity | auto]. }
  destruct (con_budget (st_console st)) as [[|k]|].
  - right. exists OSError. split; [reflexivity | auto].
  - left. eexists. split; [reflexivity|]. repeat split; reflexivity.
  - left. eexists. split; [reflexivity|]. repeat split; reflexivity.
Qed.

(** With file operations granted for the opening, every line and the
    closing, [main_persist] comes to its two messages with the file
    holding the lines of the dataset. *)
Lemma main_persist_written ds g agents templates files out budget :
  budget_allows budget (length ds + 2) = true ->
  main_persist ds (mkState g agents templates files out budget)
  = (print (summary (length ds));; print NEXT_STEP)
      (mkState g agents templates (<[filename := jsonl ds]> files) out
               (spend budget (length ds + 2))).
Proof.
  intros Hb. unfold main_persist, with_open_w, open_w, finally, file_close.
  unfold mbind at 1 2 3 4 5, M_bind.
  unfold io_call at 1. cbn [st_io_budget].
  destruct budget as [[|m]|]; cbn [budget_allows] in Hb.
  - apply Nat.leb_le in Hb. lia.
  - unfold set_file at 1.
    cbn [st_io_budget st_files st_rng st_AGENTS st_TEMPLATES st_console].
    unfold mret at 1, M_ret. fields.
    rewrite (write_loop_ok filename ds g agents templates _ out (Some m) "").
    2: apply lookup_insert_eq.
    2: { cbn [budget_allows]. apply Nat.leb_le in Hb. apply Nat.leb_le. lia. }
    unfold io_call. fields. cbn [spend].
    apply Nat.leb_le in Hb.
    destruct (m - length ds) as [|m'] eqn:Hm; [lia|]. fields.
    rewrite insert_insert_eq, StrFacts.app_nil_l.
    replace (S m - (length ds + 2)) with m' by lia. reflexivity.
  - unfold set_file at 1.
    cbn [st_io_budget st_files st_rng st_AGENTS st_TEMPLATES st_console].
    unfold mret at 1, M_ret. fields.
    rewrite (write_loop_ok filename ds g agents templates _ out None "").
    2: apply lookup_insert_eq.
    2: reflexivity.
    unfold io_call. fields. cbn [spend].
    rewrite insert_insert_eq, StrFacts.app_nil_l. reflexivity.
Qed.

(** When the console accepts the two messages as well, [main_persist]
    returns with the summary of the dataset's length printed. *)
Lemma main_persist_ok ds g agents templates files out budget :
  budget_allows budget (length ds + 2) = true ->
  console_accepts out 2 = true ->
  main_persist ds (mkState g agents templates files out budget)
  = (Ok tt, mkState g agents templates (<[filename := jsonl ds]> files)
                    (console_after out [summary (length ds); NEXT_STEP])
                    (spend budget (length ds + 2))).
Proof.
  intros Hb Hc. rewrite (main_persist_written _ _ _ _ _ _ _ Hb).
  destruct (console_accepts_after out (summary (length ds)) 1 Hc) as [H1 H2].
  unfold mbind, M_bind. rewrite (print_accepted _ _ _ _ _ _ _ H1).
  rewrite (print_accepted _ _ _ _ _ _ _ H2), console_after_app. reflexivity.
Qed.

(** Without the file operations it needs, [main_persist] raises [OSError]
    and prints nothing. *)
Lemma main_persist_fail ds st :
  budget_allows (st_io_budget st) (length ds + 2) = false ->
  exists st', main_persist ds st = (Raise OSError, st')
              /\ st_console st' = st_console st.
Proof.
  intros Hb. destruct st as [g agents templates files out budget]. fields.
  unfold main_persist, with_open_w, open_w, finally, file_close.
  unfold mbind at 1 2 3 4 5, M_bind.
  unfold io_call at 1. fields.
  destruct budget as [[|m]|]; cbn [budget_allows] in Hb.
  - eexists. split; reflexivity.
  - unfold set_file at 1. fields. unfold mret at 1, M_ret. fields.
    apply Nat.leb_gt in Hb.
    destruct (budget_allows (Some m) (length ds)) eqn:Hloop.
    + rewrite (write_loop_ok filename ds g agents templates _ out (Some m) "").
      2: apply lookup_insert_eq.
      2: exact Hloop.
      cbn [budget_allows] in Hloop. apply Nat.leb_le in Hloop.
      unfold io_call. fields. cbn [spend].
      replace (m - length ds) with 0 by lia.
      eexists. split; reflexivity.
    + match goal with
      | |- context [for_in ds (write_body filename) tt ?s] =>
          destruct (write_loop_fail filename ds s Hloop)
            as (st' & Hrun & Hout & Hbud)
      end.
      rewrite Hrun. unfold io_call. rewrite Hbud.
      exists st'. split; [reflexivity | exact Hout].
  - discriminate.
Qed.

(** The two messages change neither the files nor the file budget, and
    fail with an exception of the stream only. *)
Lemma messages_cases l1 l2 st :
  st_files (snd ((print l1;; print l2) st)) = st_files st
  /\ st_io_budget (snd ((print l1;; print l2) st)) = st_io_budget st
  /\ (fst ((print l1;; print l2) st) = Ok tt
         /\ st_stdout (snd ((print l1;; print l2) st)) = st_stdout st ++ [l1; l2]
      \/ exists e, fst ((print l1;; print l2) st) = Raise e
                   /\ (e = OSError \/ e = UnicodeEncodeError \/ e = ValueError)).
Proof.
  unfold mbind, M_bind.
  destruct (print_cases l1 st)
    as [(st1 & -> & _ & _ & _ & Hf1 & Hb1 & Ho1) | (e & -> & He)].
  - destruct (print_cases l2 st1)
      as [(st2 & -> & _ & _ & _ & Hf2 & Hb2 & Ho2) | (e & -> & He)];
      cbn [fst snd].
    + split; [congruence|]. split; [congruence|]. left.
      split; [reflexivity|]. rewrite Ho2, Ho1, <- app_assoc. reflexivity.
    + split; [exact Hf1|]. split; [exact Hb1|]. right.
      exists e. split; [reflexivity | exact He].
  - cbn [fst snd]. split; [reflexivity|]. split; [reflexivity|].
    right. exists e. split; [reflexivity | exact He].
Qed.

Lemma triple_main_persist agents templates ds :
  triple (globals_are agents templates) (main_persist ds)
         (fun _ _ => True)
         (fun e _ => e = OSError \/ e = UnicodeEncodeError \/ e = ValueError).
Proof.
  intros st _.
  destruct (budget_allows (st_io_budget st) (length ds + 2)) eqn:Hb.
  - destruct st as [g a t files out budget]. fields.
    rewrite (main_persist_written ds g a t files out budget Hb).
    match goal with
    | |- context [(print ?a;; print ?b) ?s] =>
        destruct (messages_cases a b s) as (_ & _ & [[H _] | (e0 & H & He)]);
        destruct ((print a;; print b) s) as [[[]|e] s']; cbn [fst] in H
    end; first [exact I | discriminate H | injection H as ->; exact He].
  - destruct (main_persist_fail ds st Hb) as (st' & -> & _). left. reflexivity.
Qed.

End Persist.

Lemma printable_not_LF c : PyStr.in_range 32 126 c = true -> Ascii.eqb c LF = false.
Proof.
  intros H. destruct (Ascii.eqb_spec c LF) as [->|]; [discriminate H | reflexivity].
Qed.

Lemma split_lines_go_line cur l rest :
  Json.printable l = true ->
  split_lines_go cur (l +:+ String LF rest)
  = (cur +:+ l) :: split_lines_go "" rest.
Proof.
  unfold Json.printable. revert cur.
  induction l as [|c l IH]; intros cur H.
  - rewrite StrFacts.app_nil_l, StrFacts.app_nil_r. cbn [split_lines_go].
    rewrite Ascii.eqb_refl. reflexivity.
  - cbn [PyStr.all_chars] in H. apply andb_prop in H as [Hc Hl].
    rewrite StrFacts.app_cons. cbn [split_lines_go].
    rewrite (printable_not_LF c Hc), (IH _ Hl), StrFacts.app_assoc.
    reflexivity.
Qed.

(** Reading the file back line by line gives the records' serialisations,
    one per record and in the order of the dataset. *)
Lemma split_lines_jsonl ds :
  split_lines (jsonl ds) = map (fun e => Json.dumps (entry_dict e)) ds.
Proof.
  unfold split_lines. induction ds as [|e ds IH]; [reflexivity|].
  cbn [jsonl map]. rewrite StrFacts.app_assoc. change (String "010" "" +:+ jsonl ds)
    with (String LF (jsonl ds)).
  rewrite (split_lines_go_line _ _ _ (JsonFacts.printable_dumps_entry e)), IH.
  reflexivity.
Qed.

Section Determinism.
Context (RS1 RS2 : RandomSource).
Variable R : @rng RS1 -> @rng RS2 -> Prop.
Hypothesis HR : same_draws RS1 RS2 R.

Local Abbreviation rel := (build_rel RS1 RS2 R).
Local Abbreviation agree := (agree_on RS1 RS2 R).

Lemma agree_ret {A : Type} (a : A) : agree (mret a) (mret a).
Proof. intros s1 s2 H. split; [reflexivity | exact H]. Qed.

Lemma agree_raise {A : Type} (e : exn) : agree (raise (A := A) e) (raise e).
Proof. intros s1 s2 H. split; [reflexivity | exact H]. Qed.

Lemma agree_lift {A : Type} (r : result A) : agree (lift r) (lift r).
Proof. intros s1 s2 H. split; [reflexivity | exact H]. Qed.

Lemma agree_bind {A B : Type} (c1 : @M RS1 A) (c2 : @M RS2 A)
      (f1 : A -> @M RS1 B) (f2 : A -> @M RS2 B) :
  agree c1 c2 -> (forall a, agree (f1 a) (f2 a)) ->
  agree (c1 ≫= f1) (c2 ≫= f2).
Proof.
  intros Hc Hf s1 s2 H. unfold mbind, M_bind.
  destruct (Hc s1 s2 H) as [Hres Hst].
  destruct (c1 s1) as [r1 s1'], (c2 s2) as [r2 s2']. cbn [fst snd] in *.
  subst r2. destruct r1 as [a|e].
  - exact (Hf a s1' s2' Hst).
  - split; [reflexivity | exact Hst].
Qed.

Lemma agree_finally {A : Type} (c1 : @M RS1 A) (c2 : @M RS2 A) k1 k2 :
  agree c1 c2 -> agree k1 k2 -> agree (finally c1 k1) (finally c2 k2).
Proof.
  intros Hc Hk s1 s2 H. unfold finally.
  destruct (Hc s1 s2 H) as [Hres Hst].
  destruct (c1 s1) as [r1 s1'], (c2 s2) as [r2 s2']. cbn [fst snd] in *.
  subst r2. destruct (Hk s1' s2' Hst) as [Hres' Hst'].
  destruct (k1 s1') as [q1 s1''], (k2 s2') as [q2 s2'']. cbn [fst snd] in *.
  subst q2. destruct q1 as [[]|e]; split; first [reflexivity | exact Hst'].
Qed.

Lemma agree_for_in {A B : Type} (xs : list A)
      (b1 : A -> B -> @M RS1 B) (b2 : A -> B -> @M RS2 B) (acc : B) :
  (forall x acc, agree (b1 x acc) (b2 x acc)) ->
  agree (for_in xs b1 acc) (for_in xs b2 acc).
Proof.
  intros Hb. revert acc. induction xs as [|x xs IH]; intros acc.
  - apply agree_ret.
  - cbn [for_in]. apply agree_bind; [apply Hb | exact IH].
Qed.

Lemma agree_read_AGENTS : agree read_AGENTS read_AGENTS.
Proof.
  intros s1 s2 (Hg & HA & HT). unfold read_AGENTS. cbn [fst snd].
  split; [f_equal; exact HA|]. repeat split; assumption.
Qed.

Lemma agree_read_TEMPLATES : agree read_TEMPLATES read_TEMPLATES.
Proof.
  intros s1 s2 (Hg & HA & HT). unfold read_TEMPLATES. cbn [fst snd].
  split; [f_equal; exact HT|]. repeat split; assumption.
Qed.

Lemma agree_call_randbelow n : agree (call_randbelow n) (call_randbelow n).
Proof.
  intros s1 s2 (Hg & HA & HT). unfold call_randbelow.
  destruct (HR _ _ Hg) as [Hrb _]. destruct (Hrb n) as [Hj Hg'].
  destruct (randbelow n (st_rng s1)) as [j1 g1'],
           (randbelow n (st_rng s2)) as [j2 g2'].
  cbn [fst snd] in *. subst j2. split; [reflexivity|].
  repeat split; assumption.
Qed.

Lemma agree_random_random : agree random_random random_random.
Proof.
  intros s1 s2 (Hg & HA & HT). unfold random_random.
  destruct (HR _ _ Hg) as (_ & Hk & Hg').
  destruct (random (st_rng s1)) as [k1 g1'],
           (random (st_rng s2)) as [k2 g2'].
  cbn [fst snd] in *. subst k2. split; [reflexivity|].
  repeat split; assumption.
Qed.

Lemma agree_random_choice {A : Type} (seq : list A) :
  agree (random_choice seq) (random_choice seq).
Proof.
  unfold random_choice. destruct (Nat.eqb (length seq) 0).
  - apply agree_raise.
  - apply agree_bind; [apply agree_call_randbelow|]. intros j.
    destruct (seq !! j); [apply agree_ret | apply agree_raise].
Qed.

Lemma agree_swap {A : Type} i j (x : list A) : agree (swap i j x) (swap i j x).
Proof.
  unfold swap. destruct (x !! j), (x !! i);
    first [apply agree_ret | apply agree_raise].
Qed.

Lemma agree_shuffle_from {A : Type} i (x : list A) :
  agree (shuffle_from i x) (shuffle_from i x).
Proof.
  revert x. induction i as [|i IH]; intros x; cbn [shuffle_from].
  - apply agree_ret.
  - apply agree_bind; [apply agree_call_randbelow|]. intros j.
    apply agree_bind; [apply agree_swap|]. intros x'. apply IH.
Qed.

Lemma agree_generate_sample agent intent :
  agree (generate_sample agent intent) (generate_sample agent intent).
Proof.
  unfold generate_sample.
  apply agree_bind; [apply agree_read_TEMPLATES|]. intros templates.
  apply agree_bind; [apply agree_random_choice|]. intros template.
  apply agree_bind; [apply agree_lift|]. intros utterance.
  apply agree_bind; [apply agree_random_random|]. intros x.
  apply agree_ret.
Qed.

Lemma agree_main_accumulate n : agree (main_accumulate n) (main_accumulate n).
Proof.
  unfold main_accumulate.
  apply agree_bind; [apply agree_read_AGENTS|]. intros items.
  apply agree_for_in. intros item dataset. unfold agent_body.
  apply agree_for_in. intros intent dataset'. unfold intent_body.
  apply agree_for_in. intros i dataset''. unfold sample_body.
  apply agree_bind; [apply agree_generate_sample|]. intros sample.
  apply agree_ret.
Qed.

Lemma agree_main_build n : agree (main_build n) (main_build n).
Proof.
  unfold main_build.
  apply agree_bind; [apply agree_main_accumulate|]. intros dataset.
  apply agree_shuffle_from.
Qed.

End Determinism.

(** * The catalog *)

Lemma in_catalog_pairs items agent intent :
  In (agent, intent) (catalog_pairs items)
  <-> exists intents, In (agent, intents) items /\ In intent intents.
Proof.
  unfold catalog_pairs. rewrite in_flat_map. split.
  - intros ([a intents] & Hitem & Hmap). cbn [fst snd] in Hmap.
    apply in_map_iff in Hmap as (i & Heq & Hi). injection Heq as -> ->.
    exists intents. split; assumption.
  - intros (intents & Hitem & Hi). exists (agent, intents).
    split; [exact Hitem|]. cbn [fst snd]. apply in_map_iff.
    exists intent. split; [reflexivity | exact Hi].
Qed.

Lemma catalog_pairs_length items n :
  length (catalog_pairs items) * n
  = sum_list (map (fun item => length (snd item) * n) items).
Proof.
  induction items as [|item items IH]; [reflexivity|].
  cbn [catalog_pairs flat_map map sum_list sum_list_with].
  fold (catalog_pairs items).
  rewrite length_app, length_map, Nat.mul_add_distr_r, IH. reflexivity.
Qed.

(** The keys of the dictionary literal are distinct. *)
Lemma AGENTS_keys_NoDup : NoDup (map fst AGENTS).
Proof. apply (bool_decide_unpack (NoDup (map fst AGENTS))). vm_compute. exact I. Qed.

Lemma AGENTS_pairs_NoDup : NoDup (catalog_pairs AGENTS).
Proof.
  apply (bool_decide_unpack (NoDup (catalog_pairs AGENTS))). vm_compute. exact I.
Qed.

(** Every intent phrase of the catalog is in lower case already. *)
Lemma AGENTS_intents_lowercase :
  Forall (fun p => PyStr.is_lowercase (snd p) = true) (catalog_pairs AGENTS).
Proof. repeat constructor. Qed.

Lemma AGENTS_size : length (catalog_pairs AGENTS) = 16.
Proof. reflexivity. Qed.

Lemma count_routed_app agent intent ds ds' :
  count_routed agent intent (ds ++ ds')
  = count_routed agent intent ds + count_routed agent intent ds'.
Proof. unfold count_routed. rewrite List.filter_app, length_app. reflexivity. Qed.

Lemma count_routed_Permutation agent intent ds ds' :
  ds ≡ₚ ds' -> count_routed agent intent ds = count_routed agent intent ds'.
Proof.
  unfold count_routed. induction 1 as [|x l l' _ IH|x y l|l l' l'' _ IH1 _ IH2].
  - reflexivity.
  - cbn [List.filter]. destruct (routes_to agent intent x); cbn [length]; congruence.
  - cbn [List.filter].
    destruct (routes_to agent intent x), (routes_to agent intent y); reflexivity.
  - congruence.
Qed.

Lemma occurrences_not_In p ps : ~ In p ps -> occurrences p ps = 0.
Proof.
  unfold occurrences. induction ps as [|q ps IH]; intros Hnot; [reflexivity|].
  cbn [List.filter]. rewrite bool_decide_eq_false_2.
  - apply IH. intros Hin. apply Hnot. right. exact Hin.
  - intros ->. apply Hnot. left. reflexivity.
Qed.

Lemma occurrences_NoDup p ps : NoDup ps -> In p ps -> occurrences p ps = 1.
Proof.
  unfold occurrences. induction 1 as [|q ps Hq _ IH]; intros Hin; [destruct Hin|].
  cbn [List.filter]. destruct Hin as [->|Hin].
  - rewrite bool_decide_eq_true_2 by reflexivity. cbn [length].
    f_equal. apply occurrences_not_In. intros Hin. apply Hq, list_elem_of_In, Hin.
  - rewrite bool_decide_eq_false_2.
    + apply IH, Hin.
    + intros ->. apply Hq, list_elem_of_In, Hin.
Qed.

Section Counting.
Context {RS : RandomSource}.

Lemma routes_to_sample agent intent p r :
  sample_of (fst p) (snd p) r ->
  routes_to agent intent r = bool_decide (p = (agent, intent)).
Proof.
  intros Hr. destruct (sample_of_inv _ _ _ Hr) as (_ & Hout & _).
  unfold routes_to. rewrite Hout. destruct p as [a i]. cbn [fst snd].
  destruct (String.eqb_spec (Json.dumps (route_dict a i))
                            (Json.dumps (route_dict agent intent))) as [Heq|Hne].
  - apply JsonFacts.route_json_inj in Heq as [-> ->].
    symmetry. apply bool_decide_eq_true_2. reflexivity.
  - symmetry. apply bool_decide_eq_false_2. intros Heq.
    injection Heq as -> ->. apply Hne. reflexivity.
Qed.

Lemma count_routed_block agent intent n p b :
  block_of n p b ->
  count_routed agent intent b
  = if bool_decide (p = (agent, intent)) then n else 0.
Proof.
  intros [<- Hall]. unfold count_routed.
  induction Hall as [|r b Hr _ IH]; cbn [List.filter length].
  - destruct (bool_decide _); reflexivity.
  - rewrite (routes_to_sample agent intent p r Hr).
    destruct (bool_decide (p = (agent, intent))); cbn [length]; congruence.
Qed.

Lemma count_routed_blocks agent intent n ps ds :
  blocks_for n ps ds ->
  count_routed agent intent ds = occurrences (agent, intent) ps * n.
Proof.
  intros (bs & -> & H). induction H as [|p b ps bs Hb _ IH].
  - reflexivity.
  - cbn [concat]. rewrite count_routed_app, IH, (count_routed_block _ _ _ _ _ Hb).
    unfold occurrences. cbn [List.filter].
    destruct (bool_decide (p = (agent, intent))); cbn [length]; lia.
Qed.

End Counting.

(** ** Lower case and plain characters *)

Lemma all_chars_impl (p q : ascii -> bool) s :
  (forall c, p c = true -> q c = true) ->
  PyStr.all_chars p s = true -> PyStr.all_chars q s = true.
Proof.
  intros Hpq. induction s as [|c s IH]; [reflexivity|].
  cbn [PyStr.all_chars]. intros [Hc Hs]%andb_prop.
  rewrite (Hpq c Hc), (IH Hs). reflexivity.
Qed.

Lemma lower_char_idempotent c :
  PyStr.lower_char (PyStr.lower_char c) = PyStr.lower_char c.
Proof. destruct c as [[|] [|] [|] [|] [|] [|] [|] [|]]; reflexivity. Qed.

Lemma is_lowercase_lower s : PyStr.is_lowercase (PyStr.lower s) = true.
Proof.
  unfold PyStr.is_lowercase. induction s as [|c s IH]; [reflexivity|].
  change (PyStr.lower (String c s))
    with (String (PyStr.lower_char c) (PyStr.lower s)).
  cbn [PyStr.all_chars]. unfold PyStr.is_lower_char at 1.
  rewrite lower_char_idempotent, Ascii.eqb_refl, IH. reflexivity.
Qed.

Lemma fill_not_lowercase parts s :
  In parts TEMPLATE_PARTS -> PyStr.is_lowercase (fill parts s) = false.
Proof.
  intros Hin. cbn [In TEMPLATE_PARTS] in Hin.
  destruct Hin as [<-|[<-|[<-|[<-|[<-|[]]]]]]; reflexivity.
Qed.

Lemma plain_char_lower c :
  plain_char c = true -> plain_char (PyStr.lower_char c) = true.
Proof.
  destruct c as [[|] [|] [|] [|] [|] [|] [|] [|]];
    intros H; first [reflexivity | discriminate H].
Qed.

Lemma escape_plain_char c :
  plain_char c = true -> Json.escape_char c = String c "".
Proof.
  destruct c as [[|] [|] [|] [|] [|] [|] [|] [|]];
    intros H; first [reflexivity | discriminate H].
Qed.

Lemma plain_app a b : plain (a +:+ b) = plain a && plain b.
Proof. apply StrFacts.all_chars_app. Qed.

Lemma plain_lower s : plain s = true -> plain (PyStr.lower s) = true.
Proof.
  unfold plain. induction s as [|c s IH]; [reflexivity|].
  change (PyStr.lower (String c s))
    with (String (PyStr.lower_char c) (PyStr.lower s)).
  cbn [PyStr.all_chars]. intros [Hc Hs]%andb_prop.
  rewrite (plain_char_lower c Hc), (IH Hs). reflexivity.
Qed.

Lemma escape_plain s : plain s = true -> Json.escape s = s.
Proof.
  unfold plain. induction s as [|c s IH]; [reflexivity|].
  cbn [Json.escape PyStr.all_chars]. intros [Hc Hs]%andb_prop.
  rewrite (escape_plain_char c Hc), (IH Hs). reflexivity.
Qed.

Lemma plain_brace_free s : plain s = true -> PyFormat.brace_free s = true.
Proof.
  apply all_chars_impl. intros c Hc. unfold plain_char in Hc.
  apply andb_prop in Hc as [_ Hc]. exact Hc.
Qed.

Lemma TEMPLATE_PARTS_plain :
  Forall (fun parts => plain (fst parts) = true /\ plain (snd parts) = true)
         TEMPLATE_PARTS.
Proof. repeat constructor. Qed.

Lemma AGENTS_intents_plain :
  Forall (fun p => plain (snd p) = true) (catalog_pairs AGENTS).
Proof. repeat constructor. Qed.

Lemma fill_plain parts s :
  In parts TEMPLATE_PARTS -> plain s = true -> plain (fill parts s) = true.
Proof.
  intros Hin Hs. pose proof TEMPLATE_PARTS_plain as H. rewrite Forall_forall in H.
  destruct (H parts (proj2 (list_elem_of_In _ _) Hin)) as [Hpre Hpost].
  unfold fill. rewrite !plain_app, Hpre, Hs, Hpost. reflexivity.
Qed.

(** ** The texts of the records *)

Lemma encode_string_plain s : plain s = true -> Json.encode_string s = quoted s.
Proof.
  intros H. unfold Json.encode_string, quoted. rewrite (escape_plain s H).
  reflexivity.
Qed.

Lemma AGENTS_keys_plain :
  Forall (fun p => plain (fst p) = true) (catalog_pairs AGENTS).
Proof. repeat constructor. Qed.

(** The routing decision of a plain agent and a plain intent, as text. *)
Lemma route_json_text agent intent :
  plain agent = true -> plain intent = true ->
  Json.dumps (route_dict agent intent)
  = "{" +:+ quoted "target" +:+ ": " +:+ quoted agent +:+ ", "
    +:+ quoted "confidence" +:+ ": 1.0, "
    +:+ quoted "reason" +:+ ": " +:+ quoted ("Matched intent: " +:+ intent)
    +:+ "}".
Proof.
  intros Ha Hi. unfold Json.dumps, route_dict.
  cbn [map Json.join]. unfold Json.encode_item, Json.encode_value. cbn [fst snd].
  rewrite (encode_string_plain agent Ha).
  rewrite (encode_string_plain ("Matched intent: " +:+ intent)).
  2: { rewrite plain_app, Hi. reflexivity. }
  rewrite !StrFacts.app_assoc. reflexivity.
Qed.

(** Lower-casing a filled template whose intent is in lower case gives
    the lower-case text of the template around the intent. *)
Lemma lower_fill j parts lparts intent :
  TEMPLATE_PARTS !! j = Some parts ->
  TEMPLATE_PARTS_LOWER !! j = Some lparts ->
  PyStr.is_lowercase intent = true ->
  PyStr.lower (fill parts intent) = fill lparts intent.
Proof.
  intros Hp Hl Hi. unfold fill.
  rewrite !StrFacts.lower_app, (StrFacts.lower_id _ Hi).
  do 5 (destruct j as [|j];
        [cbn in Hp, Hl; injection Hp as <-; injection Hl as <-; reflexivity|]).
  destruct j; discriminate Hp.
Qed.

Lemma TEMPLATE_PARTS_LOWER_no_capital :
  Forall (fun lparts =>
            PyStr.all_chars (fun c => negb (PyStr.in_range 65 90 c)) (fst lparts)
            = true
            /\ PyStr.all_chars (fun c => negb (PyStr.in_range 65 90 c))
                               (snd lparts)
               = true)
         TEMPLATE_PARTS_LOWER.
Proof. repeat constructor. Qed.

Lemma TEMPLATE_PARTS_LOWER_lookup j parts :
  TEMPLATE_PARTS !! j = Some parts ->
  exists lparts, TEMPLATE_PARTS_LOWER !! j = Some lparts.
Proof.
  intros Hp.
  do 5 (destruct j as [|j]; [eexists; reflexivity|]).
  destruct j; discriminate Hp.
Qed.



(** * Runs of [main] *)

Section Runs.
Context {RS : RandomSource}.

Lemma same_but_rng_eq s0 st :
  same_but_rng s0 st -> st = with_rng (st_rng st) s0.
Proof.
  destruct s0, st. unfold same_but_rng, with_rng.
  cbn [st_io_budget st_files st_rng st_AGENTS st_TEMPLATES st_console].
  intros (-> & -> & -> & -> & ->). reflexivity.
Qed.

(** [main_build] returns: the loops accumulate one block per pair, the
    shuffle permutes them, and only the random source has moved. *)
Lemma main_build_run st n :
  st_TEMPLATES st = TEMPLATES ->
  exists acc g1 ds g2,
    main_accumulate n st = (Ok acc, with_rng g1 st)
    /\ random_shuffle acc (with_rng g1 st) = (Ok ds, with_rng g2 st)
    /\ main_build n st = (Ok ds, with_rng g2 st)
    /\ blocks_for n (catalog_pairs (st_AGENTS st)) acc
    /\ ds ≡ₚ acc.
Proof.
  intros HT.
  pose proof (triple_main_accumulate st n HT st (same_but_rng_refl st)) as Hacc.
  destruct (main_accumulate n st) as [[acc|e] st1] eqn:Eacc; [|destruct Hacc].
  destruct Hacc as [Hs1 Hblocks].
  pose proof (triple_random_shuffle st acc st1 Hs1) as Hsh.
  destruct (random_shuffle acc st1) as [[ds|e] st2] eqn:Esh; [|destruct Hsh].
  destruct Hsh as [Hs2 Hperm].
  exists acc, (st_rng st1), ds, (st_rng st2).
  rewrite <- (same_but_rng_eq st st1 Hs1), <- (same_but_rng_eq st st2 Hs2).
  split; [reflexivity|]. split; [exact Esh|]. split.
  - unfold main_build, mbind, M_bind. rewrite Eacc. exact Esh.
  - split; assumption.
Qed.

Lemma main_build_length st n ds st' :
  st_TEMPLATES st = TEMPLATES ->
  main_build n st = (Ok ds, st') ->
  length ds = length (catalog_pairs (st_AGENTS st)) * n.
Proof.
  intros HT Hrun.
  destruct (main_build_run st n HT) as (acc & g1 & ds' & g2 & _ & _ & Hb & Hblocks & Hperm).
  rewrite Hb in Hrun. injection Hrun as <- _.
  rewrite (Permutation_length Hperm). exact (blocks_for_length _ _ _ Hblocks).
Qed.

Lemma main_build_In st n ds st' r :
  st_TEMPLATES st = TEMPLATES ->
  main_build n st = (Ok ds, st') ->
  In r ds ->
  exists agent intent,
    In (agent, intent) (catalog_pairs (st_AGENTS st))
    /\ sample_of agent intent r.
Proof.
  intros HT Hrun Hin.
  destruct (main_build_run st n HT) as (acc & g1 & ds' & g2 & _ & _ & Hb & Hblocks & Hperm).
  rewrite Hb in Hrun. injection Hrun as <- _.
  assert (Hin' : In r acc).
  { apply list_elem_of_In. rewrite <- Hperm. apply list_elem_of_In. exact Hin. }
  destruct (blocks_for_In _ _ _ _ Hblocks Hin') as ([a i] & Hp & Hs).
  exists a, i. split; assumption.
Qed.

(** [main] after a banner that the console accepted is the build and the
    persisting of what was built. *)
Lemma main_run st st1 :
  st_TEMPLATES st = TEMPLATES ->
  print BANNER st = (Ok tt, st1) ->
  exists ds g,
    main_build SAMPLES_PER_INTENT st1 = (Ok ds, with_rng g st1)
    /\ length ds = length (catalog_pairs (st_AGENTS st)) * SAMPLES_PER_INTENT
    /\ main st = main_persist ds (with_rng g st1).
Proof.
  intros HT Hp.
  assert (Hst1 : st_TEMPLATES st1 = TEMPLATES /\ st_AGENTS st1 = st_AGENTS st).
  { destruct (print_cases BANNER st)
      as [(st' & H & _ & HA' & HT' & _) | (e & H & _)];
      rewrite H in Hp; [|discriminate Hp].
    injection Hp as <-. split; congruence. }
  destruct Hst1 as [HT1 HA1].
  destruct (main_build_run st1 SAMPLES_PER_INTENT HT1)
    as (acc & g1 & ds & g2 & _ & _ & Hb & _ & _).
  exists ds, g2. split; [exact Hb|]. split.
  - rewrite <- HA1. exact (main_build_length st1 _ _ _ HT1 Hb).
  - unfold main. unfold mbind at 1 2, M_bind.
    change (print "🧠 Generating Synthetic Training Data for EdgeNeuro..." st)
      with (print BANNER st).
    rewrite Hp, Hb. reflexivity.
Qed.

(** A banner that the console refuses ends [main] at once. *)
Lemma main_banner_refused st e :
  fst (print BANNER st) = Raise e -> main st = (Raise e, st).
Proof.
  intros Hp. unfold main. unfold mbind at 1 2, M_bind.
  change (print "🧠 Generating Synthetic Training Data for EdgeNeuro..." st)
    with (print BANNER st).
  destruct (print_cases BANNER st) as [(st' & H & _) | (e' & H & _)];
    rewrite H in Hp |- *; cbn [fst] in Hp;
    [discriminate Hp | injection Hp as <-; reflexivity].
Qed.

(** Whatever the console does with the two messages, the file holds the
    lines of the dataset once the file operations have been granted. *)
Lemma main_persist_file ds st :
  budget_allows (st_io_budget st) (length ds + 2) = true ->
  st_files (snd (main_persist ds st)) !! filename = Some (jsonl ds).
Proof.
  intros Hb. destruct st as [g a t files out budget]. cbn [st_io_budget] in Hb.
  rewrite (main_persist_written ds g a t files out budget Hb).
  match goal with
  | |- context [(print ?a;; print ?b) ?s] =>
      destruct (messages_cases a b s) as (Hf & _)
  end.
  rewrite Hf. cbn [st_files]. apply lookup_insert_eq.
Qed.

(** [main_persist] returns only after the file operations were granted
    and the two messages printed. *)
Lemma main_persist_report ds st :
  fst (main_persist ds st) = Ok tt ->
  budget_allows (st_io_budget st) (length ds + 2) = true
  /\ st_stdout (snd (main_persist ds st))
     = st_stdout st ++ [summary (length ds); NEXT_STEP].
Proof.
  intros Hok.
  destruct (budget_allows (st_io_budget st) (length ds + 2)) eqn:Hb.
  2: { destruct (main_persist_fail ds st Hb) as (st' & Hrun & _).
       rewrite Hrun in Hok. discriminate Hok. }
  split; [reflexivity|].
  destruct st as [g a t files out budget]. cbn [st_io_budget] in Hb.
  rewrite (main_persist_written ds g a t files out budget Hb) in Hok |- *.
  match goal with
  | |- context [(print ?a;; print ?b) ?s] =>
      destruct (messages_cases a b s) as (_ & _ & [[_ Ho] | (e & H & _)])
  end.
  - exact Ho.
  - rewrite H in Hok. discriminate Hok.
Qed.

(** A run of [main] that returns has printed the banner, built a dataset
    and left its lines in the file. *)
Lemma main_ok_file st :
  fst (main st) = Ok tt ->
  exists st1 ds st2,
    print BANNER st = (Ok tt, st1)
    /\ main_build SAMPLES_PER_INTENT st1 = (Ok ds, st2)
    /\ main st = main_persist ds st2
    /\ st_files (snd (main st)) !! filename = Some (jsonl ds).
Proof.
  intros Hok.
  destruct (print_cases BANNER st) as [(st1 & Hp & _) | (e & Hp & _)].
  2: { rewrite (main_banner_refused st _ (f_equal fst Hp)) in Hok.
       discriminate Hok. }
  destruct (main_build SAMPLES_PER_INTENT st1) as [[ds|e] st2] eqn:Hb.
  2: { unfold main in Hok. unfold mbind at 1 2, M_bind in Hok.
       change (print "🧠 Generating Synthetic Training Data for EdgeNeuro..." st)
         with (print BANNER st) in Hok.
       rewrite Hp, Hb in Hok. discriminate Hok. }
  assert (Hrun : main st = main_persist ds st2).
  { unfold main. unfold mbind at 1 2, M_bind.
    change (print "🧠 Generating Synthetic Training Data for EdgeNeuro..." st)
      with (print BANNER st).
    rewrite Hp, Hb. reflexivity. }
  exists st1, ds, st2. split; [exact Hp|]. split; [exact Hb|].
  split; [exact Hrun|]. rewrite Hrun in Hok |- *.
  apply main_persist_file. exact (proj1 (main_persist_report ds st2 Hok)).
Qed.

End Runs.

(** * The properties of the generator *)

Section Claims.
Context {RS : RandomSource}.

(** C1: for every record of the dataset built by the full generation
    pass, [output] is the serialised routing decision of an agent that is
    a key of the catalog and of an intent phrase (the text after
    "Matched intent: " in [reason]) that belongs to that agent's list;
    the agent and the intent are the only ones [output] stands for. *)
Theorem C1_target_and_intent_in_catalog st :
  loaded st ->
  exists ds st',
    main_build SAMPLES_PER_INTENT st = (Ok ds, st')
    /\ forall r, In r ds ->
         exists agent intents intent,
           In (agent, intents) AGENTS
           /\ In intent intents
           /\ output r = Json.dumps (route_dict agent intent)
           /\ forall agent' intent',
                output r = Json.dumps (route_dict agent' intent') ->
                agent' = agent /\ intent' = intent.
Proof.
  intros [HA HT].
  destruct (main_build_run st SAMPLES_PER_INTENT HT)
    as (acc & g1 & ds & g2 & _ & _ & Hb & _ & _).
  exists ds, (with_rng g2 st). split; [exact Hb|]. intros r Hin.
  destruct (main_build_In st _ ds _ r HT Hb Hin) as (a & i & Hp & Hs).
  rewrite HA in Hp. apply in_catalog_pairs in Hp as (intents & Ha & Hi).
  destruct (sample_of_inv _ _ _ Hs) as (_ & Hout & _).
  exists a, intents, i. split; [exact Ha|]. split; [exact Hi|].
  split; [exact Hout|]. intros a' i' H'. rewrite Hout in H'.
  apply JsonFacts.route_json_inj in H' as [-> ->]. split; reflexivity.
Qed.

(** C2: the dataset has as many records as the sum, over the agents of
    the catalog, of the number of the agent's intents times the number of
    samples per intent; for the catalog of the script and 50 samples per
    intent that is 800. *)
Theorem C2_dataset_length st n :
  st_TEMPLATES st = TEMPLATES ->
  exists ds st',
    main_build n st = (Ok ds, st')
    /\ length ds
       = sum_list (map (fun item => length (snd item) * n) (st_AGENTS st))
    /\ (st_AGENTS st = AGENTS -> n = 50 -> length ds = 800).
Proof.
  intros HT.
  destruct (main_build_run st n HT) as (acc & g1 & ds & g2 & _ & _ & Hb & _ & _).
  exists ds, (with_rng g2 st). split; [exact Hb|].
  pose proof (main_build_length st n ds _ HT Hb) as Hlen. split.
  - rewrite Hlen. apply catalog_pairs_length.
  - intros HA ->. rewrite Hlen, HA. reflexivity.
Qed.

(** C3: for an agent of the catalog and one of its intent phrases,
    [generate_sample] returns a record whose [input] is not empty and is
    the template drawn by the random source, a text with the single
    placeholder [{intent}], with the intent phrase in the placeholder's
    place: as the template has it when the draw of [random()] is not
    below 0.1, and in lower case when it is, which is the lower-case
    text of that template around the intent (the intents of the catalog
    being in lower case), without any capital letter.  Its [output] is
    the serialisation of the target, the confidence 1.0 and the reason,
    the text
    [{"target": "<agent>", "confidence": 1.0, "reason": "Matched intent: <intent>"}]. *)
Theorem C3_generate_sample_record st agent intents intent :
  loaded st ->
  In (agent, intents) AGENTS ->
  In intent intents ->
  let j := fst (randbelow (length TEMPLATES) (st_rng st)) in
  let k := fst (random (snd (randbelow (length TEMPLATES) (st_rng st)))) in
  exists r st' pre post lpre lpost,
    generate_sample agent intent st = (Ok r, st')
    /\ TEMPLATES !! j = Some (pre +:+ "{intent}" +:+ post)
    /\ TEMPLATE_PARTS !! j = Some (pre, post)
    /\ TEMPLATE_PARTS_LOWER !! j = Some (lpre, lpost)
    /\ PyFormat.brace_free pre = true
    /\ PyFormat.brace_free post = true
    /\ input r = (if lt_0_1 k then PyStr.lower (pre +:+ intent +:+ post)
                  else pre +:+ intent +:+ post)
    /\ (lt_0_1 k = false -> input r = pre +:+ intent +:+ post)
    /\ (lt_0_1 k = true ->
        input r = lpre +:+ intent +:+ lpost
        /\ PyStr.all_chars (fun c => negb (PyStr.in_range 65 90 c)) (input r)
           = true)
    /\ input r <> ""
    /\ instruction r = INSTRUCTION
    /\ output r
       = Json.dumps [ ("target", Json.JString agent);
                      ("confidence", Json.JFloat 1);
                      ("reason", Json.JString ("Matched intent: " +:+ intent)) ]
    /\ output r
       = "{" +:+ quoted "target" +:+ ": " +:+ quoted agent +:+ ", "
         +:+ quoted "confidence" +:+ ": 1.0, "
         +:+ quoted "reason" +:+ ": " +:+ quoted ("Matched intent: " +:+ intent)
         +:+ "}".
Proof.
  intros [_ HT] Hagent Hintent j k.
  assert (Hpair : In (agent, intent) (catalog_pairs AGENTS)).
  { apply in_catalog_pairs. exists intents. split; assumption. }
  apply (proj2 (list_elem_of_In _ _)) in Hpair.
  pose proof (proj1 (Forall_forall _ _) AGENTS_intents_lowercase _ Hpair) as Hlow.
  pose proof (proj1 (Forall_forall _ _) AGENTS_intents_plain _ Hpair) as Hplain.
  pose proof (proj1 (Forall_forall _ _) AGENTS_keys_plain _ Hpair) as Hkey.
  cbn [fst snd] in Hlow, Hplain, Hkey.
  destruct (generate_sample_run agent intent st HT) as (parts & Hparts & Hrun).
  assert (Hin : In parts TEMPLATE_PARTS).
  { apply list_elem_of_In. eapply list_elem_of_lookup_2. exact Hparts. }
  pose proof TEMPLATE_PARTS_brace_free as Hbf. rewrite Forall_forall in Hbf.
  destruct (Hbf parts (proj2 (list_elem_of_In _ _) Hin)) as [Hpre Hpost].
  destruct (TEMPLATE_PARTS_LOWER_lookup _ _ Hparts) as ([lpre lpost] & Hlparts).
  pose proof (lower_fill _ _ _ intent Hparts Hlparts Hlow) as Hlower.
  eexists _, _, (fst parts), (snd parts), lpre, lpost.
  split; [exact Hrun|]. cbn [input output instruction].
  subst j k. change (length TEMPLATES) with 5.
  fold (fill parts intent). split.
  { rewrite TEMPLATES_lookup, Hparts. reflexivity. }
  split; [rewrite Hparts; destruct parts; reflexivity|].
  split; [exact Hlparts|].
  split; [exact Hpre|]. split; [exact Hpost|]. split; [reflexivity|].
  split; [intros ->; reflexivity|]. split.
  { intros ->. rewrite Hlower. split; [reflexivity|].
    unfold fill. cbn [fst snd]. rewrite !StrFacts.all_chars_app.
    assert (Hi : PyStr.all_chars (fun c => negb (PyStr.in_range 65 90 c)) intent
                 = true).
    { revert Hlow. apply all_chars_impl. intros c.
      destruct c as [[|] [|] [|] [|] [|] [|] [|] [|]];
        intros H; first [reflexivity | discriminate H]. }
    rewrite Hi.
    pose proof (proj1 (Forall_forall _ _) TEMPLATE_PARTS_LOWER_no_capital _
                  (list_elem_of_lookup_2 _ _ _ Hlparts)) as [H1 H2].
    cbn [fst snd] in H1, H2. rewrite H1, H2. reflexivity. }
  split.
  { destruct (lt_0_1 _).
    - apply lower_nonempty, fill_nonempty, Hin.
    - apply fill_nonempty, Hin. }
  split; [reflexivity|]. split; [reflexivity|].
  exact (route_json_text agent intent Hkey Hplain).
Qed.

(** C4: the shuffled dataset is a permutation of the sequence the loops
    accumulate, which is one block of [n] samples of [generate_sample]
    for each (agent, intent) pair in catalog order; so every record is a
    sample of a pair of the catalog, and for the catalog of the script
    exactly [n] records route to each of its pairs and none to any other
    pair. *)
Theorem C4_shuffle_permutes_blocks st n :
  st_TEMPLATES st = TEMPLATES ->
  exists acc st1 ds st2,
    main_accumulate n st = (Ok acc, st1)
    /\ random_shuffle acc st1 = (Ok ds, st2)
    /\ main_build n st = (Ok ds, st2)
    /\ ds ≡ₚ acc
    /\ blocks_for n (catalog_pairs (st_AGENTS st)) acc
    /\ (forall r, In r ds ->
          exists agent intent,
            In (agent, intent) (catalog_pairs (st_AGENTS st))
            /\ sample_of agent intent r)
    /\ (forall agent intent,
          count_routed agent intent ds
          = occurrences (agent, intent) (catalog_pairs (st_AGENTS st)) * n)
    /\ (st_AGENTS st = AGENTS ->
        forall agent intent,
          (In (agent, intent) (catalog_pairs AGENTS) ->
           count_routed agent intent ds = n)
          /\ (~ In (agent, intent) (catalog_pairs AGENTS) ->
              count_routed agent intent ds = 0)).
Proof.
  intros HT.
  destruct (main_build_run st n HT)
    as (acc & g1 & ds & g2 & Hacc & Hsh & Hb & Hblocks & Hperm).
  exists acc, (with_rng g1 st), ds, (with_rng g2 st).
  split; [exact Hacc|]. split; [exact Hsh|]. split; [exact Hb|].
  split; [exact Hperm|]. split; [exact Hblocks|].
  assert (Hcount : forall agent intent,
             count_routed agent intent ds
             = occurrences (agent, intent) (catalog_pairs (st_AGENTS st)) * n).
  { intros a i. rewrite (count_routed_Permutation a i _ _ Hperm).
    apply count_routed_blocks. exact Hblocks. }
  split; [|split; [exact Hcount|]].
  - intros r Hin. exact (main_build_In st n ds _ r HT Hb Hin).
  - intros HA a i. rewrite Hcount, HA. split; intros Hin.
    + rewrite (occurrences_NoDup _ _ AGENTS_pairs_NoDup Hin). lia.
    + rewrite (occurrences_not_In _ _ Hin). reflexivity.
Qed.

(** C6, as amended: [generate_sample] raises nothing for a pair of the
    catalog, and [main] raises nothing but what file and standard output
    raise, [OSError], [UnicodeEncodeError] and the [ValueError] of a
    closed stream: no lookup fails.  A standard output whose encoding
    lacks the symbols of the messages makes [main] raise
    [UnicodeEncodeError] at the banner, with the state as it was.  When
    standard output accepts the three messages, [main] either returns or
    raises [OSError], and it raises exactly when the file system refuses
    one of the 802 operations on the output file (opening it, writing its
    800 lines, closing it). *)
Theorem C6_failures_of_main st :
  loaded st ->
  (forall agent intents intent,
      In (agent, intents) AGENTS -> In intent intents ->
      exists r st', generate_sample agent intent st = (Ok r, st'))
  /\ (forall e, fst (main st) = Raise e ->
                e = OSError \/ e = UnicodeEncodeError \/ e = ValueError)
  /\ (fst (main st) = Raise ValueError -> con_closed (st_console st) = true)
  /\ (con_closed (st_console st) = false ->
      con_unicode (st_console st) = false ->
      main st = (Raise UnicodeEncodeError, st))
  /\ (console_accepts (st_console st) 3 = true ->
      (fst (main st) = Ok tt \/ fst (main st) = Raise OSError)
      /\ (fst (main st) = Raise OSError
          <-> budget_allows (st_io_budget st) 802 = false)).
Proof.
  intros [HA HT]. split.
  { intros agent intents intent _ _.
    destruct (generate_sample_run agent intent st HT) as (parts & _ & Hrun).
    eexists _, _. exact Hrun. }
  split.
  { intros e He.
    destruct (print_cases BANNER st) as [(st1 & Hp & _) | (e' & Hp & He')].
    - destruct (main_run st st1 HT Hp) as (ds & g & _ & _ & Hmain).
      rewrite Hmain in He.
      pose proof (triple_main_persist _ _ ds (with_rng g st1)
                    (conj eq_refl eq_refl)) as Ht.
      destruct (main_persist ds (with_rng g st1)) as [[[]|e0] s'];
        cbn [fst] in He; [discriminate He|]. injection He as <-. exact Ht.
    - rewrite (main_banner_refused st _ (f_equal fst Hp)) in He.
      injection He as <-. exact He'. }
  split.
  { intros He. destruct (con_closed (st_console st)) eqn:Hcl; [reflexivity|].
    exfalso.
    destruct (print_cases BANNER st) as [(st1 & Hp & Hst1) | (e' & Hp & _)].
    - destruct (main_run st st1 HT Hp) as (ds & g & _ & _ & Hmain).
      rewrite Hmain in He.
      assert (Hcl1 : con_closed (st_console (with_rng g st1)) = false).
      { unfold print in Hp. rewrite Hcl in Hp.
        destruct (negb _ && _); [discriminate Hp|].
        destruct (con_budget (st_console st)) as [[|k]|];
          [discriminate Hp | injection Hp as <-; reflexivity..]. }
      revert He Hcl1. generalize (with_rng g st1). intros s2 He Hcl1.
      destruct (budget_allows (st_io_budget s2) (length ds + 2)) eqn:Hb.
      + destruct s2 as [g2 a2 t2 f2 o2 b2].
        cbn [st_io_budget st_console] in Hb, Hcl1.
        rewrite (main_persist_written ds g2 a2 t2 f2 o2 b2 Hb) in He.
        unfold mbind, M_bind, print in He.
        cbn [st_console st_rng st_AGENTS st_TEMPLATES st_files st_io_budget] in He.
        rewrite Hcl1 in He.
        destruct (negb _ && _); [discriminate He|].
        destruct (con_budget o2) as [[|k]|]; [discriminate He|..];
          cbn [st_console con_closed con_unicode con_budget] in He;
          (destruct (negb _ && _); [discriminate He|]);
          try (destruct k); discriminate He.
      + destruct (main_persist_fail ds s2 Hb) as (st' & Hrun & _).
        rewrite Hrun in He. discriminate He.
    - rewrite (main_banner_refused st _ (f_equal fst Hp)) in He.
      cbn [fst] in He. injection He as ->.
      unfold print in Hp. rewrite Hcl in Hp.
      destruct (negb _ && _); [discriminate Hp|].
      destruct (con_budget (st_console st)) as [[|k]|]; discriminate Hp. }
  split.
  { intros Hcl Hu. apply main_banner_refused. unfold print. rewrite Hcl, Hu.
    reflexivity. }
  intros Hc. destruct st as [g0 a t files out budget].
  cbn [st_console st_io_budget st_AGENTS st_TEMPLATES] in *.
  destruct (console_accepts_after out BANNER 2 Hc) as [H1 H2].
  pose proof (print_accepted BANNER g0 a t files out budget H1) as Hp.
  destruct (main_run (mkState g0 a t files out budget) _ HT Hp)
    as (ds & g & _ & Hlen & Hmain).
  cbn [st_AGENTS] in Hlen. rewrite HA in Hlen.
  change (length (catalog_pairs AGENTS) * SAMPLES_PER_INTENT) with 800 in Hlen.
  rewrite Hmain. unfold with_rng.
  cbn [st_io_budget st_files st_rng st_AGENTS st_TEMPLATES st_console].
  destruct (budget_allows budget 802) eqn:Hallow.
  - rewrite main_persist_ok; [| rewrite Hlen; exact Hallow | exact H2].
    cbn [fst]. split; [left; reflexivity|]. split; discriminate.
  - destruct (main_persist_fail ds
                (mkState g a t files (console_after out [BANNER]) budget))
      as (st' & Hrun & _).
    { cbn [st_io_budget]. rewrite Hlen. exact Hallow. }
    rewrite Hrun. split; [right; reflexivity|]. split; reflexivity.
Qed.

(** C7: for the agent "agent_it" and the intent "vpn access", when the
    template drawn is "Who handles {intent}?" and the draw of [random()]
    is not below 0.1, the record has the input "Who handles vpn access?"
    and the output that serialises target "agent_it", confidence 1.0 and
    reason "Matched intent: vpn access". *)
Theorem C7_vpn_access_example st :
  st_TEMPLATES st = TEMPLATES ->
  TEMPLATES !! fst (randbelow (length TEMPLATES) (st_rng st))
  = Some "Who handles {intent}?" ->
  lt_0_1 (fst (random (snd (randbelow (length TEMPLATES) (st_rng st)))))
  = false ->
  exists r st',
    generate_sample "agent_it" "vpn access" st = (Ok r, st')
    /\ input r = "Who handles vpn access?"
    /\ output r
       = Json.dumps [ ("target", Json.JString "agent_it");
                      ("confidence", Json.JFloat 1);
                      ("reason", Json.JString "Matched intent: vpn access") ]
    /\ output r
       = "{" +:+ quoted "target" +:+ ": " +:+ quoted "agent_it" +:+ ", "
         +:+ quoted "confidence" +:+ ": 1.0, "
         +:+ quoted "reason" +:+ ": " +:+ quoted "Matched intent: vpn access"
         +:+ "}".
Proof.
  intros HT Hsel Hflip. change (length TEMPLATES) with 5 in Hsel, Hflip.
  destruct (generate_sample_run "agent_it" "vpn access" st HT)
    as (parts & Hparts & Hrun).
  rewrite Hflip in Hrun.
  rewrite TEMPLATES_lookup, Hparts in Hsel. cbn [fmap option_fmap option_map] in Hsel.
  assert (Hin : In parts TEMPLATE_PARTS).
  { apply list_elem_of_In. eapply list_elem_of_lookup_2. exact Hparts. }
  assert (Hp : parts = ("Who handles ", "?")).
  { cbn [In TEMPLATE_PARTS] in Hin.
    destruct Hin as [<-|[<-|[<-|[<-|[<-|[]]]]]];
      first [reflexivity | discriminate Hsel | (injection Hsel; discriminate)]. }
  subst parts. eexists _, _. split; [exact Hrun|].
  cbn [input output]. split; [reflexivity|]. split; reflexivity.
Qed.


(** C9: neither [generate_sample], whatever its arguments and whether it
    returns or raises, nor the whole of [main] changes the agent catalog
    or the template list. *)
Theorem C9_catalog_and_templates_unchanged st agent intent :
  st_AGENTS (snd (generate_sample agent intent st)) = st_AGENTS st
  /\ st_TEMPLATES (snd (generate_sample agent intent st)) = st_TEMPLATES st
  /\ st_AGENTS (snd (main st)) = st_AGENTS st
  /\ st_TEMPLATES (snd (main st)) = st_TEMPLATES st.
Proof.
  pose proof (preserves_generate_sample agent intent (st_AGENTS st)
                (st_TEMPLATES st) st (conj eq_refl eq_refl)) as Hg.
  pose proof (preserves_main (st_AGENTS st) (st_TEMPLATES st) st
                (conj eq_refl eq_refl)) as Hm.
  destruct (generate_sample agent intent st) as [[r|e] st1];
    destruct (main st) as [[[]|e'] st2]; cbn [snd];
    destruct Hg as [Hg1 Hg2], Hm as [Hm1 Hm2]; repeat split; assumption.
Qed.

(** C10: in every record of the generated dataset, the intent phrase that
    [output] names occurs in [input] as a contiguous substring, with or
    without the lower-casing, the intent phrases of the catalog being in
    lower case already. *)
Theorem C10_intent_occurs_in_input st :
  loaded st ->
  exists ds st',
    main_build SAMPLES_PER_INTENT st = (Ok ds, st')
    /\ forall r agent intent,
         In r ds ->
         output r = Json.dumps (route_dict agent intent) ->
         PyStr.occurs_in intent (input r).
Proof.
  intros [HA HT].
  destruct (main_build_run st SAMPLES_PER_INTENT HT)
    as (acc & g1 & ds & g2 & _ & _ & Hb & _ & _).
  exists ds, (with_rng g2 st). split; [exact Hb|].
  intros r agent intent Hin Hout.
  destruct (main_build_In st _ ds _ r HT Hb Hin) as (a & i & Hp & Hs).
  rewrite HA in Hp.
  destruct (sample_of_inv _ _ _ Hs) as (_ & Hout' & parts & _ & Hinput).
  rewrite Hout' in Hout. apply JsonFacts.route_json_inj in Hout as [-> ->].
  pose proof AGENTS_intents_lowercase as Hlow. rewrite Forall_forall in Hlow.
  specialize (Hlow _ (proj2 (list_elem_of_In _ _) Hp)). cbn [snd] in Hlow.
  destruct Hinput as [-> | ->].
  - exists (fst parts), (snd parts). reflexivity.
  - apply StrFacts.occurs_in_lower. exact Hlow.
Qed.

End Claims.

(** C5: two runs whose random sources make the same sequence of draws,
    with the same catalog, the same templates and the same number of
    samples per intent, build the same dataset, whatever the files, the
    console and the budgets of the two runs are; and when both runs of
    [main] return, the file each leaves holds the lines of that one
    dataset. *)
Theorem C5_same_draws_same_dataset (RS1 RS2 : RandomSource)
        (R : @rng RS1 -> @rng RS2 -> Prop)
        (st1 : @state RS1) (st2 : @state RS2) (n : nat) :
  same_draws RS1 RS2 R ->
  R (st_rng st1) (st_rng st2) ->
  st_AGENTS st1 = st_AGENTS st2 ->
  st_TEMPLATES st1 = st_TEMPLATES st2 ->
  fst (main_build n st1) = fst (main_build n st2)
  /\ (st_TEMPLATES st1 = TEMPLATES ->
      exists ds, fst (main_build n st1) = Ok ds
                 /\ fst (main_build n st2) = Ok ds)
  /\ (fst (main st1) = Ok tt -> fst (main st2) = Ok tt ->
      exists ds,
        st_files (snd (main st1)) !! filename = Some (jsonl ds)
        /\ st_files (snd (main st2)) !! filename = Some (jsonl ds)).
Proof.
  intros HR Hg HA HT.
  assert (Hrel : build_rel RS1 RS2 R st1 st2) by (repeat split; assumption).
  destruct (agree_main_build RS1 RS2 R HR n st1 st2 Hrel) as [Hres _].
  split; [exact Hres|]. split.
  - intros HT1.
    destruct (main_build_run st1 n HT1) as (acc & g1 & ds & g2 & _ & _ & Hb & _).
    exists ds. rewrite <- Hres, Hb. split; reflexivity.
  - intros Hok1 Hok2.
    destruct (main_ok_file st1 Hok1) as (s1 & ds1 & s1' & Hp1 & Hb1 & _ & Hf1).
    destruct (main_ok_file st2 Hok2) as (s2 & ds2 & s2' & Hp2 & Hb2 & _ & Hf2).
    assert (Hrel' : build_rel RS1 RS2 R s1 s2).
    { destruct (print_cases BANNER st1)
        as [(s & H & Hg1 & HA1 & HT1 & _) | (e & H & _)];
        rewrite H in Hp1; [|discriminate Hp1]. injection Hp1 as <-.
      destruct (print_cases BANNER st2)
        as [(s' & H' & Hg2 & HA2 & HT2 & _) | (e & H' & _)];
        rewrite H' in Hp2; [|discriminate Hp2]. injection Hp2 as <-.
      unfold build_rel. rewrite Hg1, Hg2, HA1, HA2, HT1, HT2.
      repeat split; assumption. }
    destruct (agree_main_build RS1 RS2 R HR SAMPLES_PER_INTENT s1 s2 Hrel')
      as [Hsame _].
    rewrite Hb1, Hb2 in Hsame. cbn [fst] in Hsame. injection Hsame as <-.
    exists ds1. split; assumption.
Qed.

(** * A lawful random source: the linear congruential generator *)

Lemma lcg_randbelow_lt n g : 0 < n -> fst (Lcg.lcg_randbelow n g) < n.
Proof.
  intros Hn. unfold Lcg.lcg_randbelow. cbn [fst].
  assert (H : ((Lcg.next g / 2 ^ 33) mod N.of_nat n < N.of_nat n)%N)
    by (apply N.mod_lt; lia).
  lia.
Qed.

Lemma lcg_random_lt g : (fst (Lcg.lcg_random g) < 2 ^ 53)%N.
Proof.
  unfold Lcg.lcg_random. cbn [fst].
  assert (H : (Lcg.next g < 2 ^ 64)%N) by (apply N.mod_lt; discriminate).
  apply N.Div0.div_lt_upper_bound. change (2 ^ 11 * 2 ^ 53)%N with (2 ^ 64)%N.
  exact H.
Qed.

Definition Lcg_source : RandomSource := {|
  rng := N;
  randbelow := Lcg.lcg_randbelow;
  random := Lcg.lcg_random;
  randbelow_lt := lcg_randbelow_lt;
  random_lt := lcg_random_lt
|}.

Definition Lcg_counted : RandomSource := {|
  rng := N * nat;
  randbelow := Lcg.counted_randbelow;
  random := Lcg.counted_random;
  randbelow_lt := fun n g => lcg_randbelow_lt n (fst g);
  random_lt := fun g => lcg_random_lt (fst g)
|}.

(** * The properties on a concrete run

    The state after the module body, with the linear congruential generator
    seeded with 5 as random source, no file, a file system that refuses
    nothing and a console that accepts everything. *)

Definition st0 : @state Lcg_source :=
  @init_state Lcg_source 5%N ∅ None utf8_console.

(** The same with the seed 22, from which the first sample is the third
    template in lower case. *)
Definition st_flip : @state Lcg_source :=
  @init_state Lcg_source 22%N ∅ None utf8_console.

(** The same with a standard output in ASCII. *)
Definition st_ascii : @state Lcg_source :=
  @init_state Lcg_source 5%N ∅ None ascii_console.

(** The same with a file system that refuses the fourth operation. *)
Definition st_refused : @state Lcg_source :=
  @init_state Lcg_source 5%N ∅ (Some 3) utf8_console.

(** The same with a standard output that has been closed. *)
Definition st_closed : @state Lcg_source :=
  @init_state Lcg_source 5%N ∅ None closed_console.

(** The counting generator makes the draws of the plain one. *)
Definition counts_nothing (g1 : @rng Lcg_source) (g2 : @rng Lcg_counted) : Prop :=
  g1 = fst g2.

(** A second run: the counting generator with the same seed, the output
    file of an earlier run in place, a file system with a quota and a
    console that has lines already and takes seven more. *)
Definition st0_rerun : @state Lcg_counted :=
  @init_state Lcg_counted (5%N, 0) {[ filename := "stale" ]} (Some 1000)
              (mkConsole ["earlier"] false true (Some 7)).

(** Two records to persist. *)
Definition two_records : list entry :=
  [ mkEntry INSTRUCTION "Who handles vpn access?"
            (Json.dumps (route_dict "agent_it" "vpn access"));
    mkEntry INSTRUCTION "quick question about snowflake"
            (Json.dumps (route_dict "agent_data" "snowflake")) ].

Lemma st0_loaded : @loaded Lcg_source st0.
Proof. split; reflexivity. Qed.

Example format_who_handles :
  PyFormat.format "Who handles {intent}?" "vpn access"
  = Ok "Who handles vpn access?".
Proof. reflexivity. Qed.

Example format_escaped_braces :
  PyFormat.format "{{{intent}}}" "x" = Ok "{x}".
Proof. reflexivity. Qed.

Example format_unknown_field :
  PyFormat.format "Who handles {agent}?" "vpn access" = Raise KeyError.
Proof. reflexivity. Qed.

Example format_single_brace :
  PyFormat.format "Who handles }" "vpn access" = Raise ValueError.
Proof. reflexivity. Qed.

Example format_digits_overflow :
  PyFormat.format "{99999999999999999999}" "vpn access" = Raise ValueError.
Proof. reflexivity. Qed.

Example format_digits_overflow_first :
  PyFormat.format "{99999999999999999999x}" "vpn access" = Raise ValueError.
Proof. reflexivity. Qed.

Example format_index :
  PyFormat.format "{0} and {}" "vpn access" = Raise IndexError.
Proof. reflexivity. Qed.

Example format_brace_in_name :
  PyFormat.format "{in{tent}" "vpn access" = Raise ValueError.
Proof. reflexivity. Qed.

Example format_conversion_unsupported :
  PyFormat.supported "Who handles {intent!r}?" = false.
Proof. reflexivity. Qed.

Example lower_mixed_case :
  PyStr.lower "Who handles VPN access?" = "who handles vpn access?".
Proof. reflexivity. Qed.

Example dumps_escapes :
  Json.dumps [("k", Json.JString (String "010" (String PyStr.dquote "\")))]
  = "{" +:+ quoted "k" +:+ ": " +:+ quoted ("\n\" +:+ String PyStr.dquote "\\") +:+ "}".
Proof. reflexivity. Qed.

Example generate_sample_st0 :
  fst (generate_sample "agent_it" "vpn access" st0)
  = Ok {| instruction := INSTRUCTION;
          input := "Who handles vpn access?";
          output := Json.dumps (route_dict "agent_it" "vpn access") |}.
Proof. vm_compute. reflexivity. Qed.

Example main_build_st0_length :
  match fst (main_build SAMPLES_PER_INTENT st0) with
  | Ok ds => length ds
  | Raise _ => 0
  end = 800.
Proof. vm_compute. reflexivity. Qed.

Example generate_sample_st_flip :
  fst (generate_sample "agent_it" "vpn access" st_flip)
  = Ok {| instruction := INSTRUCTION;
          input := "who handles vpn access?";
          output := Json.dumps (route_dict "agent_it" "vpn access") |}.
Proof. vm_compute. reflexivity. Qed.

(** The reader takes what the JSON grammar allows beyond what the encoder
    writes: capital hexadecimal digits and the escaped solidus. *)
Example read_entry_line :
  read_entry
    ("{" +:+ quoted "instruction" +:+ ": " +:+ quoted "Route" +:+ ", "
     +:+ quoted "input" +:+ ": " +:+ quoted "caf\u00E9 \/ x" +:+ ", "
     +:+ quoted "output" +:+ ": " +:+ quoted "y" +:+ "}")
  = Some (mkEntry "Route" ("caf" +:+ String "233" " / x") "y").
Proof. vm_compute. reflexivity. Qed.

Example read_entry_two_members :
  read_entry
    ("{" +:+ quoted "instruction" +:+ ": " +:+ quoted "Route" +:+ ", "
     +:+ quoted "input" +:+ ": " +:+ quoted "x" +:+ "}")
  = None.
Proof. vm_compute. reflexivity. Qed.

Example read_entry_empty : read_entry "" = None.
Proof. reflexivity. Qed.

Example main_closed_stdout :
  main st_closed = (Raise ValueError, st_closed).
Proof. vm_compute. reflexivity. Qed.

Example main_ascii_stdout :
  main st_ascii = (Raise UnicodeEncodeError, st_ascii).
Proof. vm_compute. reflexivity. Qed.

(** With a file system that refuses the fourth operation, [main] stops with
    [OSError] after the banner, two lines in the file. *)
Example main_refused :
  fst (main st_refused) = Raise OSError
  /\ st_stdout (snd (main st_refused)) = [BANNER]
  /\ length (split_lines (default "" (st_files (snd (main st_refused)) !! filename)))
     = 2.
Proof. vm_compute. repeat split. Qed.

Lemma C1_witness :
  @loaded Lcg_source st0
  /\ exists ds st',
       main_build SAMPLES_PER_INTENT st0 = (Ok ds, st')
       /\ forall r, In r ds ->
            exists agent intents intent,
              In (agent, intents) AGENTS
              /\ In intent intents
              /\ output r = Json.dumps (route_dict agent intent)
              /\ forall agent' intent',
                   output r = Json.dumps (route_dict agent' intent') ->
                   agent' = agent /\ intent' = intent.
Proof.
  assert (H : @loaded Lcg_source st0) by (split; reflexivity).
  split; [exact H | exact (C1_target_and_intent_in_catalog st0 H)].
Defined.

Lemma C2_witness :
  st_TEMPLATES st0 = TEMPLATES
  /\ exists ds st',
       main_build 50 st0 = (Ok ds, st')
       /\ length ds
          = sum_list (map (fun item => length (snd item) * 50) (st_AGENTS st0))
       /\ (st_AGENTS st0 = AGENTS -> 50 = 50 -> length ds = 800).
Proof.
  split; [reflexivity | apply (C2_dataset_length st0 50); reflexivity].
Defined.

Lemma C3_witness :
  (@loaded Lcg_source st0
   /\ In ("agent_it", ["vpn access"; "password reset"; "laptop repair"; "software license"]) AGENTS
   /\ In "vpn access" ["vpn access"; "password reset"; "laptop repair"; "software license"]
   /\ lt_0_1 (fst (random (snd (randbelow (length TEMPLATES) (st_rng st0)))))
      = false
   /\ exists r st',
        generate_sample "agent_it" "vpn access" st0 = (Ok r, st')
        /\ input r = "Who handles vpn access?"
        /\ output r
           = "{" +:+ quoted "target" +:+ ": " +:+ quoted "agent_it" +:+ ", "
             +:+ quoted "confidence" +:+ ": 1.0, "
             +:+ quoted "reason" +:+ ": " +:+ quoted "Matched intent: vpn access"
             +:+ "}")
  /\ (@loaded Lcg_source st_flip
      /\ lt_0_1 (fst (random (snd (randbelow (length TEMPLATES) (st_rng st_flip)))))
         = true
      /\ exists r st',
           generate_sample "agent_it" "vpn access" st_flip = (Ok r, st')
           /\ input r = "who handles vpn access?"
           /\ output r
              = "{" +:+ quoted "target" +:+ ": " +:+ quoted "agent_it" +:+ ", "
                +:+ quoted "confidence" +:+ ": 1.0, "
                +:+ quoted "reason" +:+ ": " +:+ quoted "Matched intent: vpn access"
                +:+ "}").
Proof.
  assert (Ha : In ("agent_it", ["vpn access"; "password reset"; "laptop repair"; "software license"]) AGENTS)
    by (right; left; reflexivity).
  assert (Hi : In "vpn access" ["vpn access"; "password reset"; "laptop repair"; "software license"])
    by (left; reflexivity).
  split.
  - assert (H : @loaded Lcg_source st0) by (split; reflexivity).
    assert (Hk : lt_0_1 (fst (random (snd (randbelow (length TEMPLATES) (st_rng st0)))))
                 = false) by (vm_compute; reflexivity).
    split; [exact H|]. split; [exact Ha|]. split; [exact Hi|].
    split; [exact Hk|].
    destruct (C3_generate_sample_record st0 _ _ _ H Ha Hi)
      as (r & st' & pre & post & lpre & lpost & Hrun & _ & HP & _ & _ & _ & _
          & Hno & _ & _ & _ & _ & Hout).
    assert (Hp : Some (pre, post) = Some ("Who handles ", "?")).
    { rewrite <- HP. vm_compute. reflexivity. }
    injection Hp as -> ->.
    exists r, st'. split; [exact Hrun|]. split; [exact (Hno Hk) | exact Hout].
  - assert (H : @loaded Lcg_source st_flip) by (split; reflexivity).
    assert (Hk : lt_0_1 (fst (random (snd (randbelow (length TEMPLATES) (st_rng st_flip)))))
                 = true) by (vm_compute; reflexivity).
    split; [exact H|]. split; [exact Hk|].
    destruct (C3_generate_sample_record st_flip _ _ _ H Ha Hi)
      as (r & st' & pre & post & lpre & lpost & Hrun & _ & _ & HL & _ & _ & _
          & _ & Hyes & _ & _ & _ & Hout).
    assert (Hl : Some (lpre, lpost) = Some ("who handles ", "?")).
    { rewrite <- HL. vm_compute. reflexivity. }
    injection Hl as -> ->.
    exists r, st'. split; [exact Hrun|].
    split; [exact (proj1 (Hyes Hk)) | exact Hout].
Defined.

Lemma C4_witness :
  st_TEMPLATES st0 = TEMPLATES
  /\ exists acc st1 ds st2,
       main_accumulate 50 st0 = (Ok acc, st1)
       /\ random_shuffle acc st1 = (Ok ds, st2)
       /\ main_build 50 st0 = (Ok ds, st2)
       /\ ds ≡ₚ acc
       /\ @blocks_for Lcg_source 50 (catalog_pairs (st_AGENTS st0)) acc
       /\ (forall r, In r ds ->
             exists agent intent,
               In (agent, intent) (catalog_pairs (st_AGENTS st0))
               /\ @sample_of Lcg_source agent intent r)
       /\ (forall agent intent,
             count_routed agent intent ds
             = occurrences (agent, intent) (catalog_pairs (st_AGENTS st0)) * 50)
       /\ (st_AGENTS st0 = AGENTS ->
           forall agent intent,
             (In (agent, intent) (catalog_pairs AGENTS) ->
              count_routed agent intent ds = 50)
             /\ (~ In (agent, intent) (catalog_pairs AGENTS) ->
                 count_routed agent intent ds = 0)).
Proof.
  split; [reflexivity | apply (C4_shuffle_permutes_blocks st0 50); reflexivity].
Defined.

Lemma C5_witness :
  same_draws Lcg_source Lcg_counted counts_nothing
  /\ counts_nothing (st_rng st0) (st_rng st0_rerun)
  /\ st_AGENTS st0 = st_AGENTS st0_rerun
  /\ st_TEMPLATES st0 = st_TEMPLATES st0_rerun
  /\ st_files st0 <> st_files st0_rerun
  /\ st_console st0 <> st_console st0_rerun
  /\ st_io_budget st0 <> st_io_budget st0_rerun
  /\ fst (main_build 50 st0) = fst (main_build 50 st0_rerun)
  /\ (st_TEMPLATES st0 = TEMPLATES ->
      exists ds, fst (main_build 50 st0) = Ok ds
                 /\ fst (main_build 50 st0_rerun) = Ok ds)
  /\ (fst (main st0) = Ok tt -> fst (main st0_rerun) = Ok tt ->
      exists ds,
        st_files (snd (main st0)) !! filename = Some (jsonl ds)
        /\ st_files (snd (main st0_rerun)) !! filename = Some (jsonl ds)).
Proof.
  assert (HR : same_draws Lcg_source Lcg_counted counts_nothing).
  { intros g1 [g2 c] Hg. unfold counts_nothing in *. cbn [fst] in Hg. subst g1.
    split; [intros n; split; reflexivity | split; reflexivity]. }
  split; [exact HR|]. split; [reflexivity|]. split; [reflexivity|].
  split; [reflexivity|].
  split.
  { intros H. apply (f_equal (fun m => m !! filename)) in H.
    vm_compute in H. discriminate H. }
  split; [discriminate|]. split; [discriminate|].
  exact (C5_same_draws_same_dataset Lcg_source Lcg_counted counts_nothing
           st0 st0_rerun 50 HR eq_refl eq_refl eq_refl).
Defined.

Lemma C6_counterexample :
  @loaded Lcg_source st_ascii
  /\ budget_allows (st_io_budget st_ascii) 802 = true
  /\ main st_ascii = (Raise UnicodeEncodeError, st_ascii)
  /\ ~ (fst (main st_ascii) = Ok tt \/ fst (main st_ascii) = Raise OSError)
  /\ ~ (forall st : @state Lcg_source,
          loaded st ->
          fst (main st) = Ok tt \/ fst (main st) = Raise OSError).
Proof.
  assert (H : @loaded Lcg_source st_ascii) by (split; reflexivity).
  assert (Hrun : main st_ascii = (Raise UnicodeEncodeError, st_ascii))
    by (vm_compute; reflexivity).
  split; [exact H|]. split; [reflexivity|]. split; [exact Hrun|].
  split.
  - rewrite Hrun. intros [Hno | Hno]; discriminate Hno.
  - intros Hall. specialize (Hall st_ascii H). rewrite Hrun in Hall.
    destruct Hall as [Hno | Hno]; discriminate Hno.
Qed.

Lemma C6_witness :
  (@loaded Lcg_source st_refused
   /\ console_accepts (st_console st_refused) 3 = true
   /\ budget_allows (st_io_budget st_refused) 802 = false
   /\ fst (main st_refused) = Raise OSError)
  /\ (@loaded Lcg_source st0
      /\ console_accepts (st_console st0) 3 = true
      /\ budget_allows (st_io_budget st0) 802 = true
      /\ fst (main st0) = Ok tt)
  /\ (@loaded Lcg_source st_ascii
      /\ con_closed (st_console st_ascii) = false
      /\ con_unicode (st_console st_ascii) = false
      /\ fst (main st_ascii) = Raise UnicodeEncodeError).
Proof.
  split; [|split].
  - assert (H : @loaded Lcg_source st_refused) by (split; reflexivity).
    split; [exact H|]. split; [reflexivity|]. split; [reflexivity|].
    destruct (C6_failures_of_main st_refused H) as (_ & _ & _ & _ & Hacc).
    destruct (Hacc eq_refl) as [_ Hiff]. apply Hiff. reflexivity.
  - assert (H : @loaded Lcg_source st0) by (split; reflexivity).
    split; [exact H|]. split; [reflexivity|]. split; [reflexivity|].
    destruct (C6_failures_of_main st0 H) as (_ & _ & _ & _ & Hacc).
    destruct (Hacc eq_refl) as [[Hok | Hbad] Hiff]; [exact Hok|].
    apply Hiff in Hbad. discriminate Hbad.
  - assert (H : @loaded Lcg_source st_ascii) by (split; reflexivity).
    split; [exact H|]. split; [reflexivity|]. split; [reflexivity|].
    destruct (C6_failures_of_main st_ascii H) as (_ & _ & _ & Hu & _).
    rewrite (Hu eq_refl eq_refl). reflexivity.
Defined.

Lemma C7_witness :
  st_TEMPLATES st0 = TEMPLATES
  /\ TEMPLATES !! fst (randbelow (length TEMPLATES) (st_rng st0))
     = Some "Who handles {intent}?"
  /\ lt_0_1 (fst (random (snd (randbelow (length TEMPLATES) (st_rng st0)))))
     = false
  /\ exists r st',
       generate_sample "agent_it" "vpn access" st0 = (Ok r, st')
       /\ input r = "Who handles vpn access?"
       /\ output r
          = Json.dumps [ ("target", Json.JString "agent_it");
                         ("confidence", Json.JFloat 1);
                         ("reason", Json.JString "Matched intent: vpn access") ]
       /\ output r
          = "{" +:+ quoted "target" +:+ ": " +:+ quoted "agent_it" +:+ ", "
            +:+ quoted "confidence" +:+ ": 1.0, "
            +:+ quoted "reason" +:+ ": " +:+ quoted "Matched intent: vpn access"
            +:+ "}".
Proof.
  assert (HT : st_TEMPLATES st0 = TEMPLATES) by reflexivity.
  assert (Hsel : TEMPLATES !! fst (randbelow (length TEMPLATES) (st_rng st0))
                 = Some "Who handles {intent}?") by (vm_compute; reflexivity).
  assert (Hflip : lt_0_1 (fst (random (snd (randbelow (length TEMPLATES) (st_rng st0)))))
                  = false) by (vm_compute; reflexivity).
  split; [exact HT|]. split; [exact Hsel|]. split; [exact Hflip|].
  exact (C7_vpn_access_example st0 HT Hsel Hflip).
Defined.


Lemma C10_witness :
  @loaded Lcg_source st0
  /\ exists ds st',
       main_build SAMPLES_PER_INTENT st0 = (Ok ds, st')
       /\ forall r agent intent,
            In r ds ->
            output r = Json.dumps (route_dict agent intent) ->
            PyStr.occurs_in intent (input r).
Proof.
  assert (H : @loaded Lcg_source st0) by (split; reflexivity).
  split; [exact H | exact (C10_intent_occurs_in_input st0 H)].
Defined.

(** * Part III: further properties of the script *)

(** ** The lines of the file *)

(** The line written for a record determines the record. *)
Lemma entry_json_inj e e' :
  Json.dumps (entry_dict e) = Json.dumps (entry_dict e') -> e = e'.
Proof.
  destruct e as [i1 n1 o1], e' as [i2 n2 o2].
  unfold Json.dumps, entry_dict. cbn [instruction input output].
  cbn [map Json.join]. unfold Json.encode_item, Json.encode_value. cbn [fst snd].
  rewrite !StrFacts.app_assoc. intros H.
  repeat (apply (inj (String.app _)) in H).
  apply JsonFacts.encode_string_inj in H as [-> H].
  repeat (apply (inj (String.app _)) in H).
  apply JsonFacts.encode_string_inj in H as [-> H].
  repeat (apply (inj (String.app _)) in H).
  apply JsonFacts.encode_string_inj in H as [-> _].
  reflexivity.
Qed.

Lemma map_entry_json_inj ds ds' :
  map (fun e => Json.dumps (entry_dict e)) ds
  = map (fun e => Json.dumps (entry_dict e)) ds' ->
  ds = ds'.
Proof.
  revert ds'. induction ds as [|e ds IH]; intros [|e' ds']; cbn [map]; intros H;
    try discriminate; [reflexivity|].
  pose proof (f_equal (hd "") H) as He. pose proof (f_equal (@tl string) H) as Hds.
  cbn [hd tl] in He, Hds.
  rewrite (entry_json_inj _ _ He), (IH _ Hds). reflexivity.
Qed.

Lemma jsonl_inj ds ds' : jsonl ds = jsonl ds' -> ds = ds'.
Proof.
  intros H. apply map_entry_json_inj. rewrite <- !split_lines_jsonl, H.
  reflexivity.
Qed.

Lemma jsonl_ascii ds : PyStr.all_chars ascii_line_char (jsonl ds) = true.
Proof.
  induction ds as [|e ds IH]; [reflexivity|].
  cbn [jsonl]. rewrite !StrFacts.all_chars_app, IH, andb_true_r.
  apply andb_true_intro. split; [|reflexivity].
  apply (all_chars_impl (PyStr.in_range 32 126)).
  - intros c Hc. unfold ascii_line_char. rewrite Hc. reflexivity.
  - apply JsonFacts.printable_dumps_entry.
Qed.

Section FileFacts.
Context {RS : RandomSource}.

(** X1: the file that [main] writes determines the dataset, for records
    whose strings hold code points up to U+00FF, as the strings of the
    script's catalog and templates do: two datasets leave the same text
    in the file exactly when they are the same sequence of records,
    whatever standard output does with the closing messages. *)
Theorem X1_file_determines_dataset ds1 ds2 st1 st2 :
  budget_allows (st_io_budget st1) (length ds1 + 2) = true ->
  budget_allows (st_io_budget st2) (length ds2 + 2) = true ->
  st_files (snd (main_persist ds1 st1)) !! filename
  = st_files (snd (main_persist ds2 st2)) !! filename
  <-> ds1 = ds2.
Proof.
  intros H1 H2. rewrite (main_persist_file ds1 st1 H1), (main_persist_file ds2 st2 H2).
  split.
  - intros H. injection H as H. exact (jsonl_inj _ _ H).
  - intros ->. reflexivity.
Qed.

(** X2: the file holds printable ASCII characters and line feeds only,
    for records whose strings hold any code points up to U+00FF: the
    encoder escapes what is not printable ASCII. *)
Theorem X2_file_is_ascii ds st :
  budget_allows (st_io_budget st) (length ds + 2) = true ->
  exists content,
    st_files (snd (main_persist ds st)) !! filename = Some content
    /\ PyStr.all_chars ascii_line_char content = true.
Proof.
  intros Hb. exists (jsonl ds). split; [exact (main_persist_file ds st Hb)|].
  apply jsonl_ascii.
Qed.

End FileFacts.

(** ** [str.format] and its argument *)

Lemma get_field_shape name i i' :
  same_outcome (PyFormat.get_field name i) (PyFormat.get_field name i').
Proof.
  unfold PyFormat.get_field. destruct (String.eqb name "intent"); [exact I|].
  destruct (negb _); [reflexivity|].
  destruct (PyFormat.get_integer 0 name); reflexivity.
Qed.

Lemma get_field_raises name i e :
  PyStr.all_chars (fun c => negb (PyFormat.is_field_operator c)) name = true ->
  PyFormat.get_field name i = Raise e ->
  e = IndexError \/ e = KeyError \/ e = ValueError.
Proof.
  unfold PyFormat.get_field. intros ->. cbn [negb].
  destruct (String.eqb name "intent"); [discriminate|].
  destruct (PyFormat.get_integer 0 name); intros H; injection H as <-; auto.
Qed.

(** The outcome of the scanner does not depend on the value filled in. *)
Lemma format_go_shape i i' n :
  forall s f, String.length s <= n ->
    same_outcome (PyFormat.format_go i f s) (PyFormat.format_go i' f s).
Proof.
  induction n as [|n IH]; intros s f Hlen.
  - destruct s; [|cbn in Hlen; lia]. destruct f; cbn; reflexivity.
  - destruct s as [|c s]; [destruct f; cbn; reflexivity|].
    cbn [String.length] in Hlen. assert (Hs : String.length s <= n) by lia.
    destruct f as [name|]; cbn [PyFormat.format_go].
    + destruct (Ascii.eqb c "}").
      * pose proof (get_field_shape name i i') as Hg.
        destruct (PyFormat.get_field name i), (PyFormat.get_field name i');
          cbn [same_outcome] in Hg |- *; try contradiction; [|exact Hg].
        pose proof (IH s None Hs) as Hr.
        destruct (PyFormat.format_go i None s), (PyFormat.format_go i' None s);
          cbn [same_outcome] in Hr |- *; assumption.
      * destruct (Ascii.eqb c "{"); [reflexivity|]. apply IH. exact Hs.
    + destruct (Ascii.eqb c "{").
      * destruct s as [|d s']; [apply IH; exact Hs|].
        destruct d as [[|] [|] [|] [|] [|] [|] [|] [|]];
          try (apply IH; exact Hs).
        cbn [String.length] in Hs.
        pose proof (IH s' None ltac:(lia)) as Hr.
        destruct (PyFormat.format_go i None s'), (PyFormat.format_go i' None s');
          cbn [same_outcome] in Hr |- *; assumption.
      * destruct (Ascii.eqb c "}").
        -- destruct s as [|d s']; [reflexivity|].
           destruct d as [[|] [|] [|] [|] [|] [|] [|] [|]]; try reflexivity.
           cbn [String.length] in Hs.
           pose proof (IH s' None ltac:(lia)) as Hr.
           destruct (PyFormat.format_go i None s'), (PyFormat.format_go i' None s');
             cbn [same_outcome] in Hr |- *; assumption.
        -- pose proof (IH s None Hs) as Hr.
           destruct (PyFormat.format_go i None s), (PyFormat.format_go i' None s);
             cbn [same_outcome] in Hr |- *; assumption.
Qed.

Lemma format_shape template i i' :
  same_outcome (PyFormat.format template i) (PyFormat.format template i').
Proof. exact (format_go_shape i i' _ template None (le_n _)). Qed.

(** On a template of plain fields the scanner raises what Python raises:
    [IndexError], [KeyError] or [ValueError]. *)
Lemma format_go_raises i n :
  forall s f e, String.length s <= n ->
    PyFormat.supported_go (bool_decide (is_Some f)) s = true ->
    (forall name, f = Some name ->
       PyStr.all_chars (fun c => negb (PyFormat.is_field_operator c)) name = true) ->
    PyFormat.format_go i f s = Raise e ->
    e = IndexError \/ e = KeyError \/ e = ValueError.
Proof.
  induction n as [|n IH]; intros s f e Hlen Hsup Hname Hrun.
  - destruct s; [|cbn in Hlen; lia].
    destruct f; cbn in Hrun; [injection Hrun as <-; auto | discriminate].
  - destruct s as [|c s].
    { destruct f; cbn in Hrun; [injection Hrun as <-; auto | discriminate]. }
    cbn [String.length] in Hlen. assert (Hs : String.length s <= n) by lia.
    destruct f as [name|]; cbn [PyFormat.format_go] in Hrun;
      cbn [PyFormat.supported_go] in Hsup.
    + rewrite bool_decide_eq_true_2 in Hsup by (eexists; reflexivity).
      destruct (Ascii.eqb c "}").
      * destruct (PyFormat.get_field name i) as [v|e0] eqn:Hg.
        -- destruct (PyFormat.format_go i None s) as [r|e1] eqn:Hr;
             [discriminate|]. injection Hrun as <-.
           apply (IH s None e1 Hs); [exact Hsup | discriminate | exact Hr].
        -- injection Hrun as <-.
           exact (get_field_raises name i e0 (Hname name eq_refl) Hg).
      * destruct (Ascii.eqb c "{"); [injection Hrun as <-; auto|].
        apply andb_prop in Hsup as [Hc Hsup].
        apply (IH s (Some (name +:+ String c "")) e Hs); [| |exact Hrun].
        -- rewrite bool_decide_eq_true_2 by (eexists; reflexivity). exact Hsup.
        -- intros name' [= <-]. rewrite StrFacts.all_chars_app.
           rewrite (Hname name eq_refl). cbn [PyStr.all_chars]. rewrite Hc.
           reflexivity.
    + rewrite bool_decide_eq_false_2 in Hsup by (intros [x Hx]; discriminate Hx).
      destruct (Ascii.eqb c "{").
      * destruct s as [|d s'].
        { cbn in Hrun. injection Hrun as <-. auto. }
        destruct d as [[|] [|] [|] [|] [|] [|] [|] [|]];
          try (apply (IH _ (Some "") e Hs); [| |exact Hrun];
               [rewrite bool_decide_eq_true_2 by (eexists; reflexivity);
                exact Hsup
               |intros name' [= <-]; reflexivity]).
        cbn [String.length] in Hs.
        destruct (PyFormat.format_go i None s') as [r|e1] eqn:Hr;
          [discriminate|]. injection Hrun as <-.
        apply (IH s' None e1); [lia | | discriminate | exact Hr].
        rewrite bool_decide_eq_false_2 by (intros [x Hx]; discriminate Hx).
        exact Hsup.
      * destruct (Ascii.eqb c "}").
        -- destruct s as [|d s']; [injection Hrun as <-; auto|].
           destruct d as [[|] [|] [|] [|] [|] [|] [|] [|]];
             try (injection Hrun as <-; auto; fail).
           cbn [String.length] in Hs.
           destruct (PyFormat.format_go i None s') as [r|e1] eqn:Hr;
             [discriminate|]. injection Hrun as <-.
           apply (IH s' None e1); [lia | | discriminate | exact Hr].
           rewrite bool_decide_eq_false_2 by (intros [x Hx]; discriminate Hx).
           exact Hsup.
        -- destruct (PyFormat.format_go i None s) as [r|e1] eqn:Hr;
             [discriminate|]. injection Hrun as <-.
           apply (IH s None e1 Hs); [| discriminate | exact Hr].
           rewrite bool_decide_eq_false_2 by (intros [x Hx]; discriminate Hx).
           exact Hsup.
Qed.

Lemma format_raises template i :
  PyFormat.supported template = true ->
  forall e, PyFormat.format template i = Raise e ->
            e = IndexError \/ e = KeyError \/ e = ValueError.
Proof.
  intros Hs e He.
  apply (format_go_raises i _ template None e (le_n _)); [| discriminate | exact He].
  rewrite bool_decide_eq_false_2 by (intros [x Hx]; discriminate Hx).
  exact Hs.
Qed.

(** ** One sample, further *)

Section SampleFacts.
Context {RS : RandomSource}.

(** What [generate_sample] does from any state, for any arguments. *)
Lemma generate_sample_cases agent intent st :
  match st_TEMPLATES st with
  | [] => generate_sample agent intent st = (Raise IndexError, st)
  | _ :: _ =>
      let j := fst (randbelow (length (st_TEMPLATES st)) (st_rng st)) in
      let g1 := snd (randbelow (length (st_TEMPLATES st)) (st_rng st)) in
      exists template,
        st_TEMPLATES st !! j = Some template
        /\ match PyFormat.format template intent with
           | Raise e =>
               generate_sample agent intent st = (Raise e, with_rng g1 st)
           | Ok u =>
               generate_sample agent intent st
               = (Ok {| instruction := INSTRUCTION;
                        input := if lt_0_1 (fst (random g1))
                                 then PyStr.lower u else u;
                        output := Json.dumps (route_dict agent intent) |},
                  with_rng (snd (random g1)) st)
           end
  end.
Proof.
  destruct (st_TEMPLATES st) as [|t ts] eqn:HT.
  - unfold generate_sample, read_TEMPLATES, random_choice, mbind, M_bind.
    rewrite HT. reflexivity.
  - cbn zeta.
    pose proof (randbelow_lt (length (t :: ts)) (st_rng st) ltac:(cbn; lia)) as Hj.
    destruct (lookup_lt_is_Some_2 (t :: ts) _ Hj) as [template Htemplate].
    exists template. split; [exact Htemplate|].
    unfold generate_sample, read_TEMPLATES, random_choice, call_randbelow,
      random_random, lift, mbind, M_bind, mret, M_ret.
    rewrite HT. change (Nat.eqb (length (t :: ts)) 0) with false. cbv iota.
    destruct (randbelow (length (t :: ts)) (st_rng st)) as [j g1] eqn:Hdraw.
    rewrite ?Hdraw. cbn [fst snd] in *. rewrite Htemplate.
    destruct (PyFormat.format template intent) as [u|e]; [|reflexivity].
    cbn [st_rng]. destruct (random g1) as [k g2] eqn:Hrandom.
    rewrite ?Hrandom. reflexivity.
Qed.

(** X3: with templates whose replacement fields are plain names, whether
    [generate_sample] returns or raises, and which exception it raises,
    depends on the template drawn and not on the agent or the intent: two
    calls from the same state have the same outcome and leave the same
    state, which differs from the first in the random source only; the
    exception is that of [random.choice] on an empty list or of
    [str.format]: [IndexError], [KeyError] or [ValueError]. *)
Theorem X3_outcome_independent_of_arguments agent intent agent' intent' st :
  Forall (fun t => PyFormat.supported t = true) (st_TEMPLATES st) ->
  same_outcome (fst (generate_sample agent intent st))
               (fst (generate_sample agent' intent' st))
  /\ snd (generate_sample agent intent st)
     = snd (generate_sample agent' intent' st)
  /\ same_but_rng st (snd (generate_sample agent intent st))
  /\ (forall e, fst (generate_sample agent intent st) = Raise e ->
                e = IndexError \/ e = KeyError \/ e = ValueError)
  /\ (st_TEMPLATES st = [] ->
      fst (generate_sample agent intent st) = Raise IndexError).
Proof.
  intros Hsup.
  pose proof (generate_sample_cases agent intent st) as H1.
  pose proof (generate_sample_cases agent' intent' st) as H2.
  destruct (st_TEMPLATES st) as [|t ts] eqn:HT.
  { rewrite H1, H2. cbn [fst snd same_outcome].
    split; [reflexivity|]. split; [reflexivity|].
    split; [apply same_but_rng_refl|]. split.
    - intros e He. injection He as <-. left. reflexivity.
    - reflexivity. }
  cbn zeta in H1, H2.
  destruct H1 as (template & Hl & H1), H2 as (template' & Hl' & H2).
  rewrite Hl in Hl'. injection Hl' as <-.
  assert (Hs : PyFormat.supported template = true).
  { rewrite Forall_forall in Hsup. apply Hsup.
    eapply list_elem_of_lookup_2. exact Hl. }
  pose proof (format_shape template intent intent') as Hshape.
  pose proof (format_raises template intent Hs) as Hraise.
  destruct (PyFormat.format template intent) as [u|e],
           (PyFormat.format template intent') as [u'|e'];
    cbn [same_outcome] in Hshape; try contradiction.
  - rewrite H1, H2. cbn [fst snd same_outcome].
    split; [exact I|]. split; [reflexivity|].
    split; [apply same_but_rng_with_rng, same_but_rng_refl|].
    split; [|discriminate]. intros e He. discriminate He.
  - subst e'. rewrite H1, H2. cbn [fst snd same_outcome].
    split; [reflexivity|]. split; [reflexivity|].
    split; [apply same_but_rng_with_rng, same_but_rng_refl|].
    split; [|discriminate]. intros e0 He. injection He as <-.
    apply Hraise. reflexivity.
Qed.

(** X4: with the templates of the script the lower-case flip can be read
    off the record, for any intent phrase: every template begins with a
    capital letter, so the input is in lower case exactly when the draw of
    [random()] was below 0.1. *)
Theorem X4_flip_is_visible agent intent st :
  st_TEMPLATES st = TEMPLATES ->
  exists r st',
    generate_sample agent intent st = (Ok r, st')
    /\ PyStr.is_lowercase (input r)
       = lt_0_1 (fst (random (snd (randbelow (length TEMPLATES) (st_rng st))))).
Proof.
  intros HT.
  destruct (generate_sample_run agent intent st HT) as (parts & Hparts & Hrun).
  assert (Hin : In parts TEMPLATE_PARTS).
  { apply list_elem_of_In. eapply list_elem_of_lookup_2. exact Hparts. }
  eexists _, _. split; [exact Hrun|]. cbn [input].
  change (length TEMPLATES) with 5.
  destruct (lt_0_1 _).
  - apply is_lowercase_lower.
  - apply fill_not_lowercase, Hin.
Qed.

Lemma sample_of_variants agent intent r :
  sample_of agent intent r -> In r (variants agent intent).
Proof.
  intros Hs. destruct (sample_of_inv _ _ _ Hs) as (Hi & Ho & parts & Hin & Hinput).
  destruct r as [ri rn ro]. cbn [instruction input output] in *. subst ri ro.
  unfold variants. apply in_flat_map. exists parts. split; [exact Hin|].
  destruct Hinput as [-> | ->]; [left | right; left]; reflexivity.
Qed.

Lemma variants_length agent intent : length (variants agent intent) = 10.
Proof. reflexivity. Qed.

Lemma possible_records_length items :
  length (possible_records items) = 10 * length (catalog_pairs items).
Proof.
  unfold possible_records. induction (catalog_pairs items) as [|p ps IH].
  - reflexivity.
  - cbn [flat_map length]. rewrite length_app, variants_length, IH. lia.
Qed.

(** X5: no record of the generated dataset has an input that needs an
    escape or holds a brace: the input is printable ASCII without double
    quote and backslash, the encoder writes it as it is, and no placeholder
    is left in it. *)
Theorem X5_inputs_are_plain st :
  loaded st ->
  exists ds st',
    main_build SAMPLES_PER_INTENT st = (Ok ds, st')
    /\ forall r, In r ds ->
         plain (input r) = true
         /\ Json.escape (input r) = input r
         /\ PyFormat.brace_free (input r) = true.
Proof.
  intros [HA HT].
  destruct (main_build_run st SAMPLES_PER_INTENT HT)
    as (acc & g1 & ds & g2 & _ & _ & Hb & _ & _).
  exists ds, (with_rng g2 st). split; [exact Hb|]. intros r Hin.
  destruct (main_build_In st _ ds _ r HT Hb Hin) as (a & i & Hp & Hs).
  rewrite HA in Hp.
  destruct (sample_of_inv _ _ _ Hs) as (_ & _ & parts & Hparts & Hinput).
  pose proof AGENTS_intents_plain as Hplain. rewrite Forall_forall in Hplain.
  specialize (Hplain _ (proj2 (list_elem_of_In _ _) Hp)). cbn [snd] in Hplain.
  assert (H : plain (input r) = true).
  { destruct Hinput as [-> | ->].
    - apply fill_plain; assumption.
    - apply plain_lower, fill_plain; assumption. }
  split; [exact H|]. split; [apply escape_plain, H | apply plain_brace_free, H].
Qed.

(** X6: the generator repeats records.  Every record of the dataset is one
    of ten per (agent, intent) pair, five templates in two casings, so with
    more than ten samples per intent the dataset holds some record
    twice. *)
Theorem X6_dataset_repeats_records st n :
  st_TEMPLATES st = TEMPLATES ->
  catalog_pairs (st_AGENTS st) <> [] ->
  10 < n ->
  exists ds st',
    main_build n st = (Ok ds, st')
    /\ (forall r, In r ds -> In r (possible_records (st_AGENTS st)))
    /\ length (possible_records (st_AGENTS st))
       = 10 * length (catalog_pairs (st_AGENTS st))
    /\ ~ NoDup ds.
Proof.
  intros HT Hpairs Hn.
  destruct (main_build_run st n HT)
    as (acc & g1 & ds & g2 & _ & _ & Hb & _ & _).
  exists ds, (with_rng g2 st). split; [exact Hb|].
  assert (Hincl : forall r, In r ds -> In r (possible_records (st_AGENTS st))).
  { intros r Hin.
    destruct (main_build_In st n ds _ r HT Hb Hin) as (a & i & Hp & Hs).
    unfold possible_records. apply in_flat_map. exists (a, i).
    split; [exact Hp | exact (sample_of_variants a i r Hs)]. }
  split; [exact Hincl|]. split; [apply possible_records_length|].
  intros Hnodup.
  assert (Hle : length ds <= length (possible_records (st_AGENTS st))).
  { apply submseteq_length, NoDup_submseteq; [exact Hnodup|].
    intros r Hr. apply list_elem_of_In, Hincl, list_elem_of_In, Hr. }
  rewrite possible_records_length, (main_build_length st n ds _ HT Hb) in Hle.
  destruct (catalog_pairs (st_AGENTS st)) as [|p ps]; [congruence|].
  cbn [length] in Hle. nia.
Qed.

End SampleFacts.

(** ** Invariants kept on every path *)

Section Keeps.
Context {RS : RandomSource}.

Lemma keeps_ret {A : Type} I (a : A) : keeps I (mret a : M A).
Proof. intros st Hst. exact Hst. Qed.

Lemma keeps_raise {A : Type} I (e : exn) : keeps I (raise e : M A).
Proof. intros st Hst. exact Hst. Qed.

Lemma keeps_lift {A : Type} I (r : result A) : keeps I (lift r).
Proof. intros st Hst. unfold lift. destruct r; exact Hst. Qed.

Lemma keeps_bind {A B : Type} I (c : M A) (f : A -> M B) :
  keeps I c -> (forall a, keeps I (f a)) -> keeps I (c ≫= f).
Proof.
  intros Hc Hf. unfold keeps. eapply triple_bind.
  - exact Hc.
  - intros a. apply Hf.
Qed.

Lemma keeps_finally {A : Type} I (c : M A) (cleanup : M unit) :
  keeps I c -> keeps I cleanup -> keeps I (finally c cleanup).
Proof.
  intros Hc Hcl. unfold keeps.
  eapply triple_finally with (R := fun _ => I) (F := fun _ => I).
  - exact Hc.
  - intros _. exact Hcl.
  - intros _. exact Hcl.
Qed.

Lemma keeps_for_in {A B : Type} I (xs : list A) (body : A -> B -> M B)
      (acc : B) :
  (forall x acc, keeps I (body x acc)) -> keeps I (for_in xs body acc).
Proof.
  intros Hbody. unfold keeps.
  apply (triple_for_in xs body (fun _ _ => I)).
  intros pre x post acc' _. apply Hbody.
Qed.

(** *** Nothing but the random source moves while the dataset is built *)

Lemma only_rng_read_TEMPLATES : only_rng read_TEMPLATES.
Proof. intros s0 st Hst. exact Hst. Qed.

Lemma only_rng_read_AGENTS : only_rng read_AGENTS.
Proof. intros s0 st Hst. exact Hst. Qed.

Lemma only_rng_call_randbelow n : only_rng (call_randbelow n).
Proof.
  intros s0 st Hst. unfold call_randbelow.
  destruct (randbelow n (st_rng st)) as [j g]. exact Hst.
Qed.

Lemma only_rng_random_random : only_rng random_random.
Proof.
  intros s0 st Hst. unfold random_random.
  destruct (random (st_rng st)) as [k g]. exact Hst.
Qed.

Lemma only_rng_random_choice {A : Type} (seq : list A) :
  only_rng (random_choice seq).
Proof.
  intros s0. unfold random_choice. destruct (Nat.eqb (length seq) 0).
  - apply keeps_raise.
  - apply keeps_bind; [apply only_rng_call_randbelow|]. intros j.
    destruct (seq !! j); [apply keeps_ret | apply keeps_raise].
Qed.

Lemma only_rng_shuffle_from {A : Type} i (x : list A) :
  only_rng (shuffle_from i x).
Proof.
  intros s0. revert x. induction i as [|i IH]; intros x; cbn [shuffle_from].
  - apply keeps_ret.
  - apply keeps_bind; [apply only_rng_call_randbelow|]. intros j.
    apply keeps_bind; [|intros x'; apply IH].
    unfold swap. destruct (x !! j), (x !! S i);
      first [apply keeps_ret | apply keeps_raise].
Qed.

Lemma only_rng_generate_sample agent intent :
  only_rng (generate_sample agent intent).
Proof.
  intros s0. unfold generate_sample.
  apply keeps_bind; [apply only_rng_read_TEMPLATES|]. intros templates.
  apply keeps_bind; [apply only_rng_random_choice|]. intros template.
  apply keeps_bind; [apply keeps_lift|]. intros utterance.
  apply keeps_bind; [apply only_rng_random_random|]. intros x.
  apply keeps_ret.
Qed.

Lemma only_rng_main_build n : only_rng (main_build n).
Proof.
  intros s0. unfold main_build, main_accumulate.
  apply keeps_bind; [|intros dataset; apply only_rng_shuffle_from].
  apply keeps_bind; [apply only_rng_read_AGENTS|]. intros items.
  apply keeps_for_in. intros item dataset. unfold agent_body.
  apply keeps_for_in. intros intent dataset'. unfold intent_body.
  apply keeps_for_in. intros i dataset''. unfold sample_body.
  apply keeps_bind; [apply only_rng_generate_sample|]. intros sample.
  apply keeps_ret.
Qed.

(** *** Only the output file moves while it is written *)

Lemma same_but_file_refl path st : same_but_file path st st.
Proof. repeat split. Qed.

Lemma keeps_file_io_call path s0 : keeps (same_but_file path s0) io_call.
Proof.
  intros st Hst. unfold io_call.
  destruct (st_io_budget st) as [[|k]|]; exact Hst.
Qed.

Lemma keeps_file_print path s0 line :
  keeps (same_but_file path s0) (print line).
Proof.
  intros st (Hg & HA & HT & Hf).
  destruct (print_cases line st)
    as [(st' & -> & Hg' & HA' & HT' & Hf' & _) | (e & -> & _)].
  - unfold same_but_file. rewrite Hg', HA', HT', Hf'. repeat split; assumption.
  - repeat split; assumption.
Qed.

Lemma keeps_file_get_file path s0 f :
  keeps (same_but_file path s0) (get_file f).
Proof. intros st Hst. exact Hst. Qed.

Lemma keeps_file_set_file path s0 content :
  keeps (same_but_file path s0) (set_file path content).
Proof.
  intros st (Hg & HA & HT & Hf). unfold set_file.
  split; [exact Hg|]. split; [exact HA|]. split; [exact HT|].
  intros p Hp. cbn [st_files]. rewrite lookup_insert_ne by congruence.
  apply Hf, Hp.
Qed.

Lemma triple_open_w path s0 :
  triple (same_but_file path s0) (open_w path)
         (fun f st => f = path /\ same_but_file path s0 st)
         (fun _ => same_but_file path s0).
Proof.
  unfold open_w. eapply triple_bind; [apply keeps_file_io_call|]. intros u.
  eapply triple_bind; [apply keeps_file_set_file|]. intros u'.
  intros st Hst. split; [reflexivity | exact Hst].
Qed.

Lemma keeps_file_write path s0 data :
  keeps (same_but_file path s0) (file_write path data).
Proof.
  unfold file_write.
  apply keeps_bind; [apply keeps_file_io_call|]. intros _.
  apply keeps_bind; [apply keeps_file_get_file|]. intros old.
  apply keeps_file_set_file.
Qed.

Lemma keeps_file_main_persist s0 ds :
  keeps (same_but_file filename s0) (main_persist ds).
Proof.
  unfold main_persist, with_open_w.
  apply keeps_bind.
  { unfold keeps. eapply triple_bind; [apply triple_open_w|].
    intros f st [-> Hst]. revert st Hst.
    apply keeps_finally; [|apply keeps_file_io_call].
    apply keeps_for_in. intros e []. apply keeps_file_write. }
  intros _. apply keeps_bind; [apply keeps_file_print|]. intros _.
  apply keeps_file_print.
Qed.

End Keeps.

(** ** Whole runs *)

Section WholeRuns.
Context {RS : RandomSource}.

Lemma summary_800 :
  summary 800 = "✅ Generated 800 examples in edgeneuro_training_data.jsonl".
Proof. vm_compute. reflexivity. Qed.

Lemma summary_0 :
  summary 0 = "✅ Generated 0 examples in edgeneuro_training_data.jsonl".
Proof. vm_compute. reflexivity. Qed.

(** X7: a run on the catalog of the script in which the file system
    refuses none of the 802 file operations and standard output accepts
    the three messages returns normally and leaves exactly this state:
    the random source after the build, the globals as they were, the
    output file holding the 800 lines of the shuffled dataset and every
    other file as it was, three more printed lines (the banner, the
    summary that counts 800 examples, the hint), and 802 file operations
    spent. *)
Theorem X7_successful_run st :
  loaded st ->
  budget_allows (st_io_budget st) 802 = true ->
  console_accepts (st_console st) 3 = true ->
  exists ds g st1,
    print BANNER st = (Ok tt, st1)
    /\ main_build SAMPLES_PER_INTENT st1 = (Ok ds, with_rng g st1)
    /\ main st
       = (Ok tt,
          mkState g (st_AGENTS st) (st_TEMPLATES st)
                  (<[filename := jsonl ds]> (st_files st))
                  (console_after
                     (st_console st)
                     [ BANNER;
                       "✅ Generated 800 examples in edgeneuro_training_data.jsonl";
                       NEXT_STEP ])
                  (spend (st_io_budget st) 802))
    /\ st_stdout (snd (main st))
       = st_stdout st
         ++ [ BANNER;
              "✅ Generated 800 examples in edgeneuro_training_data.jsonl";
              NEXT_STEP ]
    /\ length (split_lines (jsonl ds)) = 800.
Proof.
  intros [HA HT] Hbudget Hc. destruct st as [g0 a t files out budget].
  cbn [st_io_budget st_console st_AGENTS st_TEMPLATES st_files] in *.
  destruct (console_accepts_after out BANNER 2 Hc) as [H1 H2].
  pose proof (print_accepted BANNER g0 a t files out budget H1) as Hp.
  destruct (main_run (mkState g0 a t files out budget) _ HT Hp)
    as (ds & g & Hb & Hlen & Hmain).
  cbn [st_AGENTS] in Hlen. rewrite HA in Hlen.
  change (length (catalog_pairs AGENTS) * SAMPLES_PER_INTENT) with 800 in Hlen.
  assert (Hrun : main (mkState g0 a t files out budget)
                 = (Ok tt,
                    mkState g a t (<[filename := jsonl ds]> files)
                      (console_after out
                         [ BANNER;
                           "✅ Generated 800 examples in edgeneuro_training_data.jsonl";
                           NEXT_STEP ])
                      (spend budget 802))).
  { rewrite Hmain. unfold with_rng.
    cbn [st_io_budget st_files st_rng st_AGENTS st_TEMPLATES st_console].
    rewrite main_persist_ok; [| rewrite Hlen; exact Hbudget | exact H2].
    rewrite Hlen, summary_800, console_after_app. reflexivity. }
  eexists ds, g, _. split; [exact Hp|]. split; [exact Hb|].
  split; [exact Hrun|]. split.
  - rewrite Hrun. reflexivity.
  - rewrite split_lines_jsonl, length_map. exact Hlen.
Qed.

Lemma main_persist_refused_open ds st :
  st_io_budget st = Some 0 -> main_persist ds st = (Raise OSError, st).
Proof.
  intros Hb. destruct st as [g a t files out budget].
  cbn [st_io_budget] in Hb. subst budget. reflexivity.
Qed.

(** X8: a run on the catalog of the script in which standard output
    accepts the banner and the file system refuses one of the 802 file
    operations raises [OSError] and prints the banner and nothing more:
    the summary is never printed for a file that was not written whole.
    No file but the output file is touched, the globals are as they
    were, and when it is the opening that is refused no file is touched
    at all. *)
Theorem X8_refused_run st :
  loaded st ->
  budget_allows (st_io_budget st) 802 = false ->
  console_accepts (st_console st) 1 = true ->
  fst (main st) = Raise OSError
  /\ st_stdout (snd (main st)) = st_stdout st ++ [BANNER]
  /\ (forall p, p <> filename ->
        st_files (snd (main st)) !! p = st_files st !! p)
  /\ loaded (snd (main st))
  /\ (st_io_budget st = Some 0 -> st_files (snd (main st)) = st_files st).
Proof.
  intros [HA HT] Hbudget Hc. destruct st as [g0 a t files out budget].
  cbn [st_io_budget st_console st_AGENTS st_TEMPLATES st_files] in *.
  pose proof (print_accepted BANNER g0 a t files out budget Hc) as Hp.
  destruct (main_run (mkState g0 a t files out budget) _ HT Hp)
    as (ds & g & Hb & Hlen & Hmain).
  cbn [st_AGENTS] in Hlen. rewrite HA in Hlen.
  change (length (catalog_pairs AGENTS) * SAMPLES_PER_INTENT) with 800 in Hlen.
  rewrite Hmain.
  set (st2 := with_rng g (mkState g0 a t files (console_after out [BANNER]) budget)).
  assert (Hbud2 : st_io_budget st2 = budget) by reflexivity.
  destruct (main_persist_fail ds st2) as (st' & Hrun & Hout).
  { rewrite Hlen. exact Hbudget. }
  pose proof (keeps_file_main_persist st2 ds st2 (same_but_file_refl _ _)) as Hkeep.
  rewrite Hrun in Hkeep |- *. cbn [fst snd].
  destruct Hkeep as (_ & HA' & HT' & Hfiles).
  split; [reflexivity|]. split; [unfold st_stdout; rewrite Hout; reflexivity|].
  split; [exact Hfiles|]. split.
  - split; [rewrite HA' | rewrite HT']; assumption.
  - intros H0. rewrite (main_persist_refused_open ds st2) in Hrun
      by (rewrite Hbud2; exact H0).
    injection Hrun as <-. reflexivity.
Qed.




Lemma accumulate_nothing n items st :
  catalog_pairs items = [] ->
  for_in items (agent_body n) [] st = (Ok [], st).
Proof.
  induction items as [|item items IH]; intros Hnil; [reflexivity|].
  unfold catalog_pairs in Hnil. cbn [flat_map] in Hnil.
  apply app_eq_nil in Hnil as [Hitem Hrest].
  apply map_eq_nil in Hitem. cbn [for_in].
  change (agent_body n item []) with (for_in (snd item) (intent_body n (fst item)) []).
  rewrite Hitem. cbn [for_in]. unfold mbind, M_bind, mret, M_ret.
  apply IH, Hrest.
Qed.

(** X10: with a catalog that has no intent at all (no agent, or agents
    with empty lists), a file system that grants two operations and a
    standard output that accepts the three messages, [main] still
    succeeds, whatever the templates are: it draws no random number,
    writes an empty file and reports 0 examples. *)
Theorem X10_empty_catalog st :
  catalog_pairs (st_AGENTS st) = [] ->
  budget_allows (st_io_budget st) 2 = true ->
  console_accepts (st_console st) 3 = true ->
  main st
  = (Ok tt,
     mkState (st_rng st) (st_AGENTS st) (st_TEMPLATES st)
             (<[filename := ""]> (st_files st))
             (console_after
                (st_console st)
                [ BANNER;
                  "✅ Generated 0 examples in edgeneuro_training_data.jsonl";
                  NEXT_STEP ])
             (spend (st_io_budget st) 2))
  /\ st_stdout (snd (main st))
     = st_stdout st
       ++ [ BANNER;
            "✅ Generated 0 examples in edgeneuro_training_data.jsonl";
            NEXT_STEP ].
Proof.
  intros Hnil Hbudget Hc. destruct st as [g a t files out budget].
  cbn [st_io_budget st_files st_rng st_AGENTS st_TEMPLATES st_console] in *.
  destruct (console_accepts_after out BANNER 2 Hc) as [H1 H2].
  pose proof (print_accepted BANNER g a t files out budget H1) as Hp.
  assert (Hrun : main (mkState g a t files out budget)
                 = (Ok tt,
                    mkState g a t (<[filename := ""]> files)
                      (console_after out
                         [ BANNER;
                           "✅ Generated 0 examples in edgeneuro_training_data.jsonl";
                           NEXT_STEP ])
                      (spend budget 2))).
  { unfold main. unfold mbind at 1 2, M_bind.
    change (print "🧠 Generating Synthetic Training Data for EdgeNeuro..."
                  (mkState g a t files out budget))
      with (print BANNER (mkState g a t files out budget)).
    rewrite Hp. unfold main_build, mbind, M_bind.
    rewrite main_accumulate_unfold. cbn [st_AGENTS].
    rewrite (accumulate_nothing _ _ _ Hnil).
    change (random_shuffle [] (mkState g a t files (console_after out [BANNER]) budget))
      with (Ok (@nil entry), mkState g a t files (console_after out [BANNER]) budget).
    cbv iota beta.
    rewrite main_persist_ok; [| exact Hbudget | exact H2].
    cbn [length jsonl]. rewrite summary_0, console_after_app. reflexivity. }
  split; [exact Hrun|]. rewrite Hrun. reflexivity.
Qed.

End WholeRuns.

(** ** The random numbers drawn *)

(** Counting the draws does not change them. *)
Lemma Counted_same_draws (RS : RandomSource) :
  same_draws RS (Counted RS) (fun g1 g2 => g1 = fst g2).
Proof.
  intros g1 [g2 c] Hg. cbn [fst] in Hg. subst g1.
  split; [intros n; split; reflexivity | split; reflexivity].
Qed.

Section Draws.
Context {RS : RandomSource}.

Lemma draws_generate_sample s0 c agent intent :
  st_TEMPLATES s0 = TEMPLATES ->
  triple (drawn s0 c) (generate_sample agent intent)
         (fun _ => drawn s0 (c + 2)) (fun _ _ => False).
Proof.
  intros HT0 st [Hst Hc].
  pose proof (same_but_rng_templates s0 st HT0 Hst) as HT.
  destruct (generate_sample_run agent intent st HT) as (parts & _ & Hrun).
  rewrite Hrun. split.
  - apply same_but_rng_with_rng. exact Hst.
  - unfold draws in *. cbn. lia.
Qed.

Lemma draws_for_range s0 c n agent intent d0 :
  st_TEMPLATES s0 = TEMPLATES ->
  triple (drawn s0 c) (for_in (seq 0 n) (sample_body agent intent) d0)
         (fun _ => drawn s0 (c + 2 * n)) (fun _ _ => False).
Proof.
  intros HT0. eapply triple_weaken.
  - apply (triple_for_in (seq 0 n) (sample_body agent intent)
             (fun visited _ => drawn s0 (c + 2 * length visited))
             (fun _ _ => False) d0).
    intros visited x post acc _. unfold sample_body.
    eapply triple_bind.
    + apply draws_generate_sample. exact HT0.
    + intros r st Hst. rewrite length_app. cbn [length].
      replace (c + 2 * (length visited + 1)) with (c + 2 * length visited + 2)
        by lia.
      exact Hst.
  - intros st Hst. cbn [length]. rewrite Nat.mul_0_r, Nat.add_0_r. exact Hst.
  - intros d st Hst. rewrite length_seq in Hst. exact Hst.
  - intros e st [].
Qed.

Lemma draws_for_intents s0 c n agent intents d0 :
  st_TEMPLATES s0 = TEMPLATES ->
  triple (drawn s0 c) (for_in intents (intent_body n agent) d0)
         (fun _ => drawn s0 (c + 2 * (length intents * n)))
         (fun _ _ => False).
Proof.
  intros HT0. eapply triple_weaken.
  - apply (triple_for_in intents (intent_body n agent)
             (fun visited _ => drawn s0 (c + 2 * (length visited * n)))
             (fun _ _ => False) d0).
    intros visited intent post acc _. unfold intent_body.
    eapply triple_weaken.
    + apply draws_for_range. exact HT0.
    + intros st Hst. exact Hst.
    + intros d st Hst. rewrite length_app. cbn [length].
      replace (c + 2 * ((length visited + 1) * n))
        with (c + 2 * (length visited * n) + 2 * n) by lia.
      exact Hst.
    + intros e st [].
  - intros st Hst. cbn [length]. rewrite Nat.mul_0_l, Nat.mul_0_r, Nat.add_0_r.
    exact Hst.
  - intros d st Hst. exact Hst.
  - intros e st [].
Qed.

Lemma draws_for_agents s0 c n items :
  st_TEMPLATES s0 = TEMPLATES ->
  triple (drawn s0 c) (for_in items (agent_body n) [])
         (fun _ => drawn s0 (c + 2 * (length (catalog_pairs items) * n)))
         (fun _ _ => False).
Proof.
  intros HT0. eapply triple_weaken.
  - apply (triple_for_in items (agent_body n)
             (fun visited _ =>
                drawn s0 (c + 2 * (length (catalog_pairs visited) * n)))
             (fun _ _ => False) []).
    intros visited item post acc _. unfold agent_body.
    eapply triple_weaken.
    + apply draws_for_intents. exact HT0.
    + intros st Hst. exact Hst.
    + intros d st Hst. unfold catalog_pairs. rewrite flat_map_app.
      cbn [flat_map]. rewrite app_nil_r, length_app, length_map.
      fold (catalog_pairs visited).
      replace (c + 2 * ((length (catalog_pairs visited) + length (snd item)) * n))
        with (c + 2 * (length (catalog_pairs visited) * n)
              + 2 * (length (snd item) * n)) by lia.
      exact Hst.
    + intros e st [].
  - intros st Hst. cbn [catalog_pairs flat_map length].
    rewrite Nat.mul_0_l, Nat.mul_0_r, Nat.add_0_r. exact Hst.
  - intros d st Hst. exact Hst.
  - intros e st [].
Qed.

Lemma draws_shuffle_from {A : Type} s0 c i (x : list A) :
  i < length x \/ i = 0 ->
  triple (drawn s0 c) (shuffle_from i x)
         (fun _ => drawn s0 (c + i)) (fun _ _ => False).
Proof.
  revert c x. induction i as [|i IH]; intros c x Hi st [Hst Hc].
  - cbn [shuffle_from]. split; [exact Hst | rewrite Nat.add_0_r; exact Hc].
  - destruct Hi as [Hi|Hi]; [|discriminate].
    cbn [shuffle_from]. unfold mbind, M_bind, call_randbelow.
    pose proof (randbelow_lt (S i + 1) (st_rng st) ltac:(lia)) as Hj.
    destruct (randbelow (S i + 1) (st_rng st)) as [j g] eqn:Hdraw.
    rewrite ?Hdraw. cbn [fst] in Hj.
    destruct (lookup_lt_is_Some_2 x j ltac:(lia)) as [xj Hxj].
    destruct (lookup_lt_is_Some_2 x (S i) Hi) as [xi Hxi].
    unfold swap. rewrite Hxj, Hxi. unfold mret, M_ret.
    set (x' := <[j:=xi]> (<[S i:=xj]> x)).
    assert (Hlen : i < length x' \/ i = 0).
    { left. unfold x'. rewrite !length_insert. lia. }
    set (st1 := mkState g _ _ _ _ _).
    assert (H1 : drawn s0 (S c) st1).
    { split; [exact Hst|]. unfold draws, st1. cbn [st_rng].
      assert (Hg : snd g = S (snd (st_rng st))).
      { change g with (snd (j, g)). rewrite <- Hdraw. reflexivity. }
      rewrite Hg. unfold draws in Hc. rewrite Hc. reflexivity. }
    pose proof (IH (S c) x' Hlen st1 H1) as Hrun.
    destruct (shuffle_from i x' st1) as [[y|e] st2]; [|exact Hrun].
    replace (c + S i) with (S c + i) by lia. exact Hrun.
Qed.

(** X11: the build of a dataset of [len] records draws [2 * len] random
    numbers for the samples, a template index and a lower-case draw each,
    and then [len - 1] for the shuffle; an empty dataset draws none. *)
Theorem X11_draws_made (st : @state (Counted RS)) n :
  st_TEMPLATES st = TEMPLATES ->
  exists ds st',
    main_build n st = (Ok ds, st')
    /\ length ds = length (catalog_pairs (st_AGENTS st)) * n
    /\ draws st' = draws st + 2 * length ds + (length ds - 1).
Proof.
  intros HT.
  destruct (main_build_run st n HT)
    as (acc & g1 & ds & g2 & Hacc & Hsh & Hb & Hblocks & Hperm).
  exists ds, (with_rng g2 st). split; [exact Hb|].
  pose proof (blocks_for_length _ _ _ Hblocks) as Hlen.
  rewrite (Permutation_length Hperm). split; [exact Hlen|].
  pose proof (draws_for_agents st (draws st) n (st_AGENTS st) HT st
                (conj (same_but_rng_refl st) eq_refl)) as H1.
  rewrite <- main_accumulate_unfold, Hacc in H1. destruct H1 as [Hs1 Hd1].
  assert (Hi : length acc - 1 < length acc \/ length acc - 1 = 0) by lia.
  pose proof (draws_shuffle_from st _ (length acc - 1) acc Hi (with_rng g1 st)
                (conj Hs1 Hd1)) as H2.
  unfold random_shuffle in Hsh. rewrite Hsh in H2. destruct H2 as [_ Hd2].
  rewrite Hd2, Hlen. reflexivity.
Qed.

End Draws.

(** ** Intent phrases with capital letters *)

Lemma occurs_in_lowercase sub s :
  PyStr.is_lowercase s = true -> PyStr.occurs_in sub s ->
  PyStr.is_lowercase sub = true.
Proof.
  intros Hs (pre & post & ->). unfold PyStr.is_lowercase in *.
  rewrite !StrFacts.all_chars_app in Hs.
  apply andb_prop in Hs as [_ Hs]. apply andb_prop in Hs as [Hs _]. exact Hs.
Qed.

Section CapitalisedIntents.
Context {RS : RandomSource}.

(** X12: for an arbitrary intent phrase, the input holds the phrase as it
    is when the lower-case flip does not occur and its lower-case form
    when it does; so a phrase with a capital letter is absent from the
    input of a flipped record, while [output] still names it as given. *)
Theorem X12_flip_hides_capitalised_intent agent intent st :
  st_TEMPLATES st = TEMPLATES ->
  exists r st',
    generate_sample agent intent st = (Ok r, st')
    /\ output r = Json.dumps (route_dict agent intent)
    /\ PyStr.occurs_in
         (if lt_0_1 (fst (random (snd (randbelow (length TEMPLATES) (st_rng st)))))
          then PyStr.lower intent else intent)
         (input r)
    /\ (lt_0_1 (fst (random (snd (randbelow (length TEMPLATES) (st_rng st)))))
        = true ->
        PyStr.is_lowercase intent = false ->
        ~ PyStr.occurs_in intent (input r)).
Proof.
  intros HT.
  destruct (generate_sample_run agent intent st HT) as (parts & Hparts & Hrun).
  eexists _, _. split; [exact Hrun|]. cbn [input output].
  split; [reflexivity|]. change (length TEMPLATES) with 5.
  destruct (lt_0_1 _); split.
  - exists (PyStr.lower (fst parts)), (PyStr.lower (snd parts)).
    unfold fill. rewrite !StrFacts.lower_app. reflexivity.
  - intros _ Hcap Hocc.
    pose proof (occurs_in_lowercase _ _ (is_lowercase_lower _) Hocc) as Hlow.
    congruence.
  - exists (fst parts), (snd parts). reflexivity.
  - discriminate.
Qed.

End CapitalisedIntents.

(** ** The orders the shuffle can return *)

Lemma tape_randbelow_lt n t : 0 < n -> fst (tape_randbelow n t) < n.
Proof.
  intros Hn. destruct t as [|d t']; cbn [tape_randbelow fst]; [exact Hn|].
  apply Nat.mod_upper_bound. lia.
Qed.

Lemma tape_random_lt t : (fst (tape_random t) < 2 ^ 53)%N.
Proof. reflexivity. Qed.

Definition Tape : RandomSource := {|
  rng := list nat;
  randbelow := tape_randbelow;
  random := tape_random;
  randbelow_lt := tape_randbelow_lt;
  random_lt := tape_random_lt
|}.

Lemma agree_above_0 {A : Type} (x y : list A) :
  y ≡ₚ x -> (forall k, 0 < k -> y !! k = x !! k) -> y = x.
Proof.
  intros Hperm Hagree. destruct x as [|a xs], y as [|b ys].
  - reflexivity.
  - apply Permutation_length in Hperm. discriminate.
  - apply Permutation_length in Hperm. discriminate.
  - assert (Htail : ys = xs).
    { apply list_eq. intros k. exact (Hagree (S k) ltac:(lia)). }
    subst ys. apply (inj (fun v => v :: xs)) in Hperm. subst b. reflexivity.
Qed.

Lemma agree_above_prefix {A : Type} n (x y : list A) :
  y ≡ₚ x -> (forall k, n <= k -> y !! k = x !! k) -> take n y ≡ₚ take n x.
Proof.
  intros Hperm Hagree.
  assert (Hdrop : drop n y = drop n x).
  { apply list_eq. intros k. rewrite !lookup_drop. apply Hagree. lia. }
  rewrite <- (take_drop n y), <- (take_drop n x), Hdrop in Hperm.
  exact (inj (fun l => l ++ drop n x) _ _ Hperm).
Qed.

Lemma shuffle_from_reaches {A : Type} i (x y : list A) :
  i < length x ->
  y ≡ₚ x ->
  (forall k, i < k -> y !! k = x !! k) ->
  exists tape,
    length tape = i
    /\ forall (st : @state Tape) rest,
         st_rng st = tape ++ rest ->
         shuffle_from i x st = (Ok y, @with_rng Tape rest st).
Proof.
  revert x. induction i as [|i IH]; intros x Hi Hperm Hagree.
  - exists []. split; [reflexivity|]. intros st rest Hst.
    rewrite (agree_above_0 x y Hperm Hagree). cbn [shuffle_from].
    unfold mret, M_ret, with_rng. cbn [app] in Hst. rewrite <- Hst.
    destruct st; reflexivity.
  - pose proof (Permutation_length Hperm) as Hlen.
    destruct (lookup_lt_is_Some_2 y (S i) ltac:(lia)) as [v Hv].
    destruct (lookup_lt_is_Some_2 x (S i) Hi) as [xi Hxi].
    assert (Hpre : take (S (S i)) y ≡ₚ take (S (S i)) x).
    { apply agree_above_prefix; [exact Hperm|]. intros k Hk. apply Hagree. lia. }
    assert (Hin : v ∈ take (S (S i)) x).
    { rewrite <- Hpre. apply list_elem_of_lookup. exists (S i).
      rewrite lookup_take_lt by lia. exact Hv. }
    apply list_elem_of_lookup in Hin as [j Hj].
    pose proof (lookup_lt_Some _ _ _ Hj) as Hjlt.
    rewrite length_take in Hjlt.
    rewrite lookup_take_lt in Hj by lia.
    set (x' := <[j:=xi]> (<[S i:=v]> x)).
    assert (Hperm' : y ≡ₚ x').
    { rewrite Hperm. symmetry. apply Permutation_insert_swap; assumption. }
    assert (Hagree' : forall k, i < k -> y !! k = x' !! k).
    { intros k Hk. unfold x'. destruct (decide (k = S i)) as [->|Hne].
      - rewrite Hv. destruct (decide (j = S i)) as [->|Hj'].
        + assert (xi = v) by congruence. subst xi.
          rewrite list_insert_insert_eq, list_lookup_insert_eq by lia.
          reflexivity.
        + rewrite list_lookup_insert_ne by exact Hj'.
          rewrite list_lookup_insert_eq by lia. reflexivity.
      - rewrite !list_lookup_insert_ne by lia. apply Hagree. lia. }
    destruct (IH x' ltac:(unfold x'; rewrite !length_insert; lia) Hperm' Hagree')
      as (tape & Htape & Hrun).
    exists (j :: tape). split; [cbn [length]; rewrite Htape; reflexivity|].
    intros st rest Hst. cbn [shuffle_from].
    unfold mbind, M_bind, call_randbelow. rewrite Hst.
    change (@randbelow Tape (S i + 1) ((j :: tape) ++ rest))
      with (j mod (S i + 1), tape ++ rest).
    rewrite Nat.mod_small by lia. unfold swap. rewrite Hj, Hxi.
    unfold mret, M_ret. fold x'.
    match goal with
    | |- context [shuffle_from i x' ?s] => rewrite (Hrun s rest eq_refl)
    end.
    reflexivity.
Qed.

(** X13: the shuffle can return every order: for each permutation of the
    list there are draws, one per position but the first, after which
    [random.shuffle] has produced it, the order it started from
    included. *)
Theorem X13_shuffle_reaches_every_order {A : Type} (x y : list A)
        (st : @state Tape) :
  y ≡ₚ x ->
  exists tape,
    length tape = length x - 1
    /\ random_shuffle x (@with_rng Tape tape st) = (Ok y, @with_rng Tape [] st).
Proof.
  intros Hperm. destruct x as [|a xs].
  - apply Permutation_nil_r in Hperm. subst y. exists []. split; reflexivity.
  - destruct (shuffle_from_reaches (length (a :: xs) - 1) (a :: xs) y)
      as (tape & Htape & Hrun).
    + cbn [length]. lia.
    + exact Hperm.
    + intros k Hk. pose proof (Permutation_length Hperm) as Hlen.
      rewrite !lookup_ge_None_2 by (cbn [length] in *; lia). reflexivity.
    + exists tape. split; [exact Htape|].
      unfold random_shuffle.
      rewrite (Hrun (@with_rng Tape tape st) [] (eq_sym (app_nil_r tape))).
      reflexivity.
Qed.

(** ** The further properties on concrete runs *)

(** A second state, with another seed and a file system that grants ten
    operations. *)
Definition st1_budget : @state Lcg_source :=
  @init_state Lcg_source 9%N ∅ (Some 10) utf8_console.

(** A record with a line feed, a double quote and the code point U+00E9. *)
Definition odd_records : list entry :=
  [ mkEntry (String "010" "x") (String PyStr.dquote "y") (String "233" "z") ].

(** A state whose only template names a field that [format] is not given. *)
Definition st_bad_template : @state Lcg_source :=
  @mkState Lcg_source 5%N AGENTS ["Who handles {agent}?"] ∅ utf8_console None.

(** A state whose catalog has one agent without intents, and no template. *)
Definition st_no_intent : @state Lcg_source :=
  @mkState Lcg_source 5%N [("agent_x", [])] [] ∅ utf8_console None.

Definition st0_counting : @state (Counted Lcg_source) :=
  @init_state (Counted Lcg_source) (5%N, 0) ∅ None utf8_console.

Definition st0_tape : @state Tape := @init_state Tape [] ∅ None utf8_console.

Lemma X1_witness :
  budget_allows (st_io_budget st_ascii) (length two_records + 2) = true
  /\ budget_allows (st_io_budget st1_budget) (length odd_records + 2) = true
  /\ two_records <> odd_records
  /\ st_files (snd (main_persist two_records st_ascii)) !! filename
     <> st_files (snd (main_persist odd_records st1_budget)) !! filename.
Proof.
  assert (H1 : budget_allows (st_io_budget st_ascii) (length two_records + 2) = true)
    by reflexivity.
  assert (H2 : budget_allows (st_io_budget st1_budget) (length odd_records + 2) = true)
    by reflexivity.
  assert (H3 : two_records <> odd_records) by discriminate.
  split; [exact H1|]. split; [exact H2|]. split; [exact H3|].
  intros Heq. apply H3.
  exact (proj1 (X1_file_determines_dataset two_records odd_records
                  st_ascii st1_budget H1 H2) Heq).
Defined.

Lemma X2_witness :
  budget_allows (st_io_budget st_ascii) (length odd_records + 2) = true
  /\ exists content,
       st_files (snd (main_persist odd_records st_ascii)) !! filename
       = Some content
       /\ PyStr.all_chars ascii_line_char content = true.
Proof.
  split; [reflexivity | apply (X2_file_is_ascii odd_records st_ascii); reflexivity].
Defined.

Lemma X3_witness :
  Forall (fun t => PyFormat.supported t = true) (st_TEMPLATES st_bad_template)
  /\ same_outcome (fst (generate_sample "agent_it" "vpn access" st_bad_template))
                  (fst (generate_sample "agent_hr" "onboarding" st_bad_template))
  /\ snd (generate_sample "agent_it" "vpn access" st_bad_template)
     = snd (generate_sample "agent_hr" "onboarding" st_bad_template)
  /\ same_but_rng st_bad_template
                  (snd (generate_sample "agent_it" "vpn access" st_bad_template))
  /\ (forall e,
        fst (generate_sample "agent_it" "vpn access" st_bad_template) = Raise e ->
        e = IndexError \/ e = KeyError \/ e = ValueError)
  /\ (st_TEMPLATES st_bad_template = [] ->
      fst (generate_sample "agent_it" "vpn access" st_bad_template)
      = Raise IndexError).
Proof.
  assert (H : Forall (fun t => PyFormat.supported t = true)
                     (st_TEMPLATES st_bad_template))
    by (repeat constructor).
  split; [exact H|].
  exact (X3_outcome_independent_of_arguments
           "agent_it" "vpn access" "agent_hr" "onboarding" st_bad_template H).
Defined.

Lemma X4_witness :
  st_TEMPLATES st0 = TEMPLATES
  /\ exists r st',
       generate_sample "agent_x" "VPN Access" st0 = (Ok r, st')
       /\ PyStr.is_lowercase (input r)
          = lt_0_1 (fst (random (snd (randbelow (length TEMPLATES) (st_rng st0))))).
Proof.
  split; [reflexivity | apply (X4_flip_is_visible "agent_x" "VPN Access" st0); reflexivity].
Defined.

Lemma X5_witness :
  @loaded Lcg_source st0
  /\ exists ds st',
       main_build SAMPLES_PER_INTENT st0 = (Ok ds, st')
       /\ forall r, In r ds ->
            plain (input r) = true
            /\ Json.escape (input r) = input r
            /\ PyFormat.brace_free (input r) = true.
Proof.
  assert (H : @loaded Lcg_source st0) by (split; reflexivity).
  split; [exact H | exact (X5_inputs_are_plain st0 H)].
Defined.

Lemma X6_witness :
  st_TEMPLATES st0 = TEMPLATES
  /\ catalog_pairs (st_AGENTS st0) <> []
  /\ 10 < 50
  /\ exists ds st',
       main_build 50 st0 = (Ok ds, st')
       /\ (forall r, In r ds -> In r (possible_records (st_AGENTS st0)))
       /\ length (possible_records (st_AGENTS st0))
          = 10 * length (catalog_pairs (st_AGENTS st0))
       /\ ~ NoDup ds.
Proof.
  assert (H1 : st_TEMPLATES st0 = TEMPLATES) by reflexivity.
  assert (H2 : catalog_pairs (st_AGENTS st0) <> []) by discriminate.
  assert (H3 : 10 < 50) by lia.
  split; [exact H1|]. split; [exact H2|]. split; [exact H3|].
  exact (X6_dataset_repeats_records st0 50 H1 H2 H3).
Defined.

Lemma X7_witness :
  @loaded Lcg_source st0
  /\ budget_allows (st_io_budget st0) 802 = true
  /\ console_accepts (st_console st0) 3 = true
  /\ exists ds g st1,
       print BANNER st0 = (Ok tt, st1)
       /\ main_build SAMPLES_PER_INTENT st1 = (Ok ds, with_rng g st1)
       /\ main st0
          = (Ok tt,
             mkState g (st_AGENTS st0) (st_TEMPLATES st0)
                     (<[filename := jsonl ds]> (st_files st0))
                     (console_after
                        (st_console st0)
                        [ BANNER;
                          "✅ Generated 800 examples in edgeneuro_training_data.jsonl";
                          NEXT_STEP ])
                     (spend (st_io_budget st0) 802))
       /\ st_stdout (snd (main st0))
          = st_stdout st0
            ++ [ BANNER;
                 "✅ Generated 800 examples in edgeneuro_training_data.jsonl";
                 NEXT_STEP ]
       /\ length (split_lines (jsonl ds)) = 800.
Proof.
  assert (H : @loaded Lcg_source st0) by (split; reflexivity).
  assert (Hb : budget_allows (st_io_budget st0) 802 = true) by reflexivity.
  assert (Hc : console_accepts (st_console st0) 3 = true) by reflexivity.
  split; [exact H|]. split; [exact Hb|]. split; [exact Hc|].
  exact (X7_successful_run st0 H Hb Hc).
Defined.

Lemma X8_witness :
  @loaded Lcg_source st1_budget
  /\ budget_allows (st_io_budget st1_budget) 802 = false
  /\ console_accepts (st_console st1_budget) 1 = true
  /\ fst (main st1_budget) = Raise OSError
  /\ st_stdout (snd (main st1_budget)) = st_stdout st1_budget ++ [BANNER]
  /\ (forall p, p <> filename ->
         st_files (snd (main st1_budget)) !! p = st_files st1_budget !! p)
  /\ loaded (snd (main st1_budget))
  /\ (st_io_budget st1_budget = Some 0 ->
      st_files (snd (main st1_budget)) = st_files st1_budget).
Proof.
  assert (H : @loaded Lcg_source st1_budget) by (split; reflexivity).
  assert (Hb : budget_allows (st_io_budget st1_budget) 802 = false) by reflexivity.
  assert (Hc : console_accepts (st_console st1_budget) 1 = true) by reflexivity.
  split; [exact H|]. split; [exact Hb|]. split; [exact Hc|].
  exact (X8_refused_run st1_budget H Hb Hc).
Defined.


Lemma X10_witness :
  catalog_pairs (st_AGENTS st_no_intent) = []
  /\ budget_allows (st_io_budget st_no_intent) 2 = true
  /\ console_accepts (st_console st_no_intent) 3 = true
  /\ main st_no_intent
     = (Ok tt,
        mkState (st_rng st_no_intent) (st_AGENTS st_no_intent)
                (st_TEMPLATES st_no_intent)
                (<[filename := ""]> (st_files st_no_intent))
                (console_after
                   (st_console st_no_intent)
                   [ BANNER;
                     "✅ Generated 0 examples in edgeneuro_training_data.jsonl";
                     NEXT_STEP ])
                (spend (st_io_budget st_no_intent) 2))
  /\ st_stdout (snd (main st_no_intent))
     = st_stdout st_no_intent
       ++ [ BANNER;
            "✅ Generated 0 examples in edgeneuro_training_data.jsonl";
            NEXT_STEP ].
Proof.
  assert (H1 : catalog_pairs (st_AGENTS st_no_intent) = []) by reflexivity.
  assert (H2 : budget_allows (st_io_budget st_no_intent) 2 = true) by reflexivity.
  assert (H3 : console_accepts (st_console st_no_intent) 3 = true) by reflexivity.
  split; [exact H1|]. split; [exact H2|]. split; [exact H3|].
  exact (X10_empty_catalog st_no_intent H1 H2 H3).
Defined.

Lemma X11_witness :
  st_TEMPLATES st0_counting = TEMPLATES
  /\ exists ds st',
       main_build 2 st0_counting = (Ok ds, st')
       /\ length ds = length (catalog_pairs (st_AGENTS st0_counting)) * 2
       /\ draws st' = draws st0_counting + 2 * length ds + (length ds - 1).
Proof.
  split; [reflexivity | apply (X11_draws_made st0_counting 2); reflexivity].
Defined.

Lemma X12_witness :
  st_TEMPLATES st_flip = TEMPLATES
  /\ lt_0_1 (fst (random (snd (randbelow (length TEMPLATES) (st_rng st_flip)))))
     = true
  /\ PyStr.is_lowercase "VPN access" = false
  /\ exists r st',
       generate_sample "agent_it" "VPN access" st_flip = (Ok r, st')
       /\ output r = Json.dumps (route_dict "agent_it" "VPN access")
       /\ PyStr.occurs_in "vpn access" (input r)
       /\ ~ PyStr.occurs_in "VPN access" (input r).
Proof.
  assert (HT : st_TEMPLATES st_flip = TEMPLATES) by reflexivity.
  assert (Hk : lt_0_1 (fst (random (snd (randbelow (length TEMPLATES)
                                                   (st_rng st_flip)))))
               = true) by (vm_compute; reflexivity).
  assert (Hcap : PyStr.is_lowercase "VPN access" = false) by reflexivity.
  split; [exact HT|]. split; [exact Hk|]. split; [exact Hcap|].
  destruct (X12_flip_hides_capitalised_intent "agent_it" "VPN access" st_flip HT)
    as (r & st' & Hrun & Hout & Hocc & Hhide).
  rewrite Hk in Hocc.
  exists r, st'. split; [exact Hrun|]. split; [exact Hout|].
  split; [exact Hocc | exact (Hhide Hk Hcap)].
Defined.

Lemma X13_witness :
  [3; 1; 2] ≡ₚ [1; 2; 3]
  /\ exists tape,
       length tape = length [1; 2; 3] - 1
       /\ random_shuffle [1; 2; 3] (@with_rng Tape tape st0_tape)
          = (Ok [3; 1; 2], @with_rng Tape [] st0_tape).
Proof.
  assert (H : [3; 1; 2] ≡ₚ [1; 2; 3])
    by exact (Permutation_cons_app [1; 2] [] 3 (Permutation_refl [1; 2])).
  split; [exact H | exact (X13_shuffle_reaches_every_order [1; 2; 3] [3; 1; 2] st0_tape H)].
Defined.
